(** * OpenRAM [compiler/globals.py]: option parsing, configuration merge,
      working directories, tool lookup and the unit-test checkpoint.

    The module keeps one process-wide options object [OPTS] (an
    [optparse.Values] instance: an attribute dictionary backed by the class
    attributes of [options.options]) and a checkpoint [CHECKPOINT_OPTS].
    The functions of the module are embedded as computations over a [world]
    that holds these two globals, the file system, [sys.path], [sys.modules]
    and a trace of the externally visible calls. *)

From stdpp Require Import gmap strings list fin_maps pretty.
From Stdlib Require Import ZArith Ascii String.

#[local] Set Warnings "-register-all".
#[local] Open Scope Z_scope.
#[local] Open Scope string_scope.
#[local] Open Scope list_scope.

(** ** Python values held by the options object *)

(** [VRef l] stands for any object that is not one of the scalar kinds
    (a list, a dictionary view, a float, ...), known by its identity [l]. *)
Inductive value :=
  | VNone
  | VBool (b : bool)
  | VInt (n : Z)
  | VStr (s : string)
  | VRef (l : nat).

#[global] Instance value_eq_dec : EqDecision value.
Proof. solve_decision. Defined.

Abbreviation store := (gmap string value).
Abbreviation items := (list (string * value)).

(** [type(v) != int]: [bool] is a different type. *)
Definition is_int (v : value) : bool :=
  match v with VInt _ => true | _ => false end.

(** ** Strings and POSIX path names *)

Module Str.

Definition slash : ascii := "/"%char.
Definition newline : string := String (ascii_of_nat 10) EmptyString.

Definition startswith (p s : string) : bool := String.prefix p s.

(** [s.endswith(suf)]: some tail of [s] is [suf]. *)
Fixpoint endswith (suf s : string) : bool :=
  bool_decide (s = suf) ||
  match s with
  | EmptyString => false
  | String _ s' => endswith suf s'
  end.

(** [s.split(sep)] for a one-character separator. *)
Fixpoint split (sep : ascii) (s : string) : list string :=
  match s with
  | EmptyString => [EmptyString]
  | String c s' =>
      if bool_decide (c = sep) then EmptyString :: split sep s'
      else match split sep s' with
           | [] => [String c EmptyString]
           | h :: t => String c h :: t
           end
  end.

Definition drop_end (n : nat) (s : string) : string :=
  String.substring 0 (String.length s - n) s.

(** [re.sub(r'\.py$', "", s)]: [$] matches at the end of the string and
    before a newline that ends it, so at most one occurrence is removed. *)
Definition strip_py (s : string) : string :=
  if endswith ".py" s then drop_end 3 s
  else if endswith (".py" +:+ newline) s then drop_end 4 s +:+ newline
  else s.

Fixpoint all_slashes (s : string) : bool :=
  match s with
  | EmptyString => true
  | String c s' => bool_decide (c = slash) && all_slashes s'
  end.

(** [s.rstrip('/')] *)
Fixpoint rstrip_slash (s : string) : string :=
  match s with
  | EmptyString => EmptyString
  | String c s' =>
      match rstrip_slash s' with
      | EmptyString => if bool_decide (c = slash) then EmptyString else String c EmptyString
      | r => String c r
      end
  end.

(** The cut of [posixpath.split]: everything up to and including the last
    slash, and the rest. *)
Fixpoint cut_last_slash (s : string) : string * string :=
  match s with
  | EmptyString => (EmptyString, EmptyString)
  | String c s' =>
      match cut_last_slash s' with
      | (EmptyString, t) =>
          if bool_decide (c = slash) then ("/", t) else (EmptyString, String c t)
      | (h, t) => (String c h, t)
      end
  end.

(** [os.path.split] *)
Definition psplit (s : string) : string * string :=
  let (h, t) := cut_last_slash s in
  (if all_slashes h then h else rstrip_slash h, t).

Definition dirname (s : string) : string := fst (psplit s).
Definition basename (s : string) : string := snd (psplit s).

(** [os.path.isabs] *)
Definition isabs (s : string) : bool := startswith "/" s.

(** [os.path.join(a, b)] *)
Definition join (a b : string) : string :=
  if startswith "/" b then b
  else if bool_decide (a = "") || endswith "/" a then a +:+ b
  else a +:+ "/" +:+ b.

End Str.

(** ** The file system

    A tree of nodes; a path is the list of its components from the root.
    Modes are the permission bits.  Simplifications of this model: the
    process owns every node and is not the superuser; a symbolic link is
    followed when it is the last component of a path, not when it is an
    intermediate one; [.] and [..] are resolved lexically; removing and
    creating entries is not subject to permissions. *)

Inductive node :=
  | File (mode : Z)
  | Link (target : string)
  | Dir (mode : Z) (entries : gmap string node)
  | Special (mode : Z).

Abbreviation path := (list string).

Module FS.

Definition EEXIST : Z := 17.
Definition ENOENT : Z := 2.
Definition ENOTDIR : Z := 20.
Definition EISDIR : Z := 21.

Definition is_dir (n : node) : bool := match n with Dir _ _ => true | _ => false end.
Definition is_file (n : node) : bool := match n with File _ => true | _ => false end.
Definition is_link (n : node) : bool := match n with Link _ => true | _ => false end.

(** Lexical normalisation of a component list ([acc] is reversed). *)
Fixpoint norm (acc : path) (cs : path) : path :=
  match cs with
  | [] => rev acc
  | c :: cs' =>
      if bool_decide (c = "") || bool_decide (c = ".") then norm acc cs'
      else if bool_decide (c = "..") then norm (tail acc) cs'
      else norm (c :: acc) cs'
  end.

(** The components of a path name, relative names taken from [cwd]. *)
Definition path_of (cwd s : string) : path :=
  norm [] (if Str.isabs s then Str.split Str.slash s
           else Str.split Str.slash cwd ++ Str.split Str.slash s).

(** [os.path.abspath] *)
Definition abspath (cwd s : string) : string :=
  "/" +:+ String.concat "/" (path_of cwd s).

Fixpoint lookup_path (p : path) (n : node) : option node :=
  match p with
  | [] => Some n
  | c :: p' =>
      match n with
      | Dir _ es => match es !! c with Some n' => lookup_path p' n' | None => None end
      | _ => None
      end
  end.

(** Apply [f] to the entry at [p]; nothing changes when the parent of [p]
    is not a directory of the tree. *)
Fixpoint update_path (f : option node → option node) (p : path) (n : node) : node :=
  match p with
  | [] => n
  | [c] => match n with Dir m es => Dir m (partial_alter f c es) | _ => n end
  | c :: p' => match n with Dir m es => Dir m (alter (update_path f p') c es) | _ => n end
  end.

Definition delete_path (p : path) (root : node) : node :=
  update_path (λ _, None) p root.

Definition set_mode (m : Z) (n : node) : node :=
  match n with
  | File _ => File m
  | Dir _ es => Dir m es
  | Special _ => Special m
  | Link t => Link t
  end.

Definition chmod_path (m : Z) (p : path) (root : node) : node :=
  match p with
  | [] => set_mode m root
  | _ => update_path (fmap (set_mode m)) p root
  end.

(** Where the link at [p] with target [t] points. *)
Definition link_dest (p : path) (t : string) : path :=
  norm [] (if Str.isabs t then Str.split Str.slash t
           else removelast p ++ Str.split Str.slash t).

Definition MAXSYMLINKS : nat := 40.

Fixpoint follow (fuel : nat) (root : node) (p : path) : option (path * node) :=
  match lookup_path p root with
  | Some (Link t) =>
      match fuel with
      | O => None
      | S fuel' => follow fuel' root (link_dest p t)
      end
  | Some n => Some (p, n)
  | None => None
  end.

(** A name that ends with a slash only names a directory. *)
Definition dir_only (s : string) (r : option (path * node)) : option (path * node) :=
  match r with
  | Some (p, n) => if Str.endswith "/" s && negb (is_dir n) then None else r
  | None => None
  end.

(** [os.stat]: the node a name denotes, links followed. *)
Definition stat (cwd : string) (root : node) (s : string) : option (path * node) :=
  if bool_decide (s = "") then None
  else dir_only s (follow MAXSYMLINKS root (path_of cwd s)).

(** [os.lstat]: the last component is not followed. *)
Definition lstat (cwd : string) (root : node) (s : string) : option (path * node) :=
  if bool_decide (s = "") then None
  else if Str.endswith "/" s then stat cwd root s
  else (λ n, (path_of cwd s, n)) <$> lookup_path (path_of cwd s) root.

Definition exists_ (cwd : string) (root : node) (s : string) : bool :=
  bool_decide (is_Some (stat cwd root s)).

Definition isdir (cwd : string) (root : node) (s : string) : bool :=
  match stat cwd root s with Some (_, n) => is_dir n | None => false end.

Definition isfile (cwd : string) (root : node) (s : string) : bool :=
  match stat cwd root s with Some (_, n) => is_file n | None => false end.

Definition islink (cwd : string) (root : node) (s : string) : bool :=
  match lstat cwd root s with Some (_, n) => is_link n | None => false end.

(** [os.access(s, os.X_OK)]: the owner's execute bit. *)
Definition access_x (cwd : string) (root : node) (s : string) : bool :=
  match stat cwd root s with
  | Some (_, File m) | Some (_, Dir m _) | Some (_, Special m) => Z.testbit m 6
  | _ => false
  end.

(** The chain of directories [os.makedirs] creates below an existing one:
    the leaf gets [mode], the intermediate ones [0o777], both cut by the
    umask. *)
Fixpoint fresh_chain (umask mode : Z) (p : path) : node :=
  match p with
  | [] => Dir (Z.land mode (Z.lnot umask)) ∅
  | c :: p' => Dir (Z.land 511 (Z.lnot umask)) {[ c := fresh_chain umask mode p' ]}
  end.

(** [os.makedirs(p, mode)] on the tree: the new tree, or the errno. *)
Fixpoint mkdirs (umask mode : Z) (p : path) (n : node) : Z + node :=
  match p with
  | [] => inl EEXIST
  | c :: p' =>
      match n with
      | Dir m es =>
          match es !! c with
          | None => inr (Dir m (<[c := fresh_chain umask mode p']> es))
          | Some child =>
              match mkdirs umask mode p' child with
              | inl e => inl e
              | inr child' => inr (Dir m (<[c := child']> es))
              end
          end
      | _ => inl ENOTDIR
      end
  end.

End FS.

(** ** The world of the process *)

Inductive exn :=
  | Exit (status : Z)          (* the process terminates with this status *)
  | OSError (errno : Z)
  | PyError (name : string).   (* any other Python exception, by class name *)

#[global] Instance exn_eq_dec : EqDecision exn.
Proof. solve_decision. Defined.

Inductive event :=
  | EvImportCall (name : string)           (* an import of [name] is requested *)
  | EvLoad (name : string)                 (* the body of module [name] is run *)
  | EvMakedirs (p : string) (mode : Z)
  | EvChmod (p : string) (mode : Z)
  | EvRemove (p : string)
  | EvRmtree (p : string)
  | EvError (msg : string) (status : Z)    (* a call of [debug.error] / [debug.check] *)
  | EvPrint (msg : string).

#[global] Instance event_eq_dec : EqDecision event.
Proof. solve_decision. Defined.

Record world := World {
  opts : store;                    (* [OPTS.__dict__] *)
  checkpoint : option store;       (* [CHECKPOINT_OPTS], [None] or its [__dict__] *)
  fs : node;
  sys_path : list string;
  sys_modules : gmap string items; (* loaded modules and their [__dict__] *)
  trace : list event
}.

Definition set_opts (f : store → store) (w : world) : world :=
  World (f (opts w)) (checkpoint w) (fs w) (sys_path w) (sys_modules w) (trace w).
Definition set_checkpoint (c : option store) (w : world) : world :=
  World (opts w) c (fs w) (sys_path w) (sys_modules w) (trace w).
Definition set_fs (f : node → node) (w : world) : world :=
  World (opts w) (checkpoint w) (f (fs w)) (sys_path w) (sys_modules w) (trace w).
Definition set_sys_path (f : list string → list string) (w : world) : world :=
  World (opts w) (checkpoint w) (fs w) (f (sys_path w)) (sys_modules w) (trace w).
Definition set_sys_modules (f : gmap string items → gmap string items) (w : world) : world :=
  World (opts w) (checkpoint w) (fs w) (sys_path w) (f (sys_modules w)) (trace w).
Definition log (e : event) (w : world) : world :=
  World (opts w) (checkpoint w) (fs w) (sys_path w) (sys_modules w) (trace w ++ [e]).

(** A module found on [sys.path]: the dictionary it ends up with and what
    running its body does to the options object. *)
Record pymodule := PyModule {
  mod_dict : items;
  mod_exec : store → exn + store
}.

(** What the process is started with and the parts of the repository that
    this module only calls. *)
Record environ := Environ {
  class_defaults : store;          (* class attributes of [options.options] *)
  cwd : string;                    (* [os.getcwd()] *)
  umask : Z;
  env_OPENRAM_HOME : option string;
  env_OPENRAM_TECH : option string;
  env_PATH : option string;
  python_version : Z * Z;          (* [sys.version_info.major, .minor] *)
  expand_tilde : string → string;  (* [os.path.expanduser] on a name starting with [~] *)
  find_module : string → list string → option pymodule;
  spice : store;                   (* [tech.spice] *)
  dict_keys : value → option value;(* [d.keys()] *)
  obj_truth : nat → bool;          (* truth value of an object *)
  obj_str : nat → string;          (* [str] of an object *)
  error0 : option Z                (* [debug.error] with its default status *)
}.

(** ** Computations: state and exceptions *)

Inductive result (A : Type) :=
  | Ok (a : A)
  | Raise (e : exn).
Arguments Ok {A} a.
Arguments Raise {A} e.

#[global] Instance result_eq_dec `{EqDecision A} : EqDecision (result A).
Proof. solve_decision. Defined.

Definition M (A : Type) : Type := world → result A * world.

Definition ret {A} (a : A) : M A := λ w, (Ok a, w).
Definition bind {A B} (m : M A) (k : A → M B) : M B :=
  λ w, match m w with
       | (Ok a, w') => k a w'
       | (Raise e, w') => (Raise e, w')
       end.
Definition raise {A} (e : exn) : M A := λ w, (Raise e, w).
Definition get : M world := λ w, (Ok w, w).
Definition modify (f : world → world) : M unit := λ w, (Ok tt, f w).
(** [try: m except: h] *)
Definition catch {A} (m : M A) (h : exn → M A) : M A :=
  λ w, match m w with
       | (Ok a, w') => (Ok a, w')
       | (Raise e, w') => h e w'
       end.

Declare Scope py_scope.
Delimit Scope py_scope with py.
Notation "'let*' x := m 'in' k" := (bind m (λ x, k))
  (at level 10, x pattern, m at level 100, k at level 200) : py_scope.
Notation "m ;; k" := (bind m (λ _, k))
  (at level 100, k at level 200, right associativity) : py_scope.
#[local] Open Scope py_scope.

Definition when (b : bool) (m : M unit) : M unit := if b then m else ret tt.

(** [for x in l: f x] *)
Fixpoint for_each {A} (f : A → M unit) (l : list A) : M unit :=
  match l with
  | [] => ret tt
  | x :: l' => f x ;; for_each f l'
  end.

(** ** The module *)

Section Globals.

Variable E : environ.

(** *** Attribute access on [OPTS] *)

(** [OPTS.k]: the instance dictionary, then the class attributes. *)
Definition lookup_attr (o : store) (k : string) : option value :=
  match o !! k with
  | Some v => Some v
  | None => class_defaults E !! k
  end.

Definition getattr (k : string) : M value :=
  let* w := get in
  match lookup_attr (opts w) k with
  | Some v => ret v
  | None => raise (PyError "AttributeError")
  end.

(** [OPTS.k = v] *)
Definition setattr (k : string) (v : value) : M unit :=
  modify (set_opts (insert k v)).

Definition truthy (v : value) : bool :=
  match v with
  | VNone => false
  | VBool b => b
  | VInt n => negb (Z.eqb n 0)
  | VStr s => negb (bool_decide (s = ""))
  | VRef l => obj_truth E l
  end.

(** [str(v)], as [str.format] inserts it. *)
Definition py_str (v : value) : string :=
  match v with
  | VNone => "None"
  | VBool true => "True"
  | VBool false => "False"
  | VInt n => pretty n
  | VStr s => s
  | VRef l => obj_str E l
  end.

(** [v == s] for a string literal [s] *)
Definition eq_str (v : value) (s : string) : bool :=
  match v with VStr s' => bool_decide (s' = s) | _ => false end.

(** A string method is called on [v]. *)
Definition str_method (v : value) : M string :=
  match v with
  | VStr s => ret s
  | _ => raise (PyError "AttributeError")
  end.

(** [v] is passed where a path name or a string operand is required. *)
Definition str_arg (v : value) : M string :=
  match v with
  | VStr s => ret s
  | _ => raise (PyError "TypeError")
  end.

(** *** The [debug] module *)

(** Modelled from the spec: [debug.error] and [debug.check] are not under
    src/.  Every fatal condition is reported with a message and ends the
    process with a non-zero exit status (spec, section 7): a call that passes
    a non-zero status ends the process with it.  What a call with the default
    status 0 does after its report is left to [error0]: [None] when it
    returns, [Some s] when it ends the process with status [s]. *)
Definition debug_error (msg : string) (status : Z) : M unit :=
  modify (log (EvError msg status)) ;;
  if negb (Z.eqb status 0) then raise (Exit status)
  else match error0 E with
       | Some s => raise (Exit s)
       | None => ret tt
       end.

(** Modelled from the spec: [debug.check(cond, msg)] is fatal when [cond]
    is false. *)
Definition debug_check (cond : bool) (msg : string) : M unit :=
  if cond then ret tt
  else modify (log (EvError msg (-1))) ;; raise (Exit (-1)).

(** *** [os], [shutil] and [importlib] *)

Definition os_path_exists (s : string) : M bool :=
  let* w := get in ret (FS.exists_ (cwd E) (fs w) s).
Definition os_path_isdir (s : string) : M bool :=
  let* w := get in ret (FS.isdir (cwd E) (fs w) s).
Definition os_path_isfile (s : string) : M bool :=
  let* w := get in ret (FS.isfile (cwd E) (fs w) s).
Definition os_path_islink (s : string) : M bool :=
  let* w := get in ret (FS.islink (cwd E) (fs w) s).
Definition os_access_x (s : string) : M bool :=
  let* w := get in ret (FS.access_x (cwd E) (fs w) s).

Definition os_listdir (s : string) : M (list string) :=
  let* w := get in
  match FS.stat (cwd E) (fs w) s with
  | Some (_, Dir _ es) => ret ((map_to_list es).*1)
  | Some _ => raise (OSError FS.ENOTDIR)
  | None => raise (OSError FS.ENOENT)
  end.

(** [os.remove]: unlink one name. *)
Definition os_remove (s : string) : M unit :=
  modify (log (EvRemove s)) ;;
  let* w := get in
  match FS.lstat (cwd E) (fs w) s with
  | Some (_, Dir _ _) => raise (OSError FS.EISDIR)
  | Some (p, _) => modify (set_fs (FS.delete_path p))
  | None => raise (OSError FS.ENOENT)
  end.

(** [shutil.rmtree]: a directory and all below it; refuses anything else. *)
Definition shutil_rmtree (s : string) : M unit :=
  modify (log (EvRmtree s)) ;;
  let* w := get in
  match FS.lstat (cwd E) (fs w) s with
  | Some ([], _) => raise (OSError 16)
  | Some (p, Dir _ _) => modify (set_fs (FS.delete_path p))
  | Some (_, Link _) => raise (OSError 0)
  | Some (_, _) => raise (OSError FS.ENOTDIR)
  | None => raise (OSError FS.ENOENT)
  end.

Definition os_makedirs (s : string) (mode : Z) : M unit :=
  modify (log (EvMakedirs s mode)) ;;
  let* w := get in
  if bool_decide (s = "") then raise (OSError FS.ENOENT)
  else match FS.mkdirs (umask E) mode (FS.path_of (cwd E) s) (fs w) with
       | inl e => raise (OSError e)
       | inr root' => modify (set_fs (λ _, root'))
       end.

Definition os_chmod (s : string) (mode : Z) : M unit :=
  modify (log (EvChmod s mode)) ;;
  let* w := get in
  match FS.stat (cwd E) (fs w) s with
  | Some (p, _) => modify (set_fs (FS.chmod_path mode p))
  | None => raise (OSError FS.ENOENT)
  end.

(** [os.path.expanduser] *)
Definition expanduser (s : string) : string :=
  if Str.startswith "~" s then expand_tilde E s else s.

(** [import name] / [importlib.import_module(name)]: a module already in
    [sys.modules] is returned as it is; otherwise it is looked up on
    [sys.path] and its body is run. *)
Definition py_import (name : string) : M items :=
  modify (log (EvImportCall name)) ;;
  let* w := get in
  match sys_modules w !! name with
  | Some d => ret d
  | None =>
      match find_module E name (sys_path w) with
      | None => raise (PyError "ImportError")
      | Some m =>
          modify (log (EvLoad name)) ;;
          match mod_exec m (opts w) with
          | inl e => raise e
          | inr o' =>
              modify (set_opts (λ _, o')) ;;
              modify (set_sys_modules (insert name (mod_dict m))) ;;
              ret (mod_dict m)
          end
      end
  end.

(** *** [parse_args] *)

(** The options of the command line, as [optparse] recognises them. *)
Inductive cli_option :=
  | Backannotated                 (* -b: store_true  run_pex *)
  | Output (s : string)           (* -o: store       output_name *)
  | Outpath (s : string)          (* -p: store       output_path *)
  | Nocheck                       (* -n: store_false check_lvsdrc *)
  | Verbose                       (* -v: count       debug_level *)
  | Tech (s : string)             (* -t: store       tech_name *)
  | Spice (s : string)            (* -s: store       spice_name *)
  | RemoveNetlistTrimming         (* -r: store_false trim_netlist *)
  | Characterize                  (* -c: store_false analytical_delay *)
  | Dontpurge.                    (* -d: store_false purge_temp *)

(** [values.ensure_value(k, v)] of [optparse.Values] *)
Definition ensure_value (k : string) (v : value) : M value :=
  let* w := get in
  match lookup_attr (opts w) k with
  | None | Some VNone => setattr k v ;; getattr k
  | Some _ => getattr k
  end.

(** [v + 1] *)
Definition add_one (v : value) : M value :=
  match v with
  | VInt n => ret (VInt (n + 1))
  | VBool b => ret (VInt ((if b then 1 else 0) + 1))
  | _ => raise (PyError "TypeError")
  end.

(** The action [optparse] takes for one option: only the options present
    on the command line are stored into [OPTS]. *)
Definition take_action (o : cli_option) : M unit :=
  match o with
  | Backannotated => setattr "run_pex" (VBool true)
  | Output s => setattr "output_name" (VStr s)
  | Outpath s => setattr "output_path" (VStr s)
  | Nocheck => setattr "check_lvsdrc" (VBool false)
  | Verbose =>
      let* v := ensure_value "debug_level" (VInt 0) in
      let* v' := add_one v in
      setattr "debug_level" v'
  | Tech s => setattr "tech_name" (VStr s)
  | Spice s => setattr "spice_name" (VStr s)
  | RemoveNetlistTrimming => setattr "trim_netlist" (VBool false)
  | Characterize => setattr "analytical_delay" (VBool false)
  | Dontpurge => setattr "purge_temp" (VBool false)
  end.

Definition parse_args (argv : list cli_option) (args : list string) : M (list string) :=
  for_each take_action argv ;;
  let* t := getattr "tech_name" in
  when (eq_str t "") (setattr "tech_name" (VStr "scmos")) ;;
  let* t := getattr "tech_name" in
  when (eq_str t "scmos") (setattr "tech_name" (VStr "scn3me_subm")) ;;
  ret args.

(** *** [check_versions] *)

Definition check_versions : M unit :=
  let (major, minor) := python_version E in
  when (negb (Z.eqb major 3 && Z.leb 5 minor))
       (debug_error "Python 3.5 or greater is required." (-1)).

(** *** [is_exe], [find_exe], [get_tool] *)

Definition is_exe (fpath : string) : M bool :=
  let* e := os_path_exists fpath in
  if e then os_access_x fpath else ret false.

Fixpoint find_exe_in (dirs : list string) (check_exe : string) : M (option string) :=
  match dirs with
  | [] => ret None
  | d :: dirs' =>
      let exe := Str.join d check_exe in
      let* x := is_exe exe in
      if x then ret (Some exe) else find_exe_in dirs' check_exe
  end.

Definition find_exe (check_exe : string) : M (option string) :=
  match env_PATH E with
  | None => raise (PyError "KeyError")
  | Some p => find_exe_in (Str.split ":"%char p) check_exe
  end.



(** *** [cleanup_paths] *)

Definition cleanup_entry (i : string) : M unit :=
  let* f := os_path_isfile i in
  let* l := (if f then ret true else os_path_islink i) in
  if l then os_remove i else shutil_rmtree i.

Definition cleanup_paths : M unit :=
  let* purge := getattr "purge_temp" in
  if negb (truthy purge) then
    (* the message of [debug.info] reads [OPTS.openram_temp] *)
    getattr "openram_temp" ;; ret tt
  else
    let* t := getattr "openram_temp" in
    let* temp := str_arg t in
    let* e := os_path_exists temp in
    when e (let* names := os_listdir temp in
            for_each cleanup_entry (Str.join temp <$> names)).

(** *** [setup_paths] *)

(** [try: os.makedirs(p, 0o750)] with the handler [except OSError as e:
    if e.errno == 17: os.chmod(p, 0o750)]; [other] is what a second handler
    does with an exception that is not an [OSError]. *)
Definition makedirs_or_chmod (p : string) (other : exn → M unit) : M unit :=
  catch (os_makedirs p 488)
        (λ e, match e with
              | OSError n => when (Z.eqb n 17) (os_chmod p 488)
              | _ => other e
              end).

Definition setup_paths : M unit :=
  let* home :=
    match env_OPENRAM_HOME E with
    | Some h => ret (FS.abspath (cwd E) h)
    | None =>
        debug_error "$OPENRAM_HOME is not properly defined." 1 ;;
        raise (PyError "UnboundLocalError")
    end in
  let* d := os_path_isdir home in
  debug_check d ("$OPENRAM_HOME does not exist: " +:+ home) ;;
  for_each (λ subdir,
      let full_path := home +:+ "/" +:+ subdir in
      let* d := os_path_isdir full_path in
      debug_check d ("$OPENRAM_HOME/" +:+ subdir +:+ " does not exist: " +:+ full_path) ;;
      modify (set_sys_path (λ l, (l ++ [full_path])%list)))
    ["gdsMill"; "tests"; "modules"; "base"; "pgates"] ;;
  let* t := getattr "openram_temp" in
  let* temp := str_method t in
  when (negb (Str.endswith "/" temp)) (setattr "openram_temp" (VStr (temp +:+ "/"))) ;;
  cleanup_paths ;;
  let* t := getattr "openram_temp" in
  let* temp := str_arg t in
  makedirs_or_chmod temp raise.

(** *** [read_config] *)

(** The loop over [config.__dict__.items()]: the command line wins over the
    configuration file, except for the technology name. *)
Definition merge_item (kv : string * value) (o : store) : store :=
  let (k, v) := kv in
  if negb (bool_decide (k ∈ dom o)) || bool_decide (k = "tech_name")
  then <[k := v]> o
  else o.

Definition merge_config (config : items) : M unit :=
  for_each (λ kv, modify (set_opts (merge_item kv))) config.

Definition default_output_name : M string :=
  let* word_size := getattr "word_size" in
  let* num_words := getattr "num_words" in
  let* num_banks := getattr "num_banks" in
  let* num_rw_ports := getattr "num_rw_ports" in
  let* num_w_ports := getattr "num_w_ports" in
  let* num_r_ports := getattr "num_r_ports" in
  let* tech_name := getattr "tech_name" in
  ret ("sram_" +:+ py_str word_size +:+ "b_" +:+ py_str num_words +:+ "w_"
       +:+ py_str num_banks +:+ "bank_" +:+ py_str num_rw_ports +:+ "rw_"
       +:+ py_str num_w_ports +:+ "w_" +:+ py_str num_r_ports +:+ "r_"
       +:+ py_str tech_name).

(** The module name [read_config] imports for [config_file], and the
    directory it puts in front of [sys.path]. *)
Definition config_path (config_file : string) : string :=
  let config_file :=
    if negb (Str.isabs config_file) then cwd E +:+ "/" +:+ config_file
    else config_file in
  expanduser (Str.strip_py config_file).

Definition read_config (config_file : string) (is_unit_test : bool) : M unit :=
  let config_file := config_path config_file in
  let dir_name := Str.dirname config_file in
  let file_name := Str.basename config_file in
  modify (set_sys_path (cons dir_name)) ;;
  let* config :=
    catch (py_import file_name)
          (λ _, debug_error ("Unable to read configuration file: " +:+ config_file) 2 ;;
                raise (PyError "UnboundLocalError")) in
  merge_config config ;;
  (* Massage the output path to be an absolute one *)
  let* v := getattr "output_path" in
  let* p := str_method v in
  when (negb (Str.endswith "/" p)) (setattr "output_path" (VStr (p +:+ "/"))) ;;
  let* v := getattr "output_path" in
  let* p := str_method v in
  when (negb (Str.startswith "/" p))
       (setattr "output_path" (VStr (cwd E +:+ "/" +:+ p))) ;;
  setattr "is_unit_test" (VBool is_unit_test) ;;
  let* netlist_only := getattr "netlist_only" in
  when (truthy netlist_only) (setattr "check_lvsdrc" (VBool false)) ;;
  let* output_name := getattr "output_name" in
  when (eq_str output_name "")
       (let* n := default_output_name in setattr "output_name" (VStr n)) ;;
  let* v := getattr "output_path" in
  let* p := str_arg v in
  makedirs_or_chmod p (λ _, debug_error "Unable to make output directory." (-1)).

(** *** [import_tech] *)

(** [except ImportError] *)
Definition is_import_error (e : exn) : bool :=
  match e with
  | PyError name => bool_decide (name = "ImportError")
  | _ => false
  end.

Definition tech_default (k : string) (compute : M value) : M unit :=
  let* v := getattr k in
  when (eq_str v "") (let* d := compute in setattr k d).

Definition spice_item (k : string) : M value :=
  match spice E !! k with
  | Some v => ret v
  | None => raise (PyError "KeyError")
  end.

Definition import_tech : M unit :=
  (* the message of [debug.info] is ["Importing technology: " + OPTS.tech_name] *)
  let* t := getattr "tech_name" in
  let* _ := str_arg t in
  let* tech_root :=
    match env_OPENRAM_TECH E with
    | Some t => ret (FS.abspath (cwd E) t)
    | None =>
        debug_error "$OPENRAM_TECH is not properly defined." 1 ;;
        raise (PyError "UnboundLocalError")
    end in
  let* d := os_path_isdir tech_root in
  debug_check d ("$OPENRAM_TECH does not exist: " +:+ tech_root) ;;
  let* t := getattr "tech_name" in
  let* tech_name := str_arg t in
  setattr "openram_tech" (VStr (tech_root +:+ "/" +:+ tech_name)) ;;
  let* v := getattr "openram_tech" in
  let* openram_tech := str_method v in
  when (negb (Str.endswith "/" openram_tech))
       (setattr "openram_tech" (VStr (openram_tech +:+ "/"))) ;;
  let* t := getattr "tech_name" in
  let filename := "setup_openram_" +:+ py_str t in
  catch
    (let p := py_str (from_option VStr VNone (env_OPENRAM_TECH E)) +:+ "/setup_scripts" in
     let* d := os_path_isdir p in
     debug_check d ("OPENRAM_TECH does not exist: " +:+ p) ;;
     modify (set_sys_path (λ l, (l ++ [FS.abspath (cwd E) p])%list)) ;;
     py_import filename ;;
     ret tt)
    (λ e, if is_import_error e then
            debug_error ("Nonexistent technology_setup_file: " +:+ filename +:+ ".py") 0 ;;
            raise (Exit 1)
          else raise e) ;;
  py_import "tech" ;;
  tech_default "process_corners"
    (let* m := spice_item "fet_models" in
     match dict_keys E m with
     | Some ks => ret ks
     | None => raise (PyError "AttributeError")
     end) ;;
  tech_default "supply_voltages" (spice_item "supply_voltages") ;;
  tech_default "temperatures" (spice_item "temperatures").

(** *** [init_openram] *)

Definition init_openram (config_file : string) (is_unit_test : bool) : M unit :=
  check_versions ;;
  setup_paths ;;
  read_config config_file is_unit_test ;;
  import_tech ;;
  (* Reset the static duplicate name checker for unit tests. *)
  py_import "hierarchy_design" ;;
  let* w := get in
  match (if is_unit_test then checkpoint w else None) with
  | Some c =>
      (* OPTS.__dict__ = CHECKPOINT_OPTS.__dict__.copy() *)
      modify (set_opts (λ _, c))
  | None =>
      py_import "characterizer" ;;
      py_import "verify" ;;
      let* w := get in
      match checkpoint w with
      | Some _ => ret tt
      | None =>
          (* CHECKPOINT_OPTS = copy.copy(OPTS) *)
          modify (set_checkpoint (Some (opts w)))
      end
  end.

(** *** [report_status] *)

Definition report_status : M unit :=
  let* word_size := getattr "word_size" in
  when (negb (is_int word_size))
       (debug_error (py_str word_size +:+ " is not an integer in config file.") 0) ;;
  let* num_words := getattr "num_words" in
  when (negb (is_int num_words))
       (let* sram_size := getattr "sram_size" in
        debug_error (py_str sram_size +:+ " is not an integer in config file.") 0) ;;
  let* num_banks := getattr "num_banks" in
  when (negb (is_int num_banks))
       (debug_error (py_str num_banks +:+ " is not an integer in config file.") 0) ;;
  let* tech_name := getattr "tech_name" in
  when (negb (truthy tech_name))
       (debug_error "Tech name must be specified in config file." 0) ;;
  let* tech_name := getattr "tech_name" in
  modify (log (EvPrint ("Technology: " +:+ py_str tech_name))) ;;
  let* word_size := getattr "word_size" in
  let* num_words := getattr "num_words" in
  let* num_banks := getattr "num_banks" in
  modify (log (EvPrint ("Word size: " +:+ py_str word_size +:+ Str.newline
                        +:+ "Words: " +:+ py_str num_words +:+ Str.newline
                        +:+ "Banks: " +:+ py_str num_banks))) ;;
  let* netlist_only := getattr "netlist_only" in
  when (truthy netlist_only)
       (modify (log (EvPrint "Netlist only mode (no physical design is being done)."))) ;;
  let* check_lvsdrc := getattr "check_lvsdrc" in
  when (negb (truthy check_lvsdrc))
       (modify (log (EvPrint "DRC/LVS/PEX checking is disabled."))).

End Globals.

(** ** A sample installation

    One concrete environment and file system, used to run the functions. *)

Module Demo.

(** Class attributes of [options.options], as an OpenRAM installation
    declares them. *)
Definition defaults : store :=
  list_to_map
    [ ("tech_name", VStr ""); ("openram_tech", VStr "");
      ("openram_temp", VStr "/tmp/openram_temp/");
      ("debug_level", VInt 0); ("check_lvsdrc", VBool true);
      ("spice_name", VStr ""); ("trim_netlist", VBool true);
      ("output_path", VStr "."); ("output_name", VStr "");
      ("analytical_delay", VBool true); ("purge_temp", VBool true);
      ("num_rw_ports", VInt 1); ("num_r_ports", VInt 0); ("num_w_ports", VInt 0);
      ("supply_voltages", VStr ""); ("temperatures", VStr "");
      ("process_corners", VStr ""); ("netlist_only", VBool false);
      ("is_unit_test", VBool false) ].

Definition plain (d : items) : pymodule := PyModule d inr.

(** [config_a]: a 32-bit SRAM for freepdk45 with a list-valued option. *)
Definition config_a : items :=
  [ ("word_size", VInt 32); ("num_words", VInt 128); ("num_banks", VInt 1);
    ("tech_name", VStr "freepdk45"); ("output_path", VStr "/tmp/y");
    ("corners", VRef 7) ].

(** [config_b]: the word size is given as a string. *)
Definition config_b : items :=
  [ ("word_size", VStr "32"); ("num_words", VInt 128); ("num_banks", VInt 1);
    ("tech_name", VStr "freepdk45"); ("extra", VInt 1) ].

(** [characterizer] looks up the simulator when it is loaded. *)
Definition characterizer : pymodule :=
  PyModule [] (λ o, inr (<["spice_exe" := VStr "/usr/bin/ngspice"]> o)).

Definition finder (name : string) (sp : list string) : option pymodule :=
  if bool_decide (name = "config_a") then
    if bool_decide ("/home/user" ∈ sp) then Some (plain config_a) else None
  else if bool_decide (name = "config_b") then
    if bool_decide ("/home/user" ∈ sp) then Some (plain config_b) else None
  else if bool_decide (name = "characterizer") then Some characterizer
  else if bool_decide (name ∈ ["setup_openram_freepdk45"; "tech";
                               "hierarchy_design"; "verify"])
  then Some (plain [])
  else None.

Definition env : environ := {|
  class_defaults := defaults;
  cwd := "/home/user";
  umask := 18;
  env_OPENRAM_HOME := Some "/opt/openram/compiler";
  env_OPENRAM_TECH := Some "/opt/openram/technology";
  env_PATH := Some "/usr/local/bin:/usr/bin";
  python_version := (3, 9);
  expand_tilde := λ s, "/home/user" +:+ String.substring 1 (String.length s) s;
  find_module := finder;
  spice := list_to_map [ ("fet_models", VRef 1); ("supply_voltages", VRef 2);
                         ("temperatures", VRef 3) ];
  dict_keys := λ v, match v with VRef 1 => Some (VRef 4) | _ => None end;
  obj_truth := λ _, true;
  obj_str := λ _, "<object>";
  error0 := None
|}.

Definition dir (m : Z) (l : list (string * node)) : node := Dir m (list_to_map l).

(** What an earlier run left in the temporary directory. *)
Definition temp_entries : gmap string node :=
  list_to_map [ ("run.sp", File 420); ("latest", Link "run.sp");
                ("gds", dir 493 [ ("a.gds", File 420) ]) ].

Definition root : node :=
  dir 493
    [ ("opt", dir 493
        [ ("openram", dir 493
            [ ("compiler", dir 493
                [ ("gdsMill", dir 493 []); ("tests", dir 493 []);
                  ("modules", dir 493 []); ("base", dir 493 []);
                  ("pgates", dir 493 []) ]);
              ("technology", dir 493
                [ ("setup_scripts", dir 493 []); ("freepdk45", dir 493 []) ]) ]) ]);
      ("usr", dir 493
        [ ("local", dir 493 [ ("bin", dir 493 [ ("hspice", File 420) ]) ]);
          ("bin", dir 493
            [ ("ngspice", File 493); ("spice", Link "ngspice");
              ("hspice", File 493) ]) ]);
      ("home", dir 493 [ ("user", dir 493 [ ("notes", File 420) ]) ]);
      ("tmp", dir 511 [ ("openram_temp", Dir 488 temp_entries) ]) ].

(** The process right after start: nothing stored, no checkpoint. *)
Definition start : world := World ∅ None root [] ∅ [].

(** The world a computation ends in. *)
Definition after {A} (m : M A) (w : world) : world := (m w).2.

(** The process after [openram.py -p /tmp/x config_a]. *)
Definition parsed_x : world :=
  after (parse_args env [Outpath "/tmp/x"] ["config_a"]) start.

(** The process after a first [init_openram("config_a", False)]. *)
Definition booted : world := after (init_openram env "config_a" false) start.

(** The same installation with a [debug.error] that always ends the
    process. *)
Definition strict_env : environ := {|
  class_defaults := defaults;
  cwd := "/home/user";
  umask := 18;
  env_OPENRAM_HOME := Some "/opt/openram/compiler";
  env_OPENRAM_TECH := Some "/opt/openram/technology";
  env_PATH := Some "/usr/local/bin:/usr/bin";
  python_version := (3, 9);
  expand_tilde := expand_tilde env;
  find_module := finder;
  spice := spice env;
  dict_keys := dict_keys env;
  obj_truth := λ _, true;
  obj_str := λ _, "<object>";
  error0 := Some 1
|}.

(** A process whose temporary directory is to be made below a regular
    file. *)
Definition temp_below_file : world :=
  set_opts (insert "openram_temp" (VStr "/home/user/notes/tmp")) start.

(** The process after [openram.py -p /home/user/notes/out config_a]: the
    output directory is to be made below a regular file. *)
Definition parsed_below_file : world :=
  after (parse_args env [Outpath "/home/user/notes/out"] ["config_a"]) start.

End Demo.

(** * Properties *)

(** ** Running a computation *)

Lemma bind_inv {A B} (m : M A) (k : A → M B) w r w' :
  bind m k w = (r, w') →
  (∃ a w1, m w = (Ok a, w1) ∧ k a w1 = (r, w')) ∨
  (∃ e, m w = (Raise e, w') ∧ r = Raise e).
Proof.
  unfold bind. destruct (m w) as [[a|e] w1]; intros H.
  - left. eauto.
  - right. inversion H; subst. eauto.
Qed.

Lemma bind_ok_inv {A B} (m : M A) (k : A → M B) w b w' :
  bind m k w = (Ok b, w') →
  ∃ a w1, m w = (Ok a, w1) ∧ k a w1 = (Ok b, w').
Proof.
  intros H. apply bind_inv in H as [H|(e & _ & H)]; [done | discriminate].
Qed.

Lemma bind_ok {A B} (m : M A) (k : A → M B) w a w1 :
  m w = (Ok a, w1) → bind m k w = k a w1.
Proof. unfold bind. by intros ->. Qed.

(** Decide a closed proposition by evaluation. *)
Ltac by_compute :=
  lazymatch goal with
  | |- ?P =>
      let d := constr:(_ : Decision P) in
      apply (@bool_decide_unpack P d); vm_compute; exact I
  end.

(** ** Relations that every step of a computation respects *)

Definition stable {A} (R : relation world) (m : M A) : Prop :=
  ∀ w r w', m w = (r, w') → R w w'.

Section Stable.

Context (R : relation world) `{!PreOrder R}.

Lemma stable_ret {A} (a : A) : stable R (ret a).
Proof. intros w r w' [= _ <-]. reflexivity. Qed.

Lemma stable_raise {A} e : stable R (@raise A e).
Proof. intros w r w' [= _ <-]. reflexivity. Qed.

Lemma stable_get : stable R get.
Proof. intros w r w' [= _ <-]. reflexivity. Qed.

Lemma stable_modify f : (∀ w, R w (f w)) → stable R (modify f).
Proof. intros Hf w r w' [= _ <-]. apply Hf. Qed.

Lemma stable_bind {A B} (m : M A) (k : A → M B) :
  stable R m → (∀ a, stable R (k a)) → stable R (bind m k).
Proof.
  intros Hm Hk w r w' H.
  apply bind_inv in H as [(a & w1 & H1 & H2)|(e & H1 & _)].
  - etrans; [by eapply Hm | by eapply Hk].
  - by eapply Hm.
Qed.

Lemma stable_catch {A} (m : M A) (h : exn → M A) :
  stable R m → (∀ e, stable R (h e)) → stable R (catch m h).
Proof.
  intros Hm Hh w r w'. unfold catch.
  destruct (m w) as [[a|e] w1] eqn:Hw; intros H.
  - inversion H; subst. by eapply Hm.
  - etrans; [by eapply Hm | by eapply Hh].
Qed.

Lemma stable_when b m : stable R m → stable R (when b m).
Proof. destruct b; [done | intros _; apply stable_ret]. Qed.

Lemma stable_for_each {A} (f : A → M unit) l :
  (∀ x, stable R (f x)) → stable R (for_each f l).
Proof.
  intros Hf. induction l as [|x l IH]; simpl.
  - apply stable_ret.
  - apply stable_bind; auto.
Qed.

End Stable.

(** Break a goal [stable R m] down along the structure of [m]; what is left
    are the state changes, which [tac] is to solve. *)
Ltac stable_step tac :=
  lazymatch goal with
  | |- stable _ (bind _ _) => apply stable_bind; try tc_solve; [|intros ?]
  | |- stable _ (ret _) => apply stable_ret; tc_solve
  | |- stable _ (raise _) => apply stable_raise; tc_solve
  | |- stable _ get => apply stable_get; tc_solve
  | |- stable _ (modify _) => apply stable_modify; intros ?; tac
  | |- stable _ (catch _ _) => apply stable_catch; try tc_solve; [|intros ?]
  | |- stable _ (when _ _) => apply stable_when; try tc_solve
  | |- stable _ (for_each _ _) => apply stable_for_each; try tc_solve; intros ?
  | |- stable _ (match ?x with _ => _ end) => destruct x
  end.
Ltac stable_with tac := repeat stable_step tac.


Create HintDb py discriminated.
#[global] Hint Unfold getattr setattr str_method str_arg debug_error debug_check
  os_path_exists os_path_isdir os_path_isfile os_path_islink os_access_x
  os_listdir os_remove shutil_rmtree os_makedirs os_chmod py_import
  makedirs_or_chmod cleanup_entry cleanup_paths default_output_name
  tech_default spice_item ensure_value add_one take_action check_versions
  is_exe find_exe merge_config : py.

(** The relations used below. *)

(** [CHECKPOINT_OPTS] is not assigned. *)
Definition keeps_checkpoint (w w' : world) : Prop :=
  checkpoint w' = checkpoint w.

(** The instance dictionary of [OPTS] keeps its entry for [k]. *)
Definition keeps_attr (k : string) (w w' : world) : Prop :=
  opts w' !! k = opts w !! k.

(** The trace is only extended. *)
Definition extends_trace (w w' : world) : Prop :=
  trace w `prefix_of` trace w'.

#[global] Instance keeps_checkpoint_preorder : PreOrder keeps_checkpoint.
Proof. split; unfold keeps_checkpoint; [intros ?|intros ???]; congruence. Qed.

#[global] Instance keeps_attr_preorder k : PreOrder (keeps_attr k).
Proof. split; unfold keeps_attr; [intros ?|intros ???]; congruence. Qed.

#[global] Instance extends_trace_preorder : PreOrder extends_trace.
Proof.
  split; unfold extends_trace; [intros ?|intros ??? ??]; [done | by etrans].
Qed.

(** ** The merge of the configuration file (C1, C2) *)

Lemma merge_config_run (config : items) (w : world) :
  merge_config config w =
  (Ok tt, set_opts (λ o, foldl (flip merge_item) o config) w).
Proof.
  revert w. unfold merge_config.
  induction config as [|kv config IH]; intros w; simpl.
  - by destruct w.
  - unfold bind, modify at 1. rewrite IH. by destruct w.
Qed.

Lemma merge_item_set_key (kv : string * value) (o : store) (k : string) :
  is_Some (o !! k) → k ≠ "tech_name" → merge_item kv o !! k = o !! k.
Proof.
  intros Hk Hne. destruct kv as [k' v]. unfold merge_item.
  destruct (decide (k' = k)) as [->|Hkk].
  - rewrite bool_decide_eq_true_2 by by apply elem_of_dom.
    by rewrite bool_decide_eq_false_2.
  - case_match; [by rewrite lookup_insert_ne | done].
Qed.

Lemma merge_item_other_key (k' : string) (v : value) (o : store) (k : string) :
  k' ≠ k → merge_item (k', v) o !! k = o !! k.
Proof.
  intros Hne. unfold merge_item. case_match; [by rewrite lookup_insert_ne | done].
Qed.

Lemma merge_item_tech_name (v : value) (o : store) :
  merge_item ("tech_name", v) o !! "tech_name" = Some v.
Proof.
  unfold merge_item. rewrite (bool_decide_eq_true_2 (_ = _)) by done.
  rewrite orb_true_r. apply lookup_insert_eq.
Qed.

Lemma merge_fold_set_key (config : items) (o : store) (k : string) :
  is_Some (o !! k) → k ≠ "tech_name" →
  foldl (flip merge_item) o config !! k = o !! k.
Proof.
  intros Hk Hne. revert o Hk.
  induction config as [|kv config IH]; intros o Hk; simpl; [done|].
  rewrite IH; unfold flip; rewrite merge_item_set_key; done.
Qed.

Lemma merge_fold_absent_key (config : items) (o : store) (k : string) :
  k ∉ config.*1 → foldl (flip merge_item) o config !! k = o !! k.
Proof.
  revert o. induction config as [|[k' v] config IH]; intros o Hk; simpl; [done|].
  rewrite fmap_cons, not_elem_of_cons in Hk. destruct Hk as [Hk1 Hk2].
  rewrite IH by done. unfold flip. by apply merge_item_other_key.
Qed.

Lemma merge_fold_tech_name (config : items) (o : store) (v : value) :
  NoDup config.*1 → ("tech_name", v) ∈ config →
  foldl (flip merge_item) o config !! "tech_name" = Some v.
Proof.
  revert o. induction config as [|[k' v'] config IH]; intros o Hnd Hin; simpl.
  - by apply elem_of_nil in Hin.
  - rewrite fmap_cons in Hnd. apply NoDup_cons in Hnd as [Hk' Hnd].
    apply elem_of_cons in Hin as [[= <- <-]|Hin].
    + rewrite merge_fold_absent_key by done. apply merge_item_tech_name.
    + by apply IH.
Qed.

(** C1. A key that is already in the store before the configuration file
    is merged (for instance because the command line set it) keeps its
    value through the merge loop of [read_config], unless it is the
    technology name. *)
Theorem merge_config_keeps_set_keys (config : items) (w : world) (k : string) :
  is_Some (opts w !! k) → k ≠ "tech_name" →
  ∃ w', merge_config config w = (Ok tt, w') ∧ opts w' !! k = opts w !! k.
Proof.
  intros Hk Hne. eexists. split; [apply merge_config_run|].
  destruct w; simpl in *. by apply merge_fold_set_key.
Qed.

Lemma merge_config_keeps_set_keys_witness :
  ∃ w', merge_config Demo.config_a Demo.parsed_x = (Ok tt, w') ∧
        opts w' !! "output_path" = Some (VStr "/tmp/x").
Proof.
  destruct (merge_config_keeps_set_keys Demo.config_a Demo.parsed_x "output_path")
    as (w' & Hrun & Hk).
  - by exists (VStr "/tmp/x").
  - done.
  - exists w'. split; [exact Hrun | exact Hk].
Defined.

(** What the import in [read_config] yields for [config_file]: the module
    of that name in [sys.modules], else the one found on [sys.path] behind
    the directory of the file. *)
Definition config_module (E : environ) (config_file : string) (w : world)
    : option items :=
  let file := config_path E config_file in
  match sys_modules w !! Str.basename file with
  | Some d => Some d
  | None => mod_dict <$> find_module E (Str.basename file)
                                     (Str.dirname file :: sys_path w)
  end.

(** Running the body of the module found for [name] leaves the options
    object as it is. *)
Definition plain_module (E : environ) (name : string) (sp : list string)
    (o : store) : Prop :=
  ∀ m, find_module E name sp = Some m → mod_exec m o = inr o.

Lemma py_import_ok (E : environ) name w d w1 :
  py_import E name w = (Ok d, w1) →
  match sys_modules w !! name with
  | Some d' => Some d'
  | None => mod_dict <$> find_module E name (sys_path w)
  end = Some d ∧
  (plain_module E name (sys_path w) (opts w) → opts w1 = opts w) ∧
  trace w ++ [EvImportCall name] `prefix_of` trace w1.
Proof.
  unfold py_import, plain_module, bind, modify, get, ret, raise; simpl.
  destruct (sys_modules w !! name); [by intros [= -> <-]|].
  destruct (find_module E name (sys_path w)) as [m|]; [|done]; simpl.
  destruct (mod_exec m (opts w)) as [|o'] eqn:Hexec; [done|].
  intros [= <- <-]. split; [done|]. simpl. split; [|by apply prefix_app_r].
  intros Hplain. specialize (Hplain m eq_refl). congruence.
Qed.

Lemma catch_ok_inv {A} (m : M A) (h : exn → M A) w a w' :
  (∀ e w1, ∃ e' w2, h e w1 = (Raise e', w2)) →
  catch m h w = (Ok a, w') → m w = (Ok a, w').
Proof.
  intros Hh. unfold catch. destruct (m w) as [[a1|e] w1]; [done|].
  destruct (Hh e w1) as (e' & w2 & ->). done.
Qed.

Lemma debug_error_fatal (E : environ) {A} msg status (k : M A) w :
  status ≠ 0 →
  ∃ w', (debug_error E msg status ;; k) w = (Raise (Exit status), w').
Proof.
  intros Hs. unfold debug_error, bind, modify; simpl.
  apply Z.eqb_neq in Hs. rewrite Hs. simpl. eauto.
Qed.

(** The configuration file only defines names: running it does not touch
    the options object. *)
Definition config_is_plain (E : environ) (config_file : string) (w : world) : Prop :=
  let file := config_path E config_file in
  plain_module E (Str.basename file) (Str.dirname file :: sys_path w) (opts w).

(** What [read_config] does once the configuration file is merged. *)
Definition finish_config (E : environ) (is_unit_test : bool) : M unit :=
  let* v := getattr E "output_path" in
  let* p := str_method v in
  when (negb (Str.endswith "/" p)) (setattr "output_path" (VStr (p +:+ "/"))) ;;
  let* v := getattr E "output_path" in
  let* p := str_method v in
  when (negb (Str.startswith "/" p))
       (setattr "output_path" (VStr (cwd E +:+ "/" +:+ p))) ;;
  setattr "is_unit_test" (VBool is_unit_test) ;;
  let* netlist_only := getattr E "netlist_only" in
  when (truthy E netlist_only) (setattr "check_lvsdrc" (VBool false)) ;;
  let* output_name := getattr E "output_name" in
  when (eq_str output_name "")
       (let* n := default_output_name E in setattr "output_name" (VStr n)) ;;
  let* v := getattr E "output_path" in
  let* p := str_arg v in
  makedirs_or_chmod E p (λ _, debug_error E "Unable to make output directory." (-1)).

(** The state in which [read_config] has merged the configuration file. *)
Lemma read_config_merged (E : environ) cf u w w' :
  read_config E cf u w = (Ok tt, w') →
  ∃ config w1,
    config_module E cf w = Some config ∧
    (config_is_plain E cf w → opts w1 = opts w) ∧
    trace w ++ [EvImportCall (Str.basename (config_path E cf))]
      `prefix_of` trace w1 ∧
    finish_config E u (set_opts (λ o, foldl (flip merge_item) o config) w1)
      = (Ok tt, w').
Proof.
  unfold read_config. intros H.
  apply bind_ok_inv in H as ([] & w1 & [= <-] & H).
  apply bind_ok_inv in H as (config & w2 & Himp & H).
  apply catch_ok_inv in Himp.
  2:{ intros e w0. destruct (debug_error_fatal E
        ("Unable to read configuration file: " +:+ config_path E cf) 2
        (@raise items (PyError "UnboundLocalError")) w0) as [w3 Hw3]; [done|].
      eauto. }
  apply py_import_ok in Himp as (Himp & Hplain & Htrace).
  simpl in Himp, Hplain, Htrace.
  apply bind_ok_inv in H as ([] & w3 & Hm & H).
  rewrite merge_config_run in Hm. injection Hm as <-.
  exists config, w2. split; [exact Himp|]. split; [exact Hplain|].
  split; [exact Htrace | exact H].
Qed.

Ltac frame_attr :=
  unfold keeps_attr; simpl; try done;
  try (rewrite lookup_insert_ne by done; done).

Lemma finish_config_keeps_attr (E : environ) u k :
  k ∉ ["output_path"; "is_unit_test"; "check_lvsdrc"; "output_name"] →
  stable (keeps_attr k) (finish_config E u).
Proof.
  intros Hk. rewrite !not_elem_of_cons in Hk. destruct Hk as (?&?&?&?&_).
  unfold finish_config. autounfold with py.
  stable_with frame_attr.
Qed.

(** C2. When the configuration file defines the technology name, the
    store holds that value after [read_config], whatever was stored before. *)
Theorem read_config_takes_tech_name (E : environ) (config_file : string)
    (is_unit_test : bool) (w w' : world) (config : items) (v : value) :
  config_module E config_file w = Some config →
  NoDup config.*1 →
  ("tech_name", v) ∈ config →
  read_config E config_file is_unit_test w = (Ok tt, w') →
  opts w' !! "tech_name" = Some v.
Proof.
  intros Hcfg Hnd Hin Hrun.
  apply read_config_merged in Hrun as (config' & w1 & Hcfg' & _ & _ & Hrun).
  assert (config' = config) as -> by congruence.
  apply finish_config_keeps_attr with (k := "tech_name") in Hrun.
  - rewrite Hrun. simpl. by apply merge_fold_tech_name.
  - by_compute.
Qed.

Lemma read_config_takes_tech_name_witness :
  opts (Demo.after (read_config Demo.env "config_a" false) Demo.parsed_x)
    !! "tech_name" = Some (VStr "freepdk45").
Proof.
  apply (read_config_takes_tech_name Demo.env "config_a" false Demo.parsed_x _
           Demo.config_a).
  - reflexivity.
  - by_compute.
  - by_compute.
  - vm_compute. reflexivity.
Defined.

(** ** The output path (C9) *)

Lemma getattr_ok (E : environ) k w v w1 :
  getattr E k w = (Ok v, w1) → w1 = w ∧ lookup_attr E (opts w) k = Some v.
Proof.
  unfold getattr, bind, get. simpl.
  destruct (lookup_attr E (opts w) k); [by intros [= -> ->] | done].
Qed.

Lemma getattr_run (E : environ) k w v :
  lookup_attr E (opts w) k = Some v → getattr E k w = (Ok v, w).
Proof. unfold getattr, bind, get. simpl. by intros ->. Qed.

Lemma str_method_ok v w p w1 :
  str_method v w = (Ok p, w1) → v = VStr p ∧ w1 = w.
Proof. destruct v; try done. by intros [= -> ->]. Qed.

Lemma lookup_attr_insert (E : environ) (o : store) k v :
  lookup_attr E (<[k := v]> o) k = Some v.
Proof. unfold lookup_attr. by rewrite lookup_insert_eq. Qed.

Lemma keeps_attr_lookup (E : environ) k w w' :
  keeps_attr k w w' → lookup_attr E (opts w') k = lookup_attr E (opts w) k.
Proof. unfold keeps_attr, lookup_attr. by intros ->. Qed.

Lemma endswith_refl suf : Str.endswith suf suf = true.
Proof. destruct suf; simpl; [done|]. by rewrite bool_decide_eq_true_2. Qed.

Lemma endswith_app suf a s :
  Str.endswith suf s = true → Str.endswith suf (a +:+ s) = true.
Proof.
  intros Hs. induction a as [|c a IH]; simpl; [done|].
  rewrite IH. apply orb_true_r.
Qed.

Lemma startswith_app c s :
  Str.startswith "/" c = true → Str.startswith "/" (c +:+ s) = true.
Proof.
  unfold Str.startswith. destruct c as [|x c]; [done|].
  change (String x c +:+ s) with (String x (c +:+ s)).
  cbn [String.prefix]. destruct (Ascii.ascii_dec "/" x); [|done].
  intros _. by destruct (c +:+ s).
Qed.

(** The two steps of [read_config] on the output path, as a function. *)
Definition with_separator (p : string) : string :=
  if Str.endswith "/" p then p else p +:+ "/".







(** ** The technology name after [parse_args] (C10) *)

(** The technology named on the command line: the last [-t] counts. *)
Fixpoint supplied_tech (argv : list cli_option) : option string :=
  match argv with
  | [] => None
  | o :: rest =>
      match supplied_tech rest with
      | Some s => Some s
      | None => match o with Tech s => Some s | _ => None end
      end
  end.

(** What the two tests at the end of [parse_args] make of a name. *)
Definition alias_tech (v : value) : value :=
  if eq_str v "" || eq_str v "scmos" then VStr "scn3me_subm" else v.

Lemma take_action_keeps_tech (E : environ) o :
  (∀ s, o ≠ Tech s) → stable (keeps_attr "tech_name") (take_action E o).
Proof.
  intros Ho. destruct o; try (by destruct (Ho s));
    unfold take_action; autounfold with py; stable_with frame_attr.
Qed.

Lemma take_action_tech_name (E : environ) o w w1 :
  take_action E o w = (Ok tt, w1) →
  opts w1 !! "tech_name" =
    match o with Tech s => Some (VStr s) | _ => opts w !! "tech_name" end.
Proof.
  intros H. destruct o;
    try (by apply take_action_keeps_tech in H).
  injection H as <-. apply lookup_insert_eq.
Qed.

Lemma options_tech_name (E : environ) argv w w1 :
  for_each (take_action E) argv w = (Ok tt, w1) →
  opts w1 !! "tech_name" =
    match supplied_tech argv with
    | Some s => Some (VStr s)
    | None => opts w !! "tech_name"
    end.
Proof.
  revert w. induction argv as [|o argv IH]; intros w H; simpl in *.
  - by injection H as <-.
  - apply bind_ok_inv in H as ([] & w0 & Ho & H).
    apply IH in H. apply take_action_tech_name in Ho.
    rewrite H. destruct (supplied_tech argv); [done|].
    rewrite Ho. by destruct o.
Qed.

Lemma alias_tech_run (E : environ) {A} (a : A) w r w' :
  (let* t := getattr E "tech_name" in
   when (eq_str t "") (setattr "tech_name" (VStr "scmos")) ;;
   let* t := getattr E "tech_name" in
   when (eq_str t "scmos") (setattr "tech_name" (VStr "scn3me_subm")) ;;
   ret a) w = (Ok r, w') →
  ∃ t, lookup_attr E (opts w) "tech_name" = Some t ∧
       lookup_attr E (opts w') "tech_name" = Some (alias_tech t) ∧
       (alias_tech t ≠ t → opts w' !! "tech_name" = Some (alias_tech t)).
Proof.
  intros H.
  apply bind_ok_inv in H as (t & w1 & Ht & H).
  apply getattr_ok in Ht as [-> Ht]. exists t. split; [done|].
  apply bind_ok_inv in H as ([] & w1 & H1 & H).
  apply bind_ok_inv in H as (t2 & w2 & Ht2 & H).
  apply getattr_ok in Ht2 as [-> Ht2].
  apply bind_ok_inv in H as ([] & w3 & H3 & H).
  injection H as _ <-. unfold alias_tech.
  destruct (eq_str t "") eqn:Hempty; simpl in H1; injection H1 as <-.
  - cbn [opts set_opts] in Ht2.
    rewrite lookup_attr_insert in Ht2. injection Ht2 as <-.
    simpl in H3. injection H3 as <-. simpl.
    split; [apply lookup_attr_insert | intros _; apply lookup_insert_eq].
  - assert (t2 = t) as -> by congruence. simpl.
    destruct (eq_str t "scmos") eqn:Hscmos; simpl in H3; injection H3 as <-.
    + split; [apply lookup_attr_insert | intros _; apply lookup_insert_eq].
    + done.
Qed.

Lemma alias_tech_not_empty v : alias_tech v ≠ VStr "".
Proof.
  unfold alias_tech. destruct (eq_str v "") eqn:Hv; simpl; [done|].
  destruct (eq_str v "scmos"); [done|].
  intros ->. done.
Qed.

(** C10. When [parse_args] has returned, the technology name is not the
    empty string.  With no [-t] on the command line and the empty class
    default, the store holds ["scn3me_subm"]; so it does when ["scmos"] was
    supplied. *)
Theorem parse_args_tech_name (E : environ) (argv : list cli_option)
    (args r : list string) (w w' : world) :
  parse_args E argv args w = (Ok r, w') →
  lookup_attr E (opts w') "tech_name" ≠ Some (VStr "") ∧
  (supplied_tech argv = None →
   opts w !! "tech_name" = None →
   class_defaults E !! "tech_name" = Some (VStr "") →
   opts w' !! "tech_name" = Some (VStr "scn3me_subm")) ∧
  (supplied_tech argv = Some "scmos" →
   opts w' !! "tech_name" = Some (VStr "scn3me_subm")).
Proof.
  unfold parse_args. intros H.
  apply bind_ok_inv in H as ([] & w1 & Hopts & H).
  apply options_tech_name in Hopts.
  apply alias_tech_run in H as (t & Ht & Ht' & Hset).
  split; [|split].
  - rewrite Ht'. intros [= Hbad]. by apply alias_tech_not_empty in Hbad.
  - intros Hnone Hw Hdef. rewrite Hnone, Hw in Hopts.
    unfold lookup_attr in Ht. rewrite Hopts, Hdef in Ht. injection Ht as <-.
    by apply Hset.
  - intros Hscmos. rewrite Hscmos in Hopts.
    unfold lookup_attr in Ht. rewrite Hopts in Ht. injection Ht as <-.
    by apply Hset.
Qed.

Lemma parse_args_tech_name_witness :
  lookup_attr Demo.env (opts Demo.parsed_x) "tech_name" ≠ Some (VStr "") ∧
  opts Demo.parsed_x !! "tech_name" = Some (VStr "scn3me_subm").
Proof.
  destruct (parse_args_tech_name Demo.env [Outpath "/tmp/x"] ["config_a"]
              ["config_a"] Demo.start Demo.parsed_x) as (Hne & Hnone & _).
  - vm_compute. reflexivity.
  - split; [exact Hne|]. apply Hnone; reflexivity.
Defined.

(** ** Tool lookup (C8) *)

(** [is_exe] as a function of the world: the name exists and the process may
    execute it. *)
Definition executable (E : environ) (w : world) (fpath : string) : bool :=
  FS.exists_ (cwd E) (fs w) fpath && FS.access_x (cwd E) (fs w) fpath.

Lemma is_exe_run (E : environ) fpath w :
  is_exe E fpath w = (Ok (executable E w fpath), w).
Proof.
  unfold is_exe, executable, os_path_exists, os_access_x, bind, get, ret.
  by destruct (FS.exists_ (cwd E) (fs w) fpath).
Qed.



Section Tools.

Context (E : environ) (w : world) (search_path : string).
Hypothesis path_set : env_PATH E = Some search_path.

Let dirs : list string := Str.split ":"%char search_path.








End Tools.


(** ** Purging the temporary directory (C6) *)

(** A name as a directory holds it: not empty, not [.] or [..], no slash. *)
Definition valid_name (n : string) : Prop :=
  Str.split Str.slash n = [n] ∧ n ≠ "" ∧ n ≠ "." ∧ n ≠ "..".

#[global] Instance valid_name_dec n : Decision (valid_name n).
Proof. unfold valid_name. apply _. Defined.

Definition is_special (n : node) : bool :=
  match n with Special _ => true | _ => false end.

Lemma split_not_nil sep s : Str.split sep s ≠ [].
Proof.
  destruct s as [|c s]; simpl; [done|].
  destruct (bool_decide (c = sep)); [done|]. by destruct (Str.split sep s).
Qed.

Lemma split_app sep a b :
  Str.split sep (a +:+ String sep b) = (Str.split sep a ++ Str.split sep b)%list.
Proof.
  induction a as [|c a IH].
  - change ("" +:+ String sep b) with (String sep b). simpl.
    by rewrite bool_decide_eq_true_2.
  - change (String c a +:+ String sep b) with (String c (a +:+ String sep b)).
    simpl. rewrite IH. destruct (bool_decide (c = sep)); [done|].
    pose proof (split_not_nil sep a). by destruct (Str.split sep a).
Qed.

Lemma split_single_cons c n :
  Str.split Str.slash (String c n) = [String c n] →
  c ≠ Str.slash ∧ Str.split Str.slash n = [n].
Proof.
  simpl. case_bool_decide as Hc; [done|].
  pose proof (split_not_nil Str.slash n).
  destruct (Str.split Str.slash n) as [|h t]; [done|].
  by intros [= -> ->].
Qed.

Lemma endswith_slash_cons c s :
  s ≠ "" → Str.endswith "/" (String c s) = Str.endswith "/" s.
Proof.
  intros Hs. simpl. rewrite bool_decide_eq_false_2; [done|].
  intros [= _ ?]. done.
Qed.

Lemma valid_name_no_trailing_slash n :
  Str.split Str.slash n = [n] → n ≠ "" → Str.endswith "/" n = false.
Proof.
  induction n as [|c n IH]; [done|]. intros Hsplit _.
  apply split_single_cons in Hsplit as [Hc Hn].
  destruct n as [|c' n'].
  - simpl. rewrite bool_decide_eq_false_2; [done|]. intros [= ->]. done.
  - rewrite endswith_slash_cons by done. by apply IH.
Qed.

Lemma endswith_slash_app a n :
  n ≠ "" → Str.endswith "/" (a +:+ n) = Str.endswith "/" n.
Proof.
  intros Hn. induction a as [|c a IH]; [done|].
  change (String c a +:+ n) with (String c (a +:+ n)).
  rewrite endswith_slash_cons; [done|]. by destruct a, n.
Qed.

Lemma valid_name_not_absolute n : valid_name n → Str.isabs n = false.
Proof.
  intros (Hsplit & Hne & _). destruct n as [|c n]; [done|].
  apply split_single_cons in Hsplit as [Hc _].
  unfold Str.isabs, Str.startswith. cbn [String.prefix].
  destruct (Ascii.ascii_dec "/" c) as [<-|]; done.
Qed.

Lemma endswith_slash_inv s :
  Str.endswith "/" s = true → ∃ a, s = a +:+ "/".
Proof.
  induction s as [|c s IH]; [done|]. simpl. intros [Hs|Hs]%orb_true_iff.
  - apply bool_decide_eq_true in Hs as ->. by exists "".
  - destruct (IH Hs) as [a ->]. by exists (String c a).
Qed.

Lemma isabs_app s t : s ≠ "" → Str.isabs (s +:+ t) = Str.isabs s.
Proof.
  intros Hs. destruct s as [|c s]; [done|].
  change (String c s +:+ t) with (String c (s +:+ t)).
  unfold Str.isabs, Str.startswith. cbn [String.prefix].
  destruct (Ascii.ascii_dec "/" c); [|done]. by destruct (s +:+ t), s.
Qed.

Lemma norm_snoc acc xs n :
  n ≠ "" → n ≠ "." → n ≠ ".." →
  FS.norm acc (xs ++ [n]) = (FS.norm acc xs ++ [n])%list.
Proof.
  intros H1 H2 H3. revert acc. induction xs as [|x xs IH]; intros acc; simpl.
  - by rewrite !bool_decide_eq_false_2 by done.
  - repeat case_match; apply IH.
Qed.

Lemma norm_snoc_empty acc xs : FS.norm acc (xs ++ [""]) = FS.norm acc xs.
Proof.
  revert acc. induction xs as [|x xs IH]; intros acc; simpl; [done|].
  repeat case_match; apply IH.
Qed.

Lemma str_app_assoc (a b c : string) : (a +:+ b) +:+ c = a +:+ (b +:+ c).
Proof.
  induction a as [|x a IH]; [done|].
  change (String x ((a +:+ b) +:+ c) = String x (a +:+ (b +:+ c))).
  by rewrite IH.
Qed.

(** The path of an entry of a directory. *)
Lemma path_of_join cwd temp n :
  temp ≠ "" → valid_name n →
  FS.path_of cwd (Str.join temp n) = (FS.path_of cwd temp ++ [n])%list.
Proof.
  intros Htemp Hn. pose proof (valid_name_not_absolute n Hn) as Habs.
  destruct Hn as (Hsplit & Hne & Hdot & Hdots).
  unfold Str.join. unfold Str.isabs in Habs. rewrite Habs.
  rewrite bool_decide_eq_false_2 by done. simpl.
  unfold FS.path_of.
  destruct (Str.endswith "/" temp) eqn:Hend.
  - apply endswith_slash_inv in Hend as [a ->].
    rewrite str_app_assoc.
    change ("/" +:+ n) with (String Str.slash n).
    change (a +:+ "/") with (a +:+ String Str.slash "").
    rewrite !split_app, Hsplit. simpl Str.split.
    assert (Str.isabs (a +:+ String Str.slash n)
            = Str.isabs (a +:+ String Str.slash "")) as ->.
    { destruct a as [|c a]; [by destruct n|]. by rewrite !isabs_app. }
    destruct (Str.isabs _).
    + by rewrite norm_snoc_empty, norm_snoc.
    + by rewrite !app_assoc, norm_snoc_empty, norm_snoc.
  - change (temp +:+ "/" +:+ n) with (temp +:+ String Str.slash n).
    rewrite split_app, Hsplit, isabs_app by done.
    destruct (Str.isabs temp).
    + by rewrite norm_snoc.
    + by rewrite app_assoc, norm_snoc.
Qed.

Lemma join_no_trailing_slash temp n :
  valid_name n → Str.endswith "/" (Str.join temp n) = false.
Proof.
  intros Hn. pose proof (valid_name_not_absolute n Hn) as Habs.
  destruct Hn as (Hsplit & Hne & _).
  unfold Str.join. unfold Str.isabs in Habs. rewrite Habs.
  destruct (_ || _).
  - rewrite endswith_slash_app by done.
    by apply valid_name_no_trailing_slash.
  - rewrite !endswith_slash_app; [by apply valid_name_no_trailing_slash|done|].
    by destruct n.
Qed.

Lemma join_not_empty temp n : n ≠ "" → Str.join temp n ≠ "".
Proof.
  intros Hn. unfold Str.join. repeat case_match; try done;
    destruct temp, n; done.
Qed.

Lemma lookup_path_snoc p root m es n :
  FS.lookup_path p root = Some (Dir m es) →
  FS.lookup_path (p ++ [n]) root = es !! n.
Proof.
  revert root. induction p as [|c p IH]; intros root H; simpl in *.
  - injection H as ->. by destruct (es !! n).
  - destruct root as [| |m0 es0|]; try done.
    destruct (es0 !! c) as [child|]; [by apply IH | done].
Qed.

Lemma update_path_cons f c q m es :
  q ≠ [] →
  FS.update_path f (c :: q) (Dir m es) = Dir m (alter (FS.update_path f q) c es).
Proof. by destruct q. Qed.

Lemma lookup_delete_path_snoc p root m es n :
  FS.lookup_path p root = Some (Dir m es) →
  FS.lookup_path p (FS.delete_path (p ++ [n]) root) = Some (Dir m (delete n es)).
Proof.
  unfold FS.delete_path.
  revert root. induction p as [|c p IH]; intros root H; simpl in H.
  - by injection H as ->.
  - destruct root as [| |m0 es0|]; try done.
    destruct (es0 !! c) as [child|] eqn:Hc; [|done].
    change ((c :: p) ++ [n]) with (c :: (p ++ [n])).
    rewrite update_path_cons by by destruct p.
    cbn [FS.lookup_path]. rewrite lookup_alter_eq, Hc. simpl. by apply IH.
Qed.

(** What [cleanup_paths] calls for an entry of the temporary directory:
    [shutil.rmtree] for a sub-directory, [os.remove] for a file or a link. *)
Definition purge_event (temp : string) (ne : string * node) : event :=
  if FS.is_dir ne.2 then EvRmtree (Str.join temp ne.1)
  else EvRemove (Str.join temp ne.1).

Section Cleanup.

Context (E : environ) (temp : string) (m : Z).
Hypothesis temp_not_empty : temp ≠ "".

Let p : path := FS.path_of (cwd E) temp.

Section Entry.

Context (w : world) (es : gmap string node) (n : string) (entry : node).
Hypothesis temp_dir : FS.lookup_path p (fs w) = Some (Dir m es).
Hypothesis name_ok : valid_name n.
Hypothesis entry_at : es !! n = Some entry.

Lemma entry_lookup :
  FS.lookup_path (FS.path_of (cwd E) (Str.join temp n)) (fs w) = Some entry.
Proof.
  rewrite path_of_join by done. fold p.
  by rewrite (lookup_path_snoc _ _ _ _ _ temp_dir).
Qed.

Lemma entry_lstat :
  FS.lstat (cwd E) (fs w) (Str.join temp n) = Some ((p ++ [n])%list, entry).
Proof.
  unfold FS.lstat.
  rewrite bool_decide_eq_false_2 by (apply join_not_empty, name_ok).
  rewrite join_no_trailing_slash by done.
  rewrite entry_lookup. simpl. by rewrite path_of_join.
Qed.

Lemma entry_isfile :
  FS.is_link entry = false →
  FS.isfile (cwd E) (fs w) (Str.join temp n) = FS.is_file entry.
Proof.
  intros Hl. unfold FS.isfile, FS.stat.
  rewrite bool_decide_eq_false_2 by (apply join_not_empty, name_ok).
  unfold FS.dir_only. rewrite join_no_trailing_slash by done.
  unfold FS.MAXSYMLINKS. cbn [FS.follow]. rewrite entry_lookup.
  by destruct entry.
Qed.

Lemma entry_islink :
  FS.islink (cwd E) (fs w) (Str.join temp n) = FS.is_link entry.
Proof. unfold FS.islink. by rewrite entry_lstat. Qed.

(** One round of the loop of [cleanup_paths]: the entry is gone. *)
Lemma cleanup_entry_run :
  is_special entry = false →
  ∃ w', cleanup_entry E (Str.join temp n) w = (Ok tt, w') ∧
        fs w' = FS.delete_path (p ++ [n]) (fs w) ∧
        opts w' = opts w ∧ checkpoint w' = checkpoint w ∧
        trace w' = trace w ++ [purge_event temp (n, entry)].
Proof.
  intros Hs. pose proof entry_lstat as Hlstat. pose proof entry_islink as Hlink.
  pose proof entry_isfile as Hfile.
  unfold cleanup_entry, os_path_isfile, os_path_islink.
  unfold os_remove, shutil_rmtree, bind, get, modify, ret. simpl.
  clear entry_at. destruct entry as [md|t|md sub|md]; try done.
  - rewrite Hfile by done. simpl. rewrite Hlstat. eauto 6.
  - destruct (FS.isfile _ _ _); simpl; rewrite ?Hlink; simpl;
      rewrite Hlstat; eauto 6.
  - rewrite Hfile by done. simpl. rewrite Hlink. simpl. rewrite Hlstat.
    destruct (p ++ [n]) eqn:Hp; [by destruct p|]. rewrite <- Hp. eauto 6.
Qed.

End Entry.

Lemma cleanup_loop (kvs : list (string * node)) (w : world)
    (es : gmap string node) :
  NoDup kvs.*1 →
  FS.lookup_path p (fs w) = Some (Dir m es) →
  (∀ n entry, (n, entry) ∈ kvs →
      valid_name n ∧ es !! n = Some entry ∧ is_special entry = false) →
  ∃ w' es',
    for_each (cleanup_entry E) (Str.join temp <$> kvs.*1) w = (Ok tt, w') ∧
    FS.lookup_path p (fs w') = Some (Dir m es') ∧
    (∀ k, es' !! k = if bool_decide (k ∈ kvs.*1) then None else es !! k) ∧
    opts w' = opts w ∧ checkpoint w' = checkpoint w ∧
    trace w' = trace w ++ (purge_event temp <$> kvs).
Proof.
  revert w es. induction kvs as [|[n entry] kvs IH]; intros w es Hnd Hdir Hall.
  - exists w, es. repeat split; try done. simpl. by rewrite app_nil_r.
  - rewrite fmap_cons in Hnd. apply NoDup_cons in Hnd as [Hn Hnd].
    destruct (Hall n entry) as (Hvalid & Hentry & Hspecial);
      [apply list_elem_of_here|].
    destruct (cleanup_entry_run w es n entry Hdir Hvalid Hentry Hspecial)
      as (w1 & Hrun & Hfs & Hopts & Hck & Htr).
    destruct (IH w1 (delete n es) Hnd)
      as (w' & es' & Hrest & Hdir' & Hes' & Ho & Hc & Ht).
    { rewrite Hfs. by apply lookup_delete_path_snoc. }
    { intros n' entry' Hin. destruct (Hall n' entry') as (? & ? & ?);
        [by apply list_elem_of_further|].
      split; [done|]. split; [|done].
      rewrite lookup_delete_ne; [done|]. intros ->.
      apply Hn. apply list_elem_of_fmap. by exists (n', entry'). }
    exists w', es'. rewrite !fmap_cons. cbn [for_each fst].
    erewrite bind_ok by exact Hrun. split; [exact Hrest|].
    split; [exact Hdir'|]. split; [|split; [congruence|split; [congruence|]]].
    + intros k. rewrite Hes'. destruct (decide (k = n)) as [->|Hk].
      * rewrite lookup_delete_eq.
        rewrite (bool_decide_eq_true_2 (n ∈ n :: kvs.*1));
          [by case_bool_decide | apply list_elem_of_here].
      * rewrite lookup_delete_ne by done.
        rewrite (bool_decide_ext (k ∈ n :: kvs.*1) (k ∈ kvs.*1)); [done|].
        rewrite elem_of_cons. split; [by intros [?|?] | by right].
    + rewrite Ht, Htr, <- app_assoc. done.
Qed.

End Cleanup.

Lemma dir_stat cwd root temp m es :
  temp ≠ "" →
  FS.lookup_path (FS.path_of cwd temp) root = Some (Dir m es) →
  FS.stat cwd root temp = Some (FS.path_of cwd temp, Dir m es).
Proof.
  intros Htemp Hdir. unfold FS.stat. rewrite bool_decide_eq_false_2 by done.
  unfold FS.MAXSYMLINKS. cbn [FS.follow]. rewrite Hdir. simpl.
  by rewrite andb_false_r.
Qed.

Lemma cleanup_paths_empty (E : environ) w temp m purge :
  lookup_attr E (opts w) "purge_temp" = Some purge →
  lookup_attr E (opts w) "openram_temp" = Some (VStr temp) →
  temp ≠ "" →
  FS.lookup_path (FS.path_of (cwd E) temp) (fs w) = Some (Dir m ∅) →
  cleanup_paths E w = (Ok tt, w).
Proof.
  intros Hpurge Htemp Hne Hdir. unfold cleanup_paths.
  erewrite bind_ok by by apply getattr_run.
  destruct (truthy E purge); simpl.
  - erewrite bind_ok by by apply getattr_run.
    unfold str_arg, os_path_exists, os_listdir, bind, get, ret, FS.exists_. simpl.
    rewrite (dir_stat _ _ _ _ _ Hne Hdir).
    rewrite bool_decide_eq_true_2 by done. simpl.
    rewrite (dir_stat _ _ _ _ _ Hne Hdir).
    by rewrite map_to_list_empty.
  - by erewrite bind_ok by by apply getattr_run.
Qed.

(** C6. With the purge flag set and the temporary directory holding files,
    links and sub-directories, [cleanup_paths] removes every entry of it
    ([os.remove] for a file or link, [shutil.rmtree] for a sub-directory)
    and leaves the directory itself, now empty; a second call succeeds and
    changes nothing.  With the purge flag off nothing changes. *)
Theorem cleanup_paths_purges (E : environ) (w : world) (temp : string)
    (m : Z) (es : gmap string node) (purge : value) :
  lookup_attr E (opts w) "purge_temp" = Some purge →
  lookup_attr E (opts w) "openram_temp" = Some (VStr temp) →
  temp ≠ "" →
  FS.lookup_path (FS.path_of (cwd E) temp) (fs w) = Some (Dir m es) →
  map_Forall (λ n entry, valid_name n ∧ is_special entry = false) es →
  (truthy E purge = true →
   ∃ w', cleanup_paths E w = (Ok tt, w') ∧
         FS.lookup_path (FS.path_of (cwd E) temp) (fs w') = Some (Dir m ∅) ∧
         trace w' = trace w ++ (purge_event temp <$> map_to_list es) ∧
         opts w' = opts w ∧ checkpoint w' = checkpoint w ∧
         cleanup_paths E w' = (Ok tt, w')) ∧
  (truthy E purge = false → cleanup_paths E w = (Ok tt, w)).
Proof.
  intros Hpurge Htemp Hne Hdir Hes. split; intros Htruth.
  - destruct (cleanup_loop E temp m Hne (map_to_list es) w es)
      as (w' & es' & Hrun & Hdir' & Hes' & Ho & Hc & Ht).
    { apply NoDup_fst_map_to_list. }
    { exact Hdir. }
    { intros n entry Hin%elem_of_map_to_list.
      destruct (Hes n entry Hin) as [Hv Hs]. split; [exact Hv|]. by split. }
    assert (es' = ∅) as ->.
    { apply map_eq. intros k. rewrite Hes', lookup_empty.
      case_bool_decide as Hk; [done|].
      destruct (es !! k) as [entry|] eqn:Hke; [|done].
      destruct Hk. apply list_elem_of_fmap. exists (k, entry).
      split; [done|]. by apply elem_of_map_to_list. }
    exists w'. split; [|repeat split; try done].
    + unfold cleanup_paths.
      erewrite bind_ok by by apply getattr_run.
      rewrite Htruth. simpl.
      erewrite bind_ok by by apply getattr_run.
      unfold str_arg, os_path_exists, os_listdir, bind, get, ret, FS.exists_.
      simpl. rewrite (dir_stat _ _ _ _ _ Hne Hdir).
      rewrite bool_decide_eq_true_2 by done. simpl.
      rewrite (dir_stat _ _ _ _ _ Hne Hdir). exact Hrun.
    + apply (cleanup_paths_empty E w' temp m purge); congruence.
  - unfold cleanup_paths.
    erewrite bind_ok by by apply getattr_run.
    rewrite Htruth. simpl.
    by erewrite bind_ok by by apply getattr_run.
Qed.

Lemma cleanup_paths_purges_witness :
  ∃ w', cleanup_paths Demo.env Demo.start = (Ok tt, w') ∧
        FS.lookup_path ["tmp"; "openram_temp"] (fs w') = Some (Dir 488 ∅) ∧
        cleanup_paths Demo.env w' = (Ok tt, w').
Proof.
  destruct (cleanup_paths_purges Demo.env Demo.start "/tmp/openram_temp/" 488
              Demo.temp_entries (VBool true)) as [Hpurge _].
  - reflexivity.
  - reflexivity.
  - done.
  - vm_compute. reflexivity.
  - by_compute.
  - destruct (Hpurge eq_refl) as (w' & Hrun & Hdir & _ & _ & _ & Hagain).
    exists w'. split; [exact Hrun|]. split; [exact Hdir | exact Hagain].
Defined.

(** ** What the functions leave alone *)

Ltac frame_checkpoint := unfold keeps_checkpoint; simpl; done.
Ltac frame_trace :=
  unfold extends_trace; simpl; first [done | by apply prefix_app_r].

Section Frames.

Context (E : environ).

Lemma check_versions_checkpoint : stable keeps_checkpoint (check_versions E).
Proof. unfold check_versions. autounfold with py. stable_with frame_checkpoint. Qed.

Lemma setup_paths_checkpoint : stable keeps_checkpoint (setup_paths E).
Proof. unfold setup_paths. autounfold with py. stable_with frame_checkpoint. Qed.

Lemma read_config_checkpoint cf u : stable keeps_checkpoint (read_config E cf u).
Proof. unfold read_config. autounfold with py. stable_with frame_checkpoint. Qed.

Lemma import_tech_checkpoint : stable keeps_checkpoint (import_tech E).
Proof. unfold import_tech. autounfold with py. stable_with frame_checkpoint. Qed.

Lemma py_import_checkpoint name : stable keeps_checkpoint (py_import E name).
Proof. autounfold with py. stable_with frame_checkpoint. Qed.

Lemma check_versions_trace : stable extends_trace (check_versions E).
Proof. unfold check_versions. autounfold with py. stable_with frame_trace. Qed.

Lemma setup_paths_trace : stable extends_trace (setup_paths E).
Proof. unfold setup_paths. autounfold with py. stable_with frame_trace. Qed.

Lemma read_config_trace cf u : stable extends_trace (read_config E cf u).
Proof. unfold read_config. autounfold with py. stable_with frame_trace. Qed.

Lemma import_tech_trace : stable extends_trace (import_tech E).
Proof. unfold import_tech. autounfold with py. stable_with frame_trace. Qed.

Lemma py_import_trace name : stable extends_trace (py_import E name).
Proof. autounfold with py. stable_with frame_trace. Qed.

Lemma report_status_trace : stable extends_trace (report_status E).
Proof. unfold report_status. autounfold with py. stable_with frame_trace. Qed.

End Frames.

(** ** The checkpoint (C3, C4) *)

(** The end of [init_openram]: restore the checkpoint, or capture one. *)
Definition restore_or_capture (E : environ) (is_unit_test : bool) : M unit :=
  let* w := get in
  match (if is_unit_test then checkpoint w else None) with
  | Some c => modify (set_opts (λ _, c))
  | None =>
      py_import E "characterizer" ;;
      py_import E "verify" ;;
      let* w := get in
      match checkpoint w with
      | Some _ => ret tt
      | None => modify (set_checkpoint (Some (opts w)))
      end
  end.

(** How a run of [init_openram] ends: an exception before the last step, in
    a world with the checkpoint it started with, or the last step. *)
Lemma init_openram_run (E : environ) cf u w r w' :
  init_openram E cf u w = (r, w') →
  (∃ e, r = Raise e ∧ checkpoint w' = checkpoint w ∧ extends_trace w w') ∨
  (∃ w0 w1 w2,
      setup_paths E w0 = (Ok tt, w1) ∧
      read_config E cf u w1 = (Ok tt, w2) ∧
      extends_trace w w0 ∧
      ∃ w3, extends_trace w2 w3 ∧ checkpoint w3 = checkpoint w ∧
            restore_or_capture E u w3 = (r, w')).
Proof.
  unfold init_openram. intros H.
  apply bind_inv in H as [([] & w0 & H0 & H)|(e & H0 & ->)].
  2:{ left. exists e. split; [done|].
      split; [by eapply check_versions_checkpoint
             |by eapply check_versions_trace]. }
  pose proof (check_versions_checkpoint E _ _ _ H0) as C0.
  pose proof (check_versions_trace E _ _ _ H0) as T0.
  apply bind_inv in H as [([] & w1 & H1 & H)|(e & H1 & ->)].
  2:{ left. exists e. split; [done|].
      pose proof (setup_paths_checkpoint E _ _ _ H1).
      pose proof (setup_paths_trace E _ _ _ H1).
      split; [unfold keeps_checkpoint in *; congruence | by etrans]. }
  pose proof (setup_paths_checkpoint E _ _ _ H1) as C1.
  pose proof (setup_paths_trace E _ _ _ H1) as T1.
  apply bind_inv in H as [([] & w2 & H2 & H)|(e & H2 & ->)].
  2:{ left. exists e. split; [done|].
      pose proof (read_config_checkpoint E _ _ _ _ _ H2).
      pose proof (read_config_trace E _ _ _ _ _ H2).
      split; [unfold keeps_checkpoint in *; congruence | by do 2 (etrans; [|done])]. }
  pose proof (read_config_checkpoint E _ _ _ _ _ H2) as C2.
  pose proof (read_config_trace E _ _ _ _ _ H2) as T2.
  apply bind_inv in H as [([] & w3 & H3 & H)|(e & H3 & ->)].
  2:{ left. exists e. split; [done|].
      pose proof (import_tech_checkpoint E _ _ _ H3).
      pose proof (import_tech_trace E _ _ _ H3).
      split; [unfold keeps_checkpoint in *; congruence
             |by do 3 (etrans; [|done])]. }
  pose proof (import_tech_checkpoint E _ _ _ H3) as C3.
  pose proof (import_tech_trace E _ _ _ H3) as T3.
  apply bind_inv in H as [(d & w4 & H4 & H)|(e & H4 & ->)].
  2:{ left. exists e. split; [done|].
      pose proof (py_import_checkpoint E _ _ _ _ H4).
      pose proof (py_import_trace E _ _ _ _ H4).
      split; [unfold keeps_checkpoint in *; congruence
             |by do 4 (etrans; [|done])]. }
  pose proof (py_import_checkpoint E _ _ _ _ H4) as C4.
  pose proof (py_import_trace E _ _ _ _ H4) as T4.
  right. exists w0, w1, w2. repeat (split; [done|]).
  exists w4. split; [by etrans|].
  split; [unfold keeps_checkpoint in *; congruence | exact H].
Qed.

Lemma restore_or_capture_run (E : environ) u w r w' :
  restore_or_capture E u w = (r, w') →
  extends_trace w w' ∧
  match checkpoint w with
  | Some c =>
      checkpoint w' = Some c ∧ (u = true → r = Ok tt ∧ opts w' = c)
  | None =>
      match r with
      | Ok _ => checkpoint w' = Some (opts w')
      | Raise _ => checkpoint w' = None
      end
  end.
Proof.
  unfold restore_or_capture. intros H.
  apply bind_inv in H as [(w0 & w1 & [= <- <-] & H)|(e & [=] & _)].
  assert (∀ r w',
    (py_import E "characterizer" ;; py_import E "verify" ;;
     let* w := get in
     match checkpoint w with
     | Some _ => ret tt
     | None => modify (set_checkpoint (Some (opts w)))
     end) w = (r, w') →
    extends_trace w w' ∧
    match checkpoint w with
    | Some c => checkpoint w' = Some c
    | None => match r with
              | Ok _ => checkpoint w' = Some (opts w')
              | Raise _ => checkpoint w' = None
              end
    end) as Hcapture.
  { clear. intros r w' H.
    apply bind_inv in H as [(d1 & w1 & H1 & H)|(e & H1 & ->)].
    2:{ pose proof (py_import_checkpoint E _ _ _ _ H1) as C.
        split; [by eapply py_import_trace|].
        unfold keeps_checkpoint in C. rewrite C. by destruct (checkpoint w). }
    pose proof (py_import_checkpoint E _ _ _ _ H1) as C1.
    pose proof (py_import_trace E _ _ _ _ H1) as T1.
    apply bind_inv in H as [(d2 & w2 & H2 & H)|(e & H2 & ->)].
    2:{ pose proof (py_import_checkpoint E _ _ _ _ H2) as C.
        split; [etrans; [done|]; by eapply py_import_trace|].
        unfold keeps_checkpoint in *. rewrite C, C1.
        by destruct (checkpoint w). }
    pose proof (py_import_checkpoint E _ _ _ _ H2) as C2.
    pose proof (py_import_trace E _ _ _ _ H2) as T2.
    unfold keeps_checkpoint in *. rewrite <- C1, <- C2.
    unfold bind, get in H. simpl in H.
    destruct (checkpoint w2) eqn:Hck; injection H as <- <-.
    - split; [by etrans | done].
    - split; [by etrans | done]. }
  destruct u.
  - destruct (checkpoint w) as [c|] eqn:Hck.
    + injection H as <- <-. split; [frame_trace|]. simpl. by repeat split.
    + by apply Hcapture in H.
  - apply Hcapture in H as [T H]. split; [done|].
    destruct (checkpoint w); [|done]. split; [done | discriminate].
Qed.

(** Two stores hold the same mutable object. *)
Definition shares_object (a b : store) : Prop :=
  ∃ k k' l, a !! k = Some (VRef l) ∧ b !! k' = Some (VRef l).

(** Following the spec: [cp] is a deep copy of [st] when it has the same
    attributes, with equal scalar values, and no object of [st] in it. *)
Definition deep_copy_of (cp st : store) : Prop :=
  dom cp = dom st ∧
  (∀ k v, st !! k = Some v → (∀ l, v ≠ VRef l) → cp !! k = Some v) ∧
  ¬ shares_object cp st.

(** C4 (amended). The checkpoint holds the very values of the store it was
    taken from.  A run of [init_openram] that starts with a checkpoint ends
    with the same checkpoint; a run that starts without one ends with the
    store as checkpoint when it returns, and without a checkpoint when it
    raises. *)
Theorem checkpoint_captured_once (E : environ) (config_file : string)
    (is_unit_test : bool) (w w' : world) (r : result unit) :
  init_openram E config_file is_unit_test w = (r, w') →
  match checkpoint w with
  | Some c => checkpoint w' = Some c
  | None =>
      match r with
      | Ok _ => checkpoint w' = Some (opts w')
      | Raise _ => checkpoint w' = None
      end
  end.
Proof.
  intros H.
  apply init_openram_run in H
    as [(e & -> & C & _)|(w0 & w1 & w2 & _ & _ & _ & w3 & _ & C & H)].
  - rewrite C. by destruct (checkpoint w).
  - apply restore_or_capture_run in H as [_ H]. rewrite C in H.
    destruct (checkpoint w); [by destruct H | done].
Qed.

Lemma checkpoint_captured_once_witness :
  checkpoint Demo.booted = Some (opts Demo.booted).
Proof.
  assert (init_openram Demo.env "config_a" false Demo.start
          = (Ok tt, Demo.booted)) as Hrun by (vm_compute; reflexivity).
  apply checkpoint_captured_once in Hrun. exact Hrun.
Defined.

(** C4, as stated, fails: the checkpoint taken by the first
    [init_openram] holds the list object of the store itself, so it is not
    a deep copy. *)
Lemma checkpoint_is_not_deep_copy :
  (init_openram Demo.env "config_a" false Demo.start).1 = Ok tt ∧
  checkpoint Demo.start = None ∧
  checkpoint Demo.booted = Some (opts Demo.booted) ∧
  opts Demo.booted !! "corners" = Some (VRef 7) ∧
  ¬ deep_copy_of (default ∅ (checkpoint Demo.booted)) (opts Demo.booted).
Proof.
  split; [by_compute|]. split; [reflexivity|].
  split; [by_compute|]. split; [by_compute|].
  intros (_ & _ & Hshare). apply Hshare.
  exists "corners", "corners", 7%nat. split; by_compute.
Qed.

(** A test run that finds a checkpoint ends with the checkpoint as store. *)
Lemma init_openram_restores (E : environ) cf w w' c :
  checkpoint w = Some c →
  init_openram E cf true w = (Ok tt, w') →
  opts w' = c ∧ checkpoint w' = Some c.
Proof.
  intros Hck H.
  apply init_openram_run in H
    as [(e & [=] & _)|(w0 & w1 & w2 & _ & _ & _ & w3 & _ & C & H)].
  apply restore_or_capture_run in H as [_ H]. rewrite C, Hck in H.
  destruct H as [? [_ ?]]; done.
Qed.

(** Every run of [init_openram] that returns has asked for the import of
    the configuration module, checkpoint or not. *)
Lemma init_openram_imports (E : environ) cf u w w' :
  init_openram E cf u w = (Ok tt, w') →
  EvImportCall (Str.basename (config_path E cf)) ∈ trace w'.
Proof.
  intros H.
  apply init_openram_run in H
    as [(e & [=] & _)|(w0 & w1 & w2 & _ & Hcfg & _ & w3 & T3 & _ & H)].
  apply restore_or_capture_run in H as [T4 _].
  pose proof Hcfg as Hcfg'.
  apply read_config_merged in Hcfg as (config & w5 & _ & _ & Himp & Hfin).
  assert (extends_trace w5 w2) as T5.
  { assert (stable extends_trace (finish_config E u)) as Hst
      by (unfold finish_config; autounfold with py; stable_with frame_trace).
    apply Hst in Hfin. exact Hfin. }
  assert (trace w1 ++ [EvImportCall (Str.basename (config_path E cf))]
            `prefix_of` trace w') as [post ->].
  { etrans; [exact Himp|]. etrans; [exact T5|]. by etrans. }
  rewrite !elem_of_app, list_elem_of_singleton. auto.
Qed.

(** C3 at a failing input.  A process that has captured a checkpoint calls
    [init_openram("config_b", True)]: the call returns with the checkpoint
    as store, but the configuration file [config_b], not seen before, has
    been imported and run in that call. *)
Theorem init_openram_reads_config_despite_checkpoint :
  checkpoint Demo.booted = Some (opts Demo.booted) ∧
  (EvLoad "config_b" ∉ trace Demo.booted) ∧
  (init_openram Demo.env "config_b" true Demo.booted).1 = Ok tt ∧
  trace (Demo.after (init_openram Demo.env "config_b" true) Demo.booted)
    = (trace Demo.booted ++
       [ EvMakedirs "/tmp/openram_temp/" 488; EvChmod "/tmp/openram_temp/" 488;
         EvImportCall "config_b"; EvLoad "config_b";
         EvMakedirs "/tmp/y/" 488; EvChmod "/tmp/y/" 488;
         EvImportCall "setup_openram_freepdk45"; EvImportCall "tech";
         EvImportCall "hierarchy_design" ]) ∧
  opts (Demo.after (init_openram Demo.env "config_b" true) Demo.booted)
    = opts Demo.booted.
Proof.
  split; [by_compute|]. split; [by_compute|].
  split; [by_compute|]. split; by_compute.
Qed.

(** ** Directories and the check of the word size (C5) *)










(** ** Failures of [os.makedirs] (C7) *)

(** An [OSError] of [os.makedirs] other than [EEXIST] ends in the first
    handler, which does nothing with it. *)
Lemma makedirs_or_chmod_swallows (E : environ) p other w e :
  p ≠ "" →
  FS.mkdirs (umask E) 488 (FS.path_of (cwd E) p) (fs w) = inl e →
  e ≠ FS.EEXIST →
  makedirs_or_chmod E p other w = (Ok tt, log (EvMakedirs p 488) w).
Proof.
  intros Hp Hmk He.
  unfold makedirs_or_chmod, os_makedirs, catch, bind, modify, get. simpl.
  rewrite bool_decide_eq_false_2 by done. rewrite Hmk. simpl.
  apply Z.eqb_neq in He. unfold FS.EEXIST in He. by rewrite He.
Qed.

(** A path that names something already there is not created again but
    gets its mode set. *)
Lemma mkdirs_exists umask mode p root n :
  FS.lookup_path p root = Some n → FS.mkdirs umask mode p root = inl FS.EEXIST.
Proof.
  revert root. induction p as [|c p IH]; intros root H; simpl in *; [done|].
  destruct root as [| |m es|]; try done.
  destruct (es !! c) as [child|]; [|done]. by rewrite (IH child).
Qed.

Lemma lookup_chmod_path mode p root m es :
  FS.lookup_path p root = Some (Dir m es) →
  FS.lookup_path p (FS.chmod_path mode p root) = Some (Dir mode es).
Proof.
  unfold FS.chmod_path. destruct p as [|c0 p0] eqn:Hp; [by intros [= ->]|].
  rewrite <- Hp. assert (p ≠ []) as Hne by by rewrite Hp. clear Hp c0 p0.
  revert root Hne. induction p as [|c p IH]; intros root Hne H; [done|].
  simpl in H. destruct root as [| |m0 es0|]; try done.
  destruct (es0 !! c) as [child|] eqn:Hc; [|done].
  destruct p as [|c' p'].
  - simpl in *. injection H as ->.
    rewrite lookup_partial_alter_eq, Hc. done.
  - rewrite update_path_cons by done. cbn [FS.lookup_path].
    rewrite lookup_alter_eq, Hc. simpl. by apply IH.
Qed.


Lemma lookup_fresh_chain umask mode p :
  FS.lookup_path p (FS.fresh_chain umask mode p)
  = Some (Dir (Z.land mode (Z.lnot umask)) ∅).
Proof.
  induction p as [|c p IH]; simpl; [done|].
  by rewrite lookup_singleton_eq.
Qed.

Lemma lookup_mkdirs umask mode p root root' :
  FS.mkdirs umask mode p root = inr root' →
  FS.lookup_path p root' = Some (Dir (Z.land mode (Z.lnot umask)) ∅).
Proof.
  revert root root'. induction p as [|c p IH]; intros root root' H; simpl in H;
    [done|].
  destruct root as [| |m es|]; try done.
  destruct (es !! c) as [child|] eqn:Hc.
  - destruct (FS.mkdirs umask mode p child) as [|child'] eqn:Hmk; [done|].
    injection H as <-. simpl. rewrite lookup_insert_eq. by eapply IH.
  - injection H as <-. simpl. rewrite lookup_insert_eq.
    apply lookup_fresh_chain.
Qed.

(** The path is a directory already: its mode is reset and nothing is
    raised. *)
Lemma makedirs_or_chmod_existing (E : environ) p other w m es :
  p ≠ "" →
  FS.lookup_path (FS.path_of (cwd E) p) (fs w) = Some (Dir m es) →
  ∃ w', makedirs_or_chmod E p other w = (Ok tt, w') ∧
        FS.lookup_path (FS.path_of (cwd E) p) (fs w') = Some (Dir 488 es).
Proof.
  intros Hp Hdir.
  unfold makedirs_or_chmod, os_makedirs, os_chmod, catch, bind, modify, get.
  simpl. rewrite bool_decide_eq_false_2 by done.
  rewrite (mkdirs_exists _ _ _ _ _ Hdir). simpl.
  rewrite (dir_stat _ _ _ _ _ Hp Hdir). eexists. split; [done|]. simpl.
  by eapply lookup_chmod_path.
Qed.

(** Two calls in a row on a path that can be made: the first makes the
    directory, the second resets its mode; both return. *)
Lemma makedirs_or_chmod_twice (E : environ) p other w root' :
  p ≠ "" →
  FS.mkdirs (umask E) 488 (FS.path_of (cwd E) p) (fs w) = inr root' →
  ∃ w1 w2,
    makedirs_or_chmod E p other w = (Ok tt, w1) ∧
    makedirs_or_chmod E p other w1 = (Ok tt, w2) ∧
    FS.lookup_path (FS.path_of (cwd E) p) (fs w2) = Some (Dir 488 ∅).
Proof.
  intros Hp Hmk.
  assert (makedirs_or_chmod E p other w
          = (Ok tt, set_fs (λ _, root') (log (EvMakedirs p 488) w))) as H1.
  { unfold makedirs_or_chmod, os_makedirs, catch, bind, modify, get. simpl.
    rewrite bool_decide_eq_false_2 by done. by rewrite Hmk. }
  apply lookup_mkdirs in Hmk.
  destruct (makedirs_or_chmod_existing E p other
              (set_fs (λ _, root') (log (EvMakedirs p 488) w)) _ ∅ Hp Hmk)
    as (w2 & H2 & Hdir).
  eauto.
Qed.

(** C7 at a failing input.  The directory is to be made below a regular
    file, so [os.makedirs] fails with [ENOTDIR]: [read_config] for the
    output directory and [setup_paths] for the temporary directory both
    return as if nothing had happened, no error is reported and the
    directory is not there. *)
Theorem makedirs_failure_is_ignored :
  (read_config Demo.env "config_a" false Demo.parsed_below_file).1 = Ok tt ∧
  trace (Demo.after (read_config Demo.env "config_a" false)
                    Demo.parsed_below_file)
    = [ EvImportCall "config_a"; EvLoad "config_a";
        EvMakedirs "/home/user/notes/out/" 488 ] ∧
  FS.exists_ "/home/user"
    (fs (Demo.after (read_config Demo.env "config_a" false)
                    Demo.parsed_below_file))
    "/home/user/notes/out/" = false ∧
  (setup_paths Demo.env Demo.temp_below_file).1 = Ok tt ∧
  trace (Demo.after (setup_paths Demo.env) Demo.temp_below_file)
    = [ EvMakedirs "/home/user/notes/tmp/" 488 ] ∧
  FS.exists_ "/home/user"
    (fs (Demo.after (setup_paths Demo.env) Demo.temp_below_file))
    "/home/user/notes/tmp/" = false.
Proof.
  split; [by_compute|]. split; [by_compute|]. split; [by_compute|].
  split; [by_compute|]. split; by_compute.
Qed.

(** * Further properties of the module *)

(** ** [print_banner] as the module has it *)

Definition spaces (n : nat) : string := String.string_of_list_ascii (replicate n " "%char).

(** [s.center(width)] *)
Definition center (s : string) (width : nat) : string :=
  let n := String.length s in
  if (width <=? n)%nat then s
  else
    let marg := (width - n)%nat in
    let left := (marg / 2 + (if Nat.odd marg && Nat.odd width then 1 else 0))%nat in
    spaces left +:+ s +:+ spaces (marg - left).

Definition banner_line (s : string) : string :=
  "|=========" +:+ center s 60 +:+ "=========|".

Definition banner_rule : string :=
  "|==============================================================================|".

(** The lines of the banner for a temporary directory. *)
Definition banner (temp : string) : list string :=
  [ banner_rule;
    banner_line "OpenRAM Compiler";
    banner_line " ";
    banner_line "VLSI Design and Automation Lab";
    banner_line "University of California Santa Cruz CE Department";
    banner_line " ";
    banner_line "VLSI Computer Architecture Research Group";
    banner_line "Oklahoma State University ECE Department";
    banner_line " ";
    banner_line "Usage help: openram-user-group@ucsc.edu";
    banner_line "Development help: openram-dev-group@ucsc.edu";
    banner_line ("Temp dir: " +:+ temp);
    banner_rule ].

Definition print (s : string) : M unit := modify (log (EvPrint s)).

Definition print_banner (E : environ) : M unit :=
  let* u := getattr E "is_unit_test" in
  if truthy E u then ret tt
  else
    print banner_rule ;;
    print (banner_line "OpenRAM Compiler") ;;
    print (banner_line " ") ;;
    print (banner_line "VLSI Design and Automation Lab") ;;
    print (banner_line "University of California Santa Cruz CE Department") ;;
    print (banner_line " ") ;;
    print (banner_line "VLSI Computer Architecture Research Group") ;;
    print (banner_line "Oklahoma State University ECE Department") ;;
    print (banner_line " ") ;;
    print (banner_line "Usage help: openram-user-group@ucsc.edu") ;;
    print (banner_line "Development help: openram-dev-group@ucsc.edu") ;;
    let* t := getattr E "openram_temp" in
    print (banner_line ("Temp dir: " +:+ py_str E t)) ;;
    print banner_rule.


(** ** The merge loop of [read_config] *)

Lemma merge_fold_unset_key (config : items) (o : store) (k : string) (v : value) :
  NoDup config.*1 → (k, v) ∈ config → o !! k = None →
  foldl (flip merge_item) o config !! k = Some v.
Proof.
  revert o. induction config as [|[k' v'] config IH]; intros o Hnd Hin Hk; simpl.
  - by apply elem_of_nil in Hin.
  - rewrite fmap_cons in Hnd. apply NoDup_cons in Hnd as [Hk' Hnd].
    apply elem_of_cons in Hin as [[= <- <-]|Hin].
    + rewrite merge_fold_absent_key by done. unfold flip, merge_item.
      rewrite (bool_decide_eq_false_2 (k ∈ dom o)) by by apply not_elem_of_dom.
      simpl. apply lookup_insert_eq.
    + apply IH; [done..|]. change (merge_item (k', v') o !! k = None).
      rewrite merge_item_other_key; [done|]. intros ->.
      apply Hk'. apply list_elem_of_fmap. by exists (k, v).
Qed.

(** X1. A name the configuration file defines and the store does not hold
    is stored with the file's value. *)
Theorem merge_config_takes_unset_keys (config : items) (w : world)
    (k : string) (v : value) :
  NoDup config.*1 → (k, v) ∈ config → opts w !! k = None →
  ∃ w', merge_config config w = (Ok tt, w') ∧ opts w' !! k = Some v.
Proof.
  intros Hnd Hin Hk. eexists. split; [apply merge_config_run|].
  destruct w; simpl in *. by apply merge_fold_unset_key.
Qed.

Lemma merge_config_takes_unset_keys_witness :
  ∃ w', merge_config Demo.config_a Demo.parsed_x = (Ok tt, w') ∧
        opts w' !! "word_size" = Some (VInt 32).
Proof.
  apply (merge_config_takes_unset_keys Demo.config_a Demo.parsed_x).
  - by_compute.
  - by_compute.
  - reflexivity.
Defined.

(** The value of the last binding of the technology name in a list of
    items. *)
Fixpoint last_tech (config : items) : option value :=
  match config with
  | [] => None
  | (k, v) :: rest =>
      match last_tech rest with
      | Some v' => Some v'
      | None => if bool_decide (k = "tech_name") then Some v else None
      end
  end.

Lemma last_tech_none config : last_tech config = None → "tech_name" ∉ config.*1.
Proof.
  induction config as [|[k v] config IH]; simpl; [intros _; apply not_elem_of_nil|].
  destruct (last_tech config); [done|]. case_bool_decide; [done|].
  intros _. rewrite not_elem_of_cons. split; [done | by apply IH].
Qed.

Lemma merge_fold_last_tech (config : items) (o : store) (v : value) :
  last_tech config = Some v →
  foldl (flip merge_item) o config !! "tech_name" = Some v.
Proof.
  revert o. induction config as [|[k' v'] config IH]; intros o H; simpl in *; [done|].
  destruct (last_tech config) as [v0|] eqn:Hlast.
  - by apply IH.
  - case_bool_decide as Hk; [|done]. injection H as ->. subst k'.
    rewrite merge_fold_absent_key by by apply last_tech_none.
    apply merge_item_tech_name.
Qed.

Lemma merge_fold_dom (config : items) (o : store) (k : string) :
  k ∈ config.*1 ∨ k ∈ dom o → k ∈ dom (foldl (flip merge_item) o config).
Proof.
  revert o. induction config as [|[k' v'] config IH]; intros o H; simpl.
  - destruct H as [H|H]; [by apply elem_of_nil in H | done].
  - apply IH. rewrite fmap_cons, elem_of_cons in H. unfold flip, merge_item.
    destruct H as [[->|H]|H]; [right|by left|right].
    + case_match; [apply elem_of_dom; by rewrite lookup_insert_eq|].
      apply orb_false_iff in H as [H%negb_false_iff _].
      by apply bool_decide_eq_true in H.
    + case_match; [|done]. rewrite dom_insert_L. set_solver.
Qed.

Lemma merge_fold_known_keys (config : items) (o : store) :
  (∀ k, k ∈ config.*1 → k ∈ dom o) →
  foldl (flip merge_item) o config =
  match last_tech config with
  | Some v => <["tech_name" := v]> o
  | None => o
  end.
Proof.
  revert o. induction config as [|[k v] config IH]; intros o Hdom; simpl; [done|].
  assert (k ∈ dom o) as Hk by (apply Hdom; rewrite fmap_cons; apply list_elem_of_here).
  change (flip merge_item o (k, v)) with
    (if negb (bool_decide (k ∈ dom o)) || bool_decide (k = "tech_name")
     then <[k := v]> o else o).
  rewrite (bool_decide_eq_true_2 (k ∈ dom o)) by done. simpl.
  case_bool_decide as Htech.
  - subst k. rewrite IH.
    + destruct (last_tech config); [by rewrite insert_insert_eq | done].
    + intros k Hin. rewrite dom_insert_L. apply elem_of_union. right.
      apply Hdom. rewrite fmap_cons. by apply list_elem_of_further.
  - rewrite IH; [by destruct (last_tech config)|].
    intros k' Hin. apply Hdom. rewrite fmap_cons. by apply list_elem_of_further.
Qed.

(** X2. Merging the same configuration a second time changes nothing: all
    its names are in the store by then, and the technology name already has
    the file's value. *)
Theorem merge_config_twice (config : items) (w : world) :
  ∃ w1, merge_config config w = (Ok tt, w1) ∧
        merge_config config w1 = (Ok tt, w1).
Proof.
  eexists. split; [apply merge_config_run|].
  rewrite merge_config_run. f_equal. destruct w as [o c f sp sm t].
  unfold set_opts; simpl. f_equal.
  rewrite (merge_fold_known_keys config (foldl (flip merge_item) o config)).
  - destruct (last_tech config) as [v|] eqn:Hlast; [|done].
    apply insert_id. by apply merge_fold_last_tech.
  - intros k Hin. apply merge_fold_dom. by left.
Qed.

(** ** [parse_args] *)

(** The attribute an option is stored under. *)
Definition option_dest (o : cli_option) : string :=
  match o with
  | Backannotated => "run_pex"
  | Output _ => "output_name"
  | Outpath _ => "output_path"
  | Nocheck => "check_lvsdrc"
  | Verbose => "debug_level"
  | Tech _ => "tech_name"
  | Spice _ => "spice_name"
  | RemoveNetlistTrimming => "trim_netlist"
  | Characterize => "analytical_delay"
  | Dontpurge => "purge_temp"
  end.

Lemma take_action_keeps_attr (E : environ) o k :
  k ≠ option_dest o → stable (keeps_attr k) (take_action E o).
Proof.
  intros Hk. destruct o; simpl in Hk;
    unfold take_action; autounfold with py; stable_with frame_attr.
Qed.

Lemma options_keep_attr (E : environ) argv k :
  k ∉ option_dest <$> argv → stable (keeps_attr k) (for_each (take_action E) argv).
Proof.
  intros Hk. induction argv as [|o argv IH]; simpl.
  - apply stable_ret; tc_solve.
  - rewrite fmap_cons, not_elem_of_cons in Hk. destruct Hk as [Hk1 Hk2].
    apply stable_bind; [tc_solve| |intros _; by apply IH].
    by apply take_action_keeps_attr.
Qed.

(** [parse_args] after the options are stored. *)
Lemma parse_args_run (E : environ) argv args r w w' :
  parse_args E argv args w = (Ok r, w') →
  ∃ w1, for_each (take_action E) argv w = (Ok tt, w1) ∧ r = args ∧
        ∀ k, k ≠ "tech_name" → opts w' !! k = opts w1 !! k.
Proof.
  unfold parse_args. intros H.
  apply bind_ok_inv in H as ([] & w1 & Hopts & H).
  exists w1. split; [done|]. split.
  - do 4 (apply bind_ok_inv in H as (? & ? & _ & H)). by injection H as <- _.
  - intros k Hk. revert H. generalize w1 (Ok r) w'.
    change (stable (keeps_attr k)
      (let* t := getattr E "tech_name" in
       when (eq_str t "") (setattr "tech_name" (VStr "scmos")) ;;
       let* t := getattr E "tech_name" in
       when (eq_str t "scmos") (setattr "tech_name" (VStr "scn3me_subm")) ;;
       ret args)).
    autounfold with py. stable_with frame_attr.
Qed.

(** X3. [parse_args] returns the positional arguments as they are and
    stores nothing but the options that are on the command line and the
    technology name: every other entry of the store is left as it was, so
    that the configuration file can still supply it. *)
Theorem parse_args_stores_given_only (E : environ) (argv : list cli_option)
    (args r : list string) (w w' : world) (k : string) :
  parse_args E argv args w = (Ok r, w') →
  r = args ∧
  (k ≠ "tech_name" → k ∉ option_dest <$> argv → opts w' !! k = opts w !! k).
Proof.
  intros H. apply parse_args_run in H as (w1 & Hopts & -> & Htail).
  split; [done|]. intros Hk Hdest. rewrite Htail by done.
  by apply options_keep_attr with (k := k) in Hopts.
Qed.

Lemma parse_args_stores_given_only_witness :
  ["config_a"] = ["config_a"] ∧
  opts Demo.parsed_x !! "purge_temp" = opts Demo.start !! "purge_temp".
Proof.
  destruct (parse_args_stores_given_only Demo.env [Outpath "/tmp/x"]
              ["config_a"] ["config_a"] Demo.start Demo.parsed_x "purge_temp")
    as [Hr Hk].
  - vm_compute. reflexivity.
  - split; [exact Hr|]. apply Hk; [done | by_compute].
Defined.

#[global] Instance cli_option_eq_dec : EqDecision cli_option.
Proof. solve_decision. Defined.

(** The number of [-v] options. *)
Definition count_verbose (argv : list cli_option) : Z :=
  Z.of_nat (List.length (filter (λ o, o = Verbose) argv)).

Lemma take_action_debug_level (E : environ) o w w1 d :
  take_action E o w = (Ok tt, w1) →
  lookup_attr E (opts w) "debug_level" = Some (VInt d) →
  lookup_attr E (opts w1) "debug_level"
    = Some (VInt (d + count_verbose [o])).
Proof.
  intros H Hd. destruct (decide (o = Verbose)) as [->|Ho].
  - unfold take_action, ensure_value, add_one in H.
    unfold bind at 1 2, get in H. simpl in H. rewrite Hd in H.
    rewrite (getattr_run E _ _ _ Hd) in H. simpl in H.
    injection H as <-. simpl. apply lookup_attr_insert.
  - apply take_action_keeps_attr with (k := "debug_level") in H.
    + rewrite (keeps_attr_lookup E _ _ _ H), Hd.
      unfold count_verbose. rewrite filter_cons_False by done. simpl.
      by rewrite Z.add_0_r.
    + by destruct o.
Qed.

(** X4. Every [-v] on the command line raises the verbosity level by one:
    with an integer level [d] to start from, the level after [parse_args]
    is [d] plus the number of [-v] options. *)
Theorem parse_args_counts_verbose (E : environ) (argv : list cli_option)
    (args r : list string) (w w' : world) (d : Z) :
  parse_args E argv args w = (Ok r, w') →
  lookup_attr E (opts w) "debug_level" = Some (VInt d) →
  lookup_attr E (opts w') "debug_level" = Some (VInt (d + count_verbose argv)).
Proof.
  intros H Hd. apply parse_args_run in H as (w1 & Hopts & _ & Htail).
  unfold lookup_attr. rewrite Htail by done. fold (lookup_attr E (opts w1) "debug_level").
  clear Htail w' r. revert w d Hd Hopts.
  induction argv as [|o argv IH]; intros w d Hd H; simpl in H.
  - injection H as <-. rewrite Hd. unfold count_verbose. simpl.
    by rewrite Z.add_0_r.
  - apply bind_ok_inv in H as ([] & w0 & Ho & H).
    apply (take_action_debug_level E o w w0 d) in Ho; [|done].
    rewrite (IH _ _ Ho H). f_equal. f_equal.
    unfold count_verbose. rewrite <- Z.add_assoc, <- Nat2Z.inj_add.
    rewrite <- length_app, <- filter_app. done.
Qed.

Lemma parse_args_counts_verbose_witness :
  lookup_attr Demo.env
    (opts (Demo.after (parse_args Demo.env [Verbose; Nocheck; Verbose] [])
                      Demo.start))
    "debug_level" = Some (VInt 2).
Proof.
  apply (parse_args_counts_verbose Demo.env [Verbose; Nocheck; Verbose] [] []
           Demo.start _ 0).
  - vm_compute. reflexivity.
  - reflexivity.
Defined.

(** X5. A technology name given with [-t] other than the empty string and
    ["scmos"] is what [OPTS.tech_name] reads after [parse_args]. *)
Theorem parse_args_keeps_tech_name (E : environ) (argv : list cli_option)
    (args r : list string) (w w' : world) (t : string) :
  parse_args E argv args w = (Ok r, w') →
  supplied_tech argv = Some t → t ≠ "" → t ≠ "scmos" →
  lookup_attr E (opts w') "tech_name" = Some (VStr t).
Proof.
  unfold parse_args. intros H Ht Hne Hscmos.
  apply bind_ok_inv in H as ([] & w1 & Hopts & H).
  apply options_tech_name in Hopts. rewrite Ht in Hopts.
  apply alias_tech_run in H as (v & Hv & Hv' & _).
  unfold lookup_attr in Hv. rewrite Hopts in Hv. injection Hv as <-.
  rewrite Hv'. unfold alias_tech. simpl.
  by rewrite !bool_decide_eq_false_2.
Qed.

Lemma parse_args_keeps_tech_name_witness :
  lookup_attr Demo.env
    (opts (Demo.after (parse_args Demo.env [Tech "scmos"; Tech "freepdk45"] [])
                      Demo.start))
    "tech_name" = Some (VStr "freepdk45").
Proof.
  apply (parse_args_keeps_tech_name Demo.env [Tech "scmos"; Tech "freepdk45"]
           [] [] Demo.start).
  - vm_compute. reflexivity.
  - reflexivity.
  - done.
  - done.
Defined.

(** ** [read_config] *)

Module DemoMore.

(** A process in netlist-only mode that asks for the checks all the same. *)
Definition netlist_world : world :=
  set_opts (insert "netlist_only" (VBool true))
    (set_opts (insert "check_lvsdrc" (VBool true)) Demo.start).

(** An installation whose [$OPENRAM_HOME] names the directory above the
    compiler. *)
Definition homeless : environ := {|
  class_defaults := Demo.defaults;
  cwd := "/home/user";
  umask := 18;
  env_OPENRAM_HOME := Some "/opt/openram";
  env_OPENRAM_TECH := Some "/opt/openram/technology";
  env_PATH := Some "/usr/local/bin:/usr/bin";
  python_version := (3, 9);
  expand_tilde := expand_tilde Demo.env;
  find_module := Demo.finder;
  spice := spice Demo.env;
  dict_keys := dict_keys Demo.env;
  obj_truth := λ _, true;
  obj_str := λ _, "<object>";
  error0 := None
|}.

(** A process that has its technology and its process corners set. *)
Definition corners_set : world :=
  set_opts (insert "process_corners" (VStr "TT"))
    (set_opts (insert "tech_name" (VStr "freepdk45")) Demo.start).

(** A process set to a technology that is not installed. *)
Definition unknown_tech : world :=
  set_opts (insert "tech_name" (VStr "nosuch")) Demo.start.

(** The same installation run by a later major version of Python. *)
Definition python4 : environ := {|
  class_defaults := Demo.defaults;
  cwd := "/home/user";
  umask := 18;
  env_OPENRAM_HOME := Some "/opt/openram/compiler";
  env_OPENRAM_TECH := Some "/opt/openram/technology";
  env_PATH := Some "/usr/local/bin:/usr/bin";
  python_version := (4, 0);
  expand_tilde := expand_tilde Demo.env;
  find_module := Demo.finder;
  spice := spice Demo.env;
  dict_keys := dict_keys Demo.env;
  obj_truth := λ _, true;
  obj_str := λ _, "<object>";
  error0 := None
|}.

(** A process whose temporary directory is not there yet. *)
Definition fresh_temp : world :=
  set_opts (insert "openram_temp" (VStr "/tmp/fresh")) Demo.start.

End DemoMore.

(** X6. When the configuration module cannot be imported, because no such
    module is found or because its body raises, [read_config] ends the
    process with status 2 after reporting the file; the options, the
    checkpoint and the file system are as before. *)
Theorem read_config_import_failure (E : environ) (config_file : string)
    (is_unit_test : bool) (w : world) :
  sys_modules w !! Str.basename (config_path E config_file) = None →
  (find_module E (Str.basename (config_path E config_file))
     (Str.dirname (config_path E config_file) :: sys_path w) = None ∨
   ∃ m e, find_module E (Str.basename (config_path E config_file))
            (Str.dirname (config_path E config_file) :: sys_path w) = Some m ∧
          mod_exec m (opts w) = inl e) →
  ∃ w', read_config E config_file is_unit_test w = (Raise (Exit 2), w') ∧
        opts w' = opts w ∧ checkpoint w' = checkpoint w ∧ fs w' = fs w ∧
        last (trace w')
          = Some (EvError ("Unable to read configuration file: "
                           +:+ config_path E config_file) 2).
Proof.
  intros Hnew Hfail.
  unfold read_config, py_import, catch, debug_error, bind, modify, get. simpl.
  rewrite Hnew. destruct Hfail as [->|(m & e & -> & Hexec)]; simpl.
  - eexists. split; [done|]. simpl. by rewrite last_snoc.
  - rewrite Hexec. simpl. eexists. split; [done|]. simpl. by rewrite last_snoc.
Qed.

Lemma read_config_import_failure_witness :
  ∃ w', read_config Demo.env "no_such_config" true Demo.parsed_x
          = (Raise (Exit 2), w') ∧
        opts w' = opts Demo.parsed_x ∧
        checkpoint w' = checkpoint Demo.parsed_x ∧ fs w' = fs Demo.parsed_x ∧
        last (trace w')
          = Some (EvError ("Unable to read configuration file: "
                           +:+ config_path Demo.env "no_such_config") 2).
Proof.
  apply (read_config_import_failure Demo.env "no_such_config" true Demo.parsed_x).
  - reflexivity.
  - left. reflexivity.
Defined.

(** [sys.path] is left alone. *)
Definition keeps_sys_path (w w' : world) : Prop := sys_path w' = sys_path w.

#[global] Instance keeps_sys_path_preorder : PreOrder keeps_sys_path.
Proof. split; unfold keeps_sys_path; [intros ?|intros ???]; congruence. Qed.

Ltac frame_sys_path := unfold keeps_sys_path; simpl; done.

(** X7. [read_config] puts the directory of the configuration file in
    front of [sys.path], on every call, and stores its second argument as
    [is_unit_test]. *)
Theorem read_config_sys_path (E : environ) (config_file : string)
    (is_unit_test : bool) (w w' : world) :
  read_config E config_file is_unit_test w = (Ok tt, w') →
  sys_path w' = Str.dirname (config_path E config_file) :: sys_path w ∧
  opts w' !! "is_unit_test" = Some (VBool is_unit_test).
Proof.
  intros H. split.
  - unfold read_config in H.
    apply bind_ok_inv in H as ([] & w1 & [= <-] & H).
    revert H. generalize (Ok ()) w'.
    lazymatch goal with
    | |- ∀ r w', ?m ?w1 = _ → _ =>
        assert (stable keeps_sys_path m) as Hst
          by (autounfold with py; stable_with frame_sys_path)
    end.
    intros r w2 H. apply Hst in H. exact H.
  - apply read_config_merged in H as (config & w1 & _ & _ & _ & H).
    unfold finish_config in H.
    do 6 (apply bind_ok_inv in H as (? & ? & _ & H)).
    apply bind_ok_inv in H as ([] & w2 & [= <-] & H).
    revert H. generalize (Ok ()) w'.
    lazymatch goal with
    | |- ∀ r w', ?m ?w1 = _ → _ =>
        assert (stable (keeps_attr "is_unit_test") m) as Hst
          by (autounfold with py; stable_with frame_attr)
    end.
    intros r w2 H. apply Hst in H. rewrite H. simpl. apply lookup_insert_eq.
Qed.

Lemma read_config_sys_path_witness :
  sys_path (Demo.after (read_config Demo.env "config_a" false) Demo.parsed_x)
    = "/home/user" :: sys_path Demo.parsed_x ∧
  opts (Demo.after (read_config Demo.env "config_a" false) Demo.parsed_x)
    !! "is_unit_test" = Some (VBool false).
Proof.
  apply (read_config_sys_path Demo.env "config_a" false Demo.parsed_x).
  vm_compute. reflexivity.
Defined.

(** The steps of [read_config] from the test of [netlist_only] on. *)
Lemma finish_config_from_netlist_only (E : environ) u w w' :
  finish_config E u w = (Ok tt, w') →
  ∃ w0,
    (let* netlist_only := getattr E "netlist_only" in
     when (truthy E netlist_only) (setattr "check_lvsdrc" (VBool false)) ;;
     let* output_name := getattr E "output_name" in
     when (eq_str output_name "")
          (let* n := default_output_name E in setattr "output_name" (VStr n)) ;;
     let* v := getattr E "output_path" in
     let* p := str_arg v in
     makedirs_or_chmod E p
       (λ _, debug_error E "Unable to make output directory." (-1))) w0
    = (Ok tt, w') ∧
    (∀ k, k ≠ "output_path" → k ≠ "is_unit_test" → opts w0 !! k = opts w !! k).
Proof.
  unfold finish_config. intros H.
  assert (∀ k, k ≠ "output_path" → k ≠ "is_unit_test" → keeps_attr k w w) as T
    by done.
  do 7 (
    let H1 := fresh "H" in
    apply bind_ok_inv in H as (? & ? & H1 & H);
    lazymatch type of H1 with
    | ?m _ = (_, ?wn) =>
        let S1 := fresh "S" in
        assert (∀ k, k ≠ "output_path" → k ≠ "is_unit_test" →
                     stable (keeps_attr k) m) as S1
          by (intros; autounfold with py; stable_with frame_attr);
        let T' := fresh "T" in
        assert (∀ k, k ≠ "output_path" → k ≠ "is_unit_test" → keeps_attr k w wn)
          as T' by (intros k ? ?; etrans; [by apply T | by eapply (S1 k)]);
        clear T S1 H1; rename T' into T
    end).
  eexists. split; [exact H|]. intros k ? ?. by apply T.
Qed.

(** X8. In netlist-only mode the checks are off: when [read_config] has
    returned and [netlist_only] reads as true, [check_lvsdrc] is stored as
    [False], whatever the command line or the configuration file said. *)
Theorem read_config_netlist_only (E : environ) (config_file : string)
    (is_unit_test : bool) (w w' : world) (v : value) :
  read_config E config_file is_unit_test w = (Ok tt, w') →
  lookup_attr E (opts w') "netlist_only" = Some v →
  truthy E v = true →
  opts w' !! "check_lvsdrc" = Some (VBool false).
Proof.
  intros H Hv Htrue.
  apply read_config_merged in H as (config & w1 & _ & _ & _ & H).
  apply finish_config_from_netlist_only in H as (w0 & H & _).
  apply bind_ok_inv in H as (n & w2 & Hn & H).
  apply getattr_ok in Hn as [-> Hn].
  apply bind_ok_inv in H as ([] & w2 & Hset & H).
  assert (stable (keeps_attr "netlist_only")
    (let* output_name := getattr E "output_name" in
     when (eq_str output_name "")
          (let* n := default_output_name E in setattr "output_name" (VStr n)) ;;
     let* v := getattr E "output_path" in
     let* p := str_arg v in
     makedirs_or_chmod E p
       (λ _, debug_error E "Unable to make output directory." (-1)))) as Sn
    by (autounfold with py; stable_with frame_attr).
  assert (stable (keeps_attr "check_lvsdrc")
    (let* output_name := getattr E "output_name" in
     when (eq_str output_name "")
          (let* n := default_output_name E in setattr "output_name" (VStr n)) ;;
     let* v := getattr E "output_path" in
     let* p := str_arg v in
     makedirs_or_chmod E p
       (λ _, debug_error E "Unable to make output directory." (-1)))) as Sc
    by (autounfold with py; stable_with frame_attr).
  pose proof (Sn _ _ _ H) as Kn. pose proof (Sc _ _ _ H) as Kc.
  rewrite Kc. destruct (truthy E n) eqn:Hnt; simpl in Hset; injection Hset as <-.
  - simpl. apply lookup_insert_eq.
  - rewrite (keeps_attr_lookup E _ _ _ Kn) in Hv. congruence.
Qed.

Lemma read_config_netlist_only_witness :
  opts (Demo.after (read_config Demo.env "config_a" false) DemoMore.netlist_world)
    !! "check_lvsdrc" = Some (VBool false).
Proof.
  apply (read_config_netlist_only Demo.env "config_a" false DemoMore.netlist_world
           _ (VBool true)).
  - vm_compute. reflexivity.
  - vm_compute. reflexivity.
  - reflexivity.
Defined.

(** The options object is left alone. *)
Definition keeps_opts (w w' : world) : Prop := opts w' = opts w.

#[global] Instance keeps_opts_preorder : PreOrder keeps_opts.
Proof. split; unfold keeps_opts; [intros ?|intros ???]; congruence. Qed.

Ltac frame_opts := unfold keeps_opts; simpl; done.

(** The default output name for the options in [o]. *)
Definition output_name_of (E : environ) (o : store) : option string :=
  word_size ← lookup_attr E o "word_size";
  num_words ← lookup_attr E o "num_words";
  num_banks ← lookup_attr E o "num_banks";
  num_rw_ports ← lookup_attr E o "num_rw_ports";
  num_w_ports ← lookup_attr E o "num_w_ports";
  num_r_ports ← lookup_attr E o "num_r_ports";
  tech_name ← lookup_attr E o "tech_name";
  Some ("sram_" +:+ py_str E word_size +:+ "b_" +:+ py_str E num_words +:+ "w_"
        +:+ py_str E num_banks +:+ "bank_" +:+ py_str E num_rw_ports +:+ "rw_"
        +:+ py_str E num_w_ports +:+ "w_" +:+ py_str E num_r_ports +:+ "r_"
        +:+ py_str E tech_name).

Lemma default_output_name_run (E : environ) w n w1 :
  default_output_name E w = (Ok n, w1) →
  w1 = w ∧ output_name_of E (opts w) = Some n ∧ n ≠ "".
Proof.
  unfold default_output_name, output_name_of. intros H.
  do 7 (let Hv := fresh "Hv" in
        apply bind_ok_inv in H as (? & ? & Hv & H);
        apply getattr_ok in Hv as [-> Hv]; rewrite Hv; clear Hv; simpl).
  injection H as <- <-. done.
Qed.

Lemma lookup_attr_insert_ne (E : environ) (o : store) k k' v :
  k ≠ k' → lookup_attr E (<[k := v]> o) k' = lookup_attr E o k'.
Proof. intros Hk. unfold lookup_attr. by rewrite lookup_insert_ne. Qed.

(** The steps of [read_config] on the output name, from the store [o] that
    has gone through the test of [netlist_only]. *)
Lemma finish_config_output_name (E : environ) w w' :
  (let* output_name := getattr E "output_name" in
   when (eq_str output_name "")
        (let* n := default_output_name E in setattr "output_name" (VStr n)) ;;
   let* v := getattr E "output_path" in
   let* p := str_arg v in
   makedirs_or_chmod E p
     (λ _, debug_error E "Unable to make output directory." (-1))) w
  = (Ok tt, w') →
  ∃ v, lookup_attr E (opts w) "output_name" = Some v ∧
       if eq_str v ""
       then ∃ n, output_name_of E (opts w) = Some n ∧ n ≠ "" ∧
                 opts w' = <["output_name" := VStr n]> (opts w)
       else opts w' = opts w.
Proof.
  intros H.
  apply bind_ok_inv in H as (v & w1 & Hv & H).
  apply getattr_ok in Hv as [-> Hv]. exists v. split; [done|].
  apply bind_ok_inv in H as ([] & w1 & Hset & H).
  assert (stable keeps_opts
    (let* v := getattr E "output_path" in
     let* p := str_arg v in
     makedirs_or_chmod E p
       (λ _, debug_error E "Unable to make output directory." (-1)))) as S
    by (autounfold with py; stable_with frame_opts).
  apply S in H. unfold keeps_opts in H. rewrite H. clear H S.
  destruct (eq_str v ""); simpl in Hset.
  - apply bind_ok_inv in Hset as (n & w2 & Hn & Hset).
    apply default_output_name_run in Hn as (-> & Hn & Hne).
    injection Hset as <-. by exists n.
  - by injection Hset as <-.
Qed.

(** X9. After [read_config] the output name is never the empty string, and
    a non-empty name from the command line is kept. *)
Theorem read_config_output_name (E : environ) (config_file : string)
    (is_unit_test : bool) (w w' : world) :
  read_config E config_file is_unit_test w = (Ok tt, w') →
  lookup_attr E (opts w') "output_name" ≠ Some (VStr "") ∧
  (∀ n, config_is_plain E config_file w →
        opts w !! "output_name" = Some (VStr n) → n ≠ "" →
        opts w' !! "output_name" = Some (VStr n)).
Proof.
  intros H.
  apply read_config_merged in H as (config & w1 & _ & Hplain & _ & H).
  apply finish_config_from_netlist_only in H as (w0 & H & Hframe).
  apply bind_ok_inv in H as (nl & w2 & Hnl & H).
  apply getattr_ok in Hnl as [-> _].
  apply bind_ok_inv in H as ([] & w2 & Hset & H).
  assert (opts w2 !! "output_name" = opts w0 !! "output_name") as Hw2.
  { destruct (truthy E nl); simpl in Hset; injection Hset as <-; [|done].
    simpl. by rewrite lookup_insert_ne. }
  apply finish_config_output_name in H as (v & Hv & H). split.
  - destruct (eq_str v "") eqn:Hempty.
    + destruct H as (n & _ & Hne & ->). rewrite lookup_attr_insert. congruence.
    + rewrite H, Hv. intros [= ->]. done.
  - intros n Hp Hn Hne. specialize (Hplain Hp).
    assert (opts w2 !! "output_name" = Some (VStr n)) as Hn2.
    { rewrite Hw2, Hframe by done. simpl.
      rewrite merge_fold_set_key; rewrite ?Hplain, ?Hn; done. }
    unfold lookup_attr in Hv. rewrite Hn2 in Hv. injection Hv as <-.
    simpl in H. rewrite bool_decide_eq_false_2 in H by done. by rewrite H.
Qed.

Lemma read_config_output_name_witness :
  lookup_attr Demo.env
    (opts (Demo.after (read_config Demo.env "config_a" false) Demo.parsed_x))
    "output_name" ≠ Some (VStr "").
Proof.
  apply (read_config_output_name Demo.env "config_a" false Demo.parsed_x).
  vm_compute. reflexivity.
Defined.

(** X10. When neither the command line nor the configuration file names
    the output and the class default is the empty string, [read_config]
    stores the name made from the word size, the numbers of words, banks and
    ports and the technology name, as the store holds them on return. *)
Theorem read_config_default_output_name (E : environ) (config_file : string)
    (is_unit_test : bool) (w w' : world) (config : items) :
  read_config E config_file is_unit_test w = (Ok tt, w') →
  config_module E config_file w = Some config →
  config_is_plain E config_file w →
  opts w !! "output_name" = None →
  "output_name" ∉ config.*1 →
  class_defaults E !! "output_name" = Some (VStr "") →
  ∃ n, output_name_of E (opts w') = Some n ∧
       opts w' !! "output_name" = Some (VStr n).
Proof.
  intros H Hcfg Hp Hnone Hnot Hdef.
  apply read_config_merged in H as (config' & w1 & Hcfg' & Hplain & _ & H).
  assert (config' = config) as -> by congruence. specialize (Hplain Hp).
  apply finish_config_from_netlist_only in H as (w0 & H & Hframe).
  apply bind_ok_inv in H as (nl & w2 & Hnl & H).
  apply getattr_ok in Hnl as [-> _].
  apply bind_ok_inv in H as ([] & w2 & Hset & H).
  assert (opts w2 !! "output_name" = None) as Hw2.
  { transitivity (opts w0 !! "output_name").
    - destruct (truthy E nl); simpl in Hset; injection Hset as <-; [|done].
      simpl. by rewrite lookup_insert_ne.
    - rewrite Hframe by done. simpl.
      rewrite merge_fold_absent_key by done. by rewrite Hplain. }
  apply finish_config_output_name in H as (v & Hv & H).
  unfold lookup_attr in Hv. rewrite Hw2, Hdef in Hv. injection Hv as <-.
  simpl in H. destruct H as (n & Hn & _ & ->). exists n.
  split; [|apply lookup_insert_eq].
  rewrite <- Hn. unfold output_name_of.
  by rewrite !lookup_attr_insert_ne by done.
Qed.

Lemma read_config_default_output_name_witness :
  ∃ n, output_name_of Demo.env
         (opts (Demo.after (read_config Demo.env "config_a" false) Demo.parsed_x))
       = Some n ∧
       opts (Demo.after (read_config Demo.env "config_a" false) Demo.parsed_x)
         !! "output_name" = Some (VStr n).
Proof.
  apply (read_config_default_output_name Demo.env "config_a" false Demo.parsed_x
           _ Demo.config_a).
  - vm_compute. reflexivity.
  - reflexivity.
  - intros m Hm. vm_compute in Hm. injection Hm as <-. reflexivity.
  - reflexivity.
  - by_compute.
  - reflexivity.
Defined.

(** ** The name of the configuration file *)

Lemma endswith_length suf s :
  Str.endswith suf s = true → (String.length suf ≤ String.length s)%nat.
Proof.
  induction s as [|c s IH]; simpl.
  - rewrite orb_false_r. by intros <-%bool_decide_eq_true.
  - intros [<-%bool_decide_eq_true|H]%orb_true_iff; [done|].
    specialize (IH H). lia.
Qed.

Lemma prefix_empty s : String.prefix "" s = true.
Proof. by destruct s. Qed.

Lemma isabs_cons c s : Str.isabs (String c s) = bool_decide (c = Str.slash).
Proof.
  unfold Str.isabs, Str.startswith. cbn [String.prefix].
  destruct (Ascii.ascii_dec "/" c) as [<-|Hc].
  - by rewrite prefix_empty.
  - by rewrite bool_decide_eq_false_2.
Qed.

Lemma drop_end_cons n c s :
  (n ≤ String.length s)%nat →
  Str.drop_end n (String c s) = String c (Str.drop_end n s).
Proof.
  intros Hn. unfold Str.drop_end. simpl String.length.
  replace (S (String.length s) - n)%nat with (S (String.length s - n)) by lia.
  done.
Qed.

Lemma strip_py_absolute s : Str.isabs s = true → Str.isabs (Str.strip_py s) = true.
Proof.
  destruct s as [|c s]; [done|]. rewrite isabs_cons.
  intros ->%bool_decide_eq_true. unfold Str.strip_py.
  destruct (Str.endswith ".py" (String Str.slash s)) eqn:H1.
  - simpl in H1. apply endswith_length in H1.
    rewrite drop_end_cons by done. by rewrite isabs_cons.
  - destruct (Str.endswith (".py" +:+ Str.newline) (String Str.slash s)) eqn:H2;
      [|by rewrite isabs_cons].
    simpl in H2. apply endswith_length in H2.
    rewrite drop_end_cons by done.
    change (String Str.slash (Str.drop_end 4 s) +:+ Str.newline)
      with (String Str.slash (Str.drop_end 4 s +:+ Str.newline)).
    by rewrite isabs_cons.
Qed.

Lemma expanduser_absolute (E : environ) s : Str.isabs s = true → expanduser E s = s.
Proof.
  destruct s as [|c s]; [done|]. rewrite isabs_cons.
  intros ->%bool_decide_eq_true. done.
Qed.

(** X11. The path [read_config] makes of the name of the configuration
    file is absolute, and a leading [~] is never expanded: the working
    directory is put in front of a relative name before
    [os.path.expanduser] is applied. *)
Theorem config_path_never_expands (E : environ) (config_file : string) :
  Str.isabs (cwd E) = true →
  config_path E config_file
    = Str.strip_py (if Str.isabs config_file then config_file
                    else cwd E +:+ "/" +:+ config_file) ∧
  Str.isabs (config_path E config_file) = true.
Proof.
  intros Hcwd. unfold config_path.
  assert (Str.isabs (if negb (Str.isabs config_file)
                     then cwd E +:+ "/" +:+ config_file else config_file) = true)
    as Habs.
  { destruct (Str.isabs config_file) eqn:Hcf; simpl; [done|].
    by apply startswith_app. }
  apply strip_py_absolute in Habs.
  rewrite expanduser_absolute by done. split; [|done].
  by destruct (Str.isabs config_file).
Qed.

Lemma config_path_never_expands_witness :
  config_path Demo.env "~/config_a.py" = "/home/user/~/config_a" ∧
  Str.isabs (config_path Demo.env "~/config_a.py") = true.
Proof.
  apply (config_path_never_expands Demo.env "~/config_a.py"). reflexivity.
Defined.

(** ** [setup_paths] *)

(** The file system is left alone. *)
Definition keeps_fs (w w' : world) : Prop := fs w' = fs w.

#[global] Instance keeps_fs_preorder : PreOrder keeps_fs.
Proof. split; unfold keeps_fs; [intros ?|intros ???]; congruence. Qed.

Ltac frame_fs := unfold keeps_fs; simpl; done.

(** The sub-directories of [$OPENRAM_HOME] that go on [sys.path]. *)
Definition home_subdirs : list string :=
  ["gdsMill"; "tests"; "modules"; "base"; "pgates"].

(** The loop of [setup_paths] over the sub-directories. *)
Lemma subdir_loop (E : environ) home l w r w' :
  for_each (λ subdir,
      let full_path := home +:+ "/" +:+ subdir in
      let* d := os_path_isdir E full_path in
      debug_check d ("$OPENRAM_HOME/" +:+ subdir +:+ " does not exist: " +:+ full_path) ;;
      modify (set_sys_path (λ l, (l ++ [full_path])%list))) l w = (r, w') →
  fs w' = fs w ∧ opts w' = opts w ∧
  match r with
  | Ok _ =>
      sys_path w' = sys_path w ++ ((λ s, home +:+ "/" +:+ s) <$> l) ∧
      Forall (λ s, FS.isdir (cwd E) (fs w) (home +:+ "/" +:+ s) = true) l
  | Raise e => e = Exit (-1)
  end.
Proof.
  revert w. induction l as [|s l IH]; intros w H; simpl in H.
  - injection H as <- <-. by rewrite app_nil_r.
  - unfold bind at 1 2, os_path_isdir, get, debug_check in H. simpl in H.
    destruct (FS.isdir (cwd E) (fs w) (home +:+ "/" +:+ s)) eqn:Hd; simpl in H.
    + apply IH in H as (Hfs & Hopts & H). simpl in *.
      split; [done|]. split; [done|]. destruct r; [|done].
      destruct H as [Hsp Hall]. split.
      * rewrite Hsp. simpl. by rewrite <- app_assoc.
      * constructor; [done|]. exact Hall.
    + unfold bind, modify in H. simpl in H. by injection H as <- <-.
Qed.

(** X12. [setup_paths] ends the process with a non-zero status, leaving
    options and file system as they are, when [$OPENRAM_HOME] is not set,
    is not a directory, or lacks one of the sub-directories gdsMill, tests,
    modules, base or pgates. *)
Theorem setup_paths_needs_home (E : environ) (w : world) :
  (env_OPENRAM_HOME E = None ∨
   ∃ h, env_OPENRAM_HOME E = Some h ∧
        (FS.isdir (cwd E) (fs w) (FS.abspath (cwd E) h) = false ∨
         ∃ s, s ∈ home_subdirs ∧
              FS.isdir (cwd E) (fs w) (FS.abspath (cwd E) h +:+ "/" +:+ s) = false)) →
  ∃ status w', setup_paths E w = (Raise (Exit status), w') ∧ status ≠ 0 ∧
               fs w' = fs w ∧ opts w' = opts w.
Proof.
  intros [Hnone|(h & Hh & Hbad)].
  - unfold setup_paths. rewrite Hnone.
    exists 1, (log (EvError "$OPENRAM_HOME is not properly defined." 1) w).
    by repeat split.
  - destruct (setup_paths E w) as [r w'] eqn:H.
    unfold setup_paths in H. rewrite Hh in H.
    apply bind_inv in H as [(home & w0 & [= <- <-] & H)|(e & [=] & _)].
    apply bind_inv in H as [(d & w0 & [= <- <-] & H)|(e & [=] & _)].
    destruct (FS.isdir (cwd E) (fs w) (FS.abspath (cwd E) h)) eqn:Hd.
    + destruct Hbad as [?|(s & Hs & Hsd)]; [done|].
      apply bind_inv in H as [([] & w0 & [= <-] & H)|(e & [=] & _)].
      apply bind_inv in H as [([] & w1 & Hloop & H)|(e & Hloop & ->)];
        apply subdir_loop in Hloop as (Hfs & Hopts & Hr).
      * destruct Hr as [_ Hall]. rewrite Forall_forall in Hall.
        specialize (Hall s Hs). congruence.
      * subst e. exists (-1), w'. by repeat split.
    + apply bind_inv in H as [([] & w0 & [=] & _)|(e & [= <- <-] & ->)].
      eexists (-1), _. by repeat split.
Qed.

Lemma setup_paths_needs_home_witness :
  ∃ status w', setup_paths DemoMore.homeless Demo.start = (Raise (Exit status), w') ∧
               status ≠ 0 ∧ fs w' = fs Demo.start ∧ opts w' = opts Demo.start.
Proof.
  apply (setup_paths_needs_home DemoMore.homeless Demo.start).
  right. exists "/opt/openram". split; [reflexivity|]. right.
  exists "gdsMill". split; [by_compute | by vm_compute].
Defined.

(** [setup_paths] up to the purge of the temporary directory. *)
Lemma setup_paths_ok (E : environ) w w' :
  setup_paths E w = (Ok tt, w') →
  ∃ h t w1,
    env_OPENRAM_HOME E = Some h ∧
    lookup_attr E (opts w) "openram_temp" = Some (VStr t) ∧
    fs w1 = fs w ∧
    opts w1 = (if Str.endswith "/" t then opts w
               else <["openram_temp" := VStr (t +:+ "/")]> (opts w)) ∧
    sys_path w1 = sys_path w
      ++ ((λ s, FS.abspath (cwd E) h +:+ "/" +:+ s) <$> home_subdirs) ∧
    (cleanup_paths E ;;
     let* t := getattr E "openram_temp" in
     let* temp := str_arg t in
     makedirs_or_chmod E temp raise) w1 = (Ok tt, w').
Proof.
  unfold setup_paths. intros H.
  destruct (env_OPENRAM_HOME E) as [h|] eqn:Hh.
  2:{ apply bind_ok_inv in H as (? & ? & H & _).
      apply bind_inv in H as [(? & ? & _ & [=])|(? & ? & [=])]. }
  apply bind_ok_inv in H as (home & w0 & [= <- <-] & H).
  apply bind_ok_inv in H as (d & w0 & [= <- <-] & H).
  apply bind_ok_inv in H as ([] & w0 & Hcheck & H).
  assert (w0 = w) as ->.
  { unfold debug_check in Hcheck. destruct (FS.isdir _ _ _); [by injection Hcheck|].
    by apply bind_ok_inv in Hcheck as (? & ? & _ & [=]). }
  apply bind_ok_inv in H as ([] & w1 & Hloop & H).
  apply subdir_loop in Hloop as (Hfs & Hopts & Hsp & _).
  apply bind_ok_inv in H as (v & w2 & Hv & H).
  apply getattr_ok in Hv as [-> Hv].
  apply bind_ok_inv in H as (t & w2 & Ht & H).
  apply str_method_ok in Ht as [-> ->].
  apply bind_ok_inv in H as ([] & w2 & Hset & H).
  exists h, t, w2. split; [done|]. rewrite Hopts in Hv. split; [done|].
  destruct (Str.endswith "/" t); simpl in Hset; injection Hset as <-; simpl;
    rewrite ?Hopts; done.
Qed.

(** X13. When [setup_paths] returns, the name of the temporary directory
    ends with a separator, and the five sub-directories of [$OPENRAM_HOME]
    have been appended to [sys.path], on every call. *)
Theorem setup_paths_on_return (E : environ) (w w' : world) :
  setup_paths E w = (Ok tt, w') →
  (∃ temp, lookup_attr E (opts w') "openram_temp" = Some (VStr temp) ∧
           Str.endswith "/" temp = true) ∧
  ∃ h, env_OPENRAM_HOME E = Some h ∧
       sys_path w' = sys_path w
         ++ ((λ s, FS.abspath (cwd E) h +:+ "/" +:+ s) <$> home_subdirs).
Proof.
  intros H.
  apply setup_paths_ok in H as (h & t & w1 & Hh & Ht & _ & Hopts & Hsp & H).
  assert (stable keeps_opts
    (cleanup_paths E ;;
     let* t := getattr E "openram_temp" in
     let* temp := str_arg t in
     makedirs_or_chmod E temp raise)) as So
    by (autounfold with py; stable_with frame_opts).
  assert (stable keeps_sys_path
    (cleanup_paths E ;;
     let* t := getattr E "openram_temp" in
     let* temp := str_arg t in
     makedirs_or_chmod E temp raise)) as Sp
    by (autounfold with py; stable_with frame_sys_path).
  pose proof (So _ _ _ H) as Ko. pose proof (Sp _ _ _ H) as Kp.
  unfold keeps_opts in Ko. unfold keeps_sys_path in Kp. split.
  - rewrite Ko, Hopts. destruct (Str.endswith "/" t) eqn:Hend.
    + by exists t.
    + exists (t +:+ "/"). split; [apply lookup_attr_insert|].
      apply endswith_app, endswith_refl.
  - exists h. split; [done|]. by rewrite Kp.
Qed.

Lemma setup_paths_on_return_witness :
  (∃ temp, lookup_attr Demo.env
             (opts (Demo.after (setup_paths Demo.env) Demo.temp_below_file))
             "openram_temp" = Some (VStr temp) ∧
           Str.endswith "/" temp = true) ∧
  ∃ h, env_OPENRAM_HOME Demo.env = Some h ∧
       sys_path (Demo.after (setup_paths Demo.env) Demo.temp_below_file)
       = sys_path Demo.temp_below_file
         ++ ((λ s, FS.abspath (cwd Demo.env) h +:+ "/" +:+ s) <$> home_subdirs).
Proof.
  apply (setup_paths_on_return Demo.env Demo.temp_below_file).
  vm_compute. reflexivity.
Defined.

(** [cleanup_paths] on a temporary directory of files, links and
    sub-directories. *)
Lemma cleanup_paths_run (E : environ) w temp m es purge :
  lookup_attr E (opts w) "purge_temp" = Some purge →
  truthy E purge = true →
  lookup_attr E (opts w) "openram_temp" = Some (VStr temp) →
  temp ≠ "" →
  FS.lookup_path (FS.path_of (cwd E) temp) (fs w) = Some (Dir m es) →
  map_Forall (λ n entry, valid_name n ∧ is_special entry = false) es →
  ∃ w', cleanup_paths E w = (Ok tt, w') ∧ opts w' = opts w ∧
        FS.lookup_path (FS.path_of (cwd E) temp) (fs w') = Some (Dir m ∅).
Proof.
  intros Hpurge Htruth Htemp Hne Hdir Hes.
  destruct (cleanup_loop E temp m Hne (map_to_list es) w es)
    as (w' & es' & Hrun & Hdir' & Hes' & Ho & Hc & Ht).
  { apply NoDup_fst_map_to_list. }
  { exact Hdir. }
  { intros n entry Hin%elem_of_map_to_list.
    destruct (Hes n entry Hin) as [Hv Hs]. split; [exact Hv|]. by split. }
  assert (es' = ∅) as ->.
  { apply map_eq. intros k. rewrite Hes', lookup_empty.
    case_bool_decide as Hk; [done|].
    destruct (es !! k) as [entry|] eqn:Hke; [|done].
    destruct Hk. apply list_elem_of_fmap. exists (k, entry).
    split; [done|]. by apply elem_of_map_to_list. }
  exists w'. split; [|by split].
  unfold cleanup_paths.
  erewrite bind_ok by by apply getattr_run.
  rewrite Htruth. simpl.
  erewrite bind_ok by by apply getattr_run.
  unfold str_arg, os_path_exists, os_listdir, bind, get, ret, FS.exists_.
  simpl. rewrite (dir_stat _ _ _ _ _ Hne Hdir).
  rewrite bool_decide_eq_true_2 by done. simpl.
  rewrite (dir_stat _ _ _ _ _ Hne Hdir). exact Hrun.
Qed.

Lemma with_separator_not_empty t : with_separator t ≠ "".
Proof.
  unfold with_separator. destruct (Str.endswith "/" t) eqn:H.
  - by destruct t.
  - by destruct t.
Qed.

(** X14. [setup_paths] resets a temporary directory that is there: when it
    returns, with the purge flag on, a directory of files, links and
    sub-directories at the temporary path is empty and has mode 0750. *)
Theorem setup_paths_resets_temp (E : environ) (w w' : world) (t : string)
    (m : Z) (es : gmap string node) (purge : value) :
  setup_paths E w = (Ok tt, w') →
  lookup_attr E (opts w) "openram_temp" = Some (VStr t) →
  lookup_attr E (opts w) "purge_temp" = Some purge →
  truthy E purge = true →
  FS.lookup_path (FS.path_of (cwd E) (with_separator t)) (fs w) = Some (Dir m es) →
  map_Forall (λ n entry, valid_name n ∧ is_special entry = false) es →
  FS.lookup_path (FS.path_of (cwd E) (with_separator t)) (fs w')
    = Some (Dir 488 ∅).
Proof.
  intros H Ht Hpurge Htruth Hdir Hes.
  apply setup_paths_ok in H as (h & t' & w1 & _ & Ht' & Hfs & Hopts & _ & H).
  assert (t' = t) as -> by congruence.
  assert (lookup_attr E (opts w1) "openram_temp" = Some (VStr (with_separator t)))
    as Htemp.
  { rewrite Hopts. unfold with_separator.
    destruct (Str.endswith "/" t); [done | apply lookup_attr_insert]. }
  assert (lookup_attr E (opts w1) "purge_temp" = Some purge) as Hpurge1.
  { rewrite Hopts. destruct (Str.endswith "/" t); [done|].
    by rewrite lookup_attr_insert_ne. }
  rewrite <- Hfs in Hdir.
  destruct (cleanup_paths_run E w1 _ m es purge Hpurge1 Htruth Htemp
              (with_separator_not_empty t) Hdir Hes) as (w2 & Hclean & Ho2 & Hdir2).
  erewrite bind_ok in H by exact Hclean.
  rewrite <- Ho2 in Htemp.
  erewrite bind_ok in H by by apply getattr_run.
  erewrite bind_ok in H by reflexivity.
  destruct (makedirs_or_chmod_existing E (with_separator t) raise w2 m ∅
              (with_separator_not_empty t) Hdir2) as (w3 & Hrun & Hdir3).
  rewrite Hrun in H. by injection H as <-.
Qed.

Lemma setup_paths_resets_temp_witness :
  FS.lookup_path (FS.path_of (cwd Demo.env) (with_separator "/tmp/openram_temp/"))
    (fs (Demo.after (setup_paths Demo.env) Demo.start))
  = Some (Dir 488 ∅).
Proof.
  apply (setup_paths_resets_temp Demo.env Demo.start _ "/tmp/openram_temp/"
           488 Demo.temp_entries (VBool true)).
  - vm_compute. reflexivity.
  - reflexivity.
  - reflexivity.
  - reflexivity.
  - vm_compute. reflexivity.
  - by_compute.
Defined.

(** ** [cleanup_paths] without a directory *)

(** X15. When the temporary directory does not exist, [cleanup_paths]
    returns without doing anything, purge flag on or off. *)
Theorem cleanup_paths_missing_dir (E : environ) (w : world) (temp : string)
    (purge : value) :
  lookup_attr E (opts w) "purge_temp" = Some purge →
  lookup_attr E (opts w) "openram_temp" = Some (VStr temp) →
  FS.exists_ (cwd E) (fs w) temp = false →
  cleanup_paths E w = (Ok tt, w).
Proof.
  intros Hpurge Htemp Hmissing. unfold cleanup_paths.
  erewrite bind_ok by by apply getattr_run.
  destruct (truthy E purge); simpl.
  - erewrite bind_ok by by apply getattr_run.
    unfold str_arg, os_path_exists, bind, get, ret. simpl. by rewrite Hmissing.
  - by erewrite bind_ok by by apply getattr_run.
Qed.

Lemma cleanup_paths_missing_dir_witness :
  cleanup_paths Demo.env Demo.temp_below_file = (Ok tt, Demo.temp_below_file).
Proof.
  apply (cleanup_paths_missing_dir Demo.env Demo.temp_below_file
           "/home/user/notes/tmp" (VBool true)).
  - reflexivity.
  - reflexivity.
  - by vm_compute.
Defined.

(** ** [import_tech] *)

(** Loading one of the modules [names] leaves the options object as it
    is. *)
Definition plain_modules (E : environ) (names : list string) : Prop :=
  ∀ name sp m o, name ∈ names → find_module E name sp = Some m →
                 mod_exec m o = inr o.

Lemma py_import_plain (E : environ) names name :
  plain_modules E names → name ∈ names → stable keeps_opts (py_import E name).
Proof.
  intros Hplain Hname w r w'.
  unfold py_import, keeps_opts, bind, modify, get, ret, raise; simpl.
  destruct (sys_modules w !! name); [by intros [= _ <-]|].
  destruct (find_module E name (sys_path w)) as [m|] eqn:Hm; [|by intros [= _ <-]].
  simpl. rewrite (Hplain name _ m (opts w) Hname Hm). by intros [= _ <-].
Qed.

(** What [import_tech] does with one of the three defaults. *)
Definition fill_default (E : environ) (k : string) (d : option value)
    (o : store) : option store :=
  match lookup_attr E o k with
  | Some v => if eq_str v "" then (λ x, <[k := x]> o) <$> d else Some o
  | None => None
  end.

Lemma tech_default_run (E : environ) k compute d w w' :
  (∀ w0, match d with
         | Some x => compute w0 = (Ok x, w0)
         | None => ∃ e, compute w0 = (Raise e, w0)
         end) →
  tech_default E k compute w = (Ok tt, w') →
  fill_default E k d (opts w) = Some (opts w').
Proof.
  intros Hcompute H. unfold tech_default in H.
  apply bind_ok_inv in H as (v & w1 & Hv & H).
  apply getattr_ok in Hv as [-> Hv].
  unfold fill_default. rewrite Hv.
  destruct (eq_str v ""); simpl in H.
  - unfold bind in H. specialize (Hcompute w).
    destruct d as [x|]; [|destruct Hcompute as [e He]; by rewrite He in H].
    rewrite Hcompute in H. by injection H as <-.
  - by injection H as <-.
Qed.

Lemma fill_default_other (E : environ) k d o o' k' :
  fill_default E k d o = Some o' → k' ≠ k → o' !! k' = o !! k'.
Proof.
  unfold fill_default. intros H Hk.
  destruct (lookup_attr E o k) as [v|]; [|done].
  destruct (eq_str v ""); [|by injection H as <-].
  destruct d as [x|]; [|done]. injection H as <-. by rewrite lookup_insert_ne.
Qed.

Lemma fill_default_same (E : environ) k d o o' v :
  fill_default E k d o = Some o' → lookup_attr E o k = Some v →
  if eq_str v "" then o' !! k = d ∧ is_Some d else o' = o.
Proof.
  unfold fill_default. intros H Hv. rewrite Hv in H.
  destruct (eq_str v ""); [|by injection H as <-].
  destruct d as [x|]; [|done]. injection H as <-.
  split; [apply lookup_insert_eq | by eexists].
Qed.

(** The three values of the technology module: the keys of
    [spice["fet_models"]], [spice["supply_voltages"]] and
    [spice["temperatures"]]. *)
Definition spice_corners (E : environ) : option value :=
  match spice E !! "fet_models" with
  | Some m => dict_keys E m
  | None => None
  end.

(** The options [import_tech] ends with, from the options [o] it starts
    with, when the modules it loads leave the options alone. *)
Definition tech_options (E : environ) (o : store) : option store :=
  match env_OPENRAM_TECH E, lookup_attr E o "tech_name" with
  | Some root, Some (VStr tech_name) =>
      let o1 := <["openram_tech" :=
                   VStr (with_separator (FS.abspath (cwd E) root +:+ "/"
                                         +:+ tech_name))]> o in
      o2 ← fill_default E "process_corners" (spice_corners E) o1;
      o3 ← fill_default E "supply_voltages" (spice E !! "supply_voltages") o2;
      fill_default E "temperatures" (spice E !! "temperatures") o3
  | _, _ => None
  end.

Lemma import_tech_options (E : environ) w w' tn :
  lookup_attr E (opts w) "tech_name" = Some (VStr tn) →
  plain_modules E ["setup_openram_" +:+ tn; "tech"] →
  import_tech E w = (Ok tt, w') →
  tech_options E (opts w) = Some (opts w').
Proof.
  intros Htn Hplain H. unfold import_tech in H. unfold tech_options. rewrite Htn.
  erewrite bind_ok in H by by apply getattr_run.
  erewrite bind_ok in H by reflexivity.
  destruct (env_OPENRAM_TECH E) as [root|] eqn:Hroot.
  2:{ apply bind_ok_inv in H as (? & ? & H & _).
      apply bind_inv in H as [(? & ? & _ & [=])|(? & ? & [=])]. }
  apply bind_ok_inv in H as (tech_root & w0 & [= <- <-] & H).
  apply bind_ok_inv in H as (d & w0 & [= <- <-] & H).
  apply bind_ok_inv in H as ([] & w0 & Hcheck & H).
  assert (w0 = w) as ->.
  { unfold debug_check in Hcheck. destruct (FS.isdir _ _ _); [by injection Hcheck|].
    by apply bind_ok_inv in Hcheck as (? & ? & _ & [=]). }
  erewrite bind_ok in H by by apply getattr_run.
  erewrite bind_ok in H by reflexivity.
  apply bind_ok_inv in H as ([] & w1 & [= <-] & H).
  erewrite bind_ok in H by (apply getattr_run, lookup_attr_insert).
  erewrite bind_ok in H by reflexivity.
  apply bind_ok_inv in H as ([] & w2 & Hsep & H).
  assert (opts w2 = <["openram_tech" :=
            VStr (with_separator (FS.abspath (cwd E) root +:+ "/" +:+ tn))]> (opts w)
          ∧ lookup_attr E (opts w2) "tech_name" = Some (VStr tn)) as [Ho2 Htn2].
  { unfold with_separator.
    destruct (Str.endswith "/" _); simpl in Hsep; injection Hsep as <-; simpl.
    - split; [done|]. by rewrite lookup_attr_insert_ne.
    - rewrite insert_insert_eq. split; [done|]. by rewrite lookup_attr_insert_ne. }
  erewrite bind_ok in H by by apply getattr_run.
  apply bind_ok_inv in H as ([] & w3 & Hsetup & H).
  assert (opts w3 = opts w2) as Ho3.
  { revert Hsetup. generalize (Ok ()) w3. simpl py_str.
    lazymatch goal with
    | |- ∀ r w', ?m w2 = _ → _ => assert (stable keeps_opts m) as S
    end.
    { apply stable_catch; [tc_solve| |].
      - apply stable_bind; [tc_solve| |intros ?].
        { autounfold with py. stable_with frame_opts. }
        apply stable_bind; [tc_solve| |intros ?].
        { autounfold with py. stable_with frame_opts. }
        apply stable_bind; [tc_solve| |intros ?].
        { stable_with frame_opts. }
        apply stable_bind; [tc_solve| |intros ?; apply stable_ret; tc_solve].
        eapply py_import_plain; [exact Hplain|]. apply list_elem_of_here.
      - intros e. autounfold with py. stable_with frame_opts. }
    intros r w4 Hr. by apply S in Hr. }
  apply bind_ok_inv in H as (dt & w4 & Htech & H).
  eapply py_import_plain in Htech;
    [|exact Hplain|apply list_elem_of_further, list_elem_of_here].
  unfold keeps_opts in Htech.
  apply bind_ok_inv in H as ([] & w5 & H5 & H).
  apply bind_ok_inv in H as ([] & w6 & H6 & H).
  apply (tech_default_run E _ _ (spice_corners E)) in H5.
  2:{ intros w0. unfold spice_corners, spice_item, bind.
      destruct (spice E !! "fet_models") as [m|]; [|by eexists].
      destruct (dict_keys E m) eqn:Hkeys; simpl; rewrite Hkeys; [done | by eexists]. }
  apply (tech_default_run E _ _ (spice E !! "supply_voltages")) in H6.
  2:{ intros w0. unfold spice_item.
      destruct (spice E !! "supply_voltages"); [done | by eexists]. }
  apply (tech_default_run E _ _ (spice E !! "temperatures")) in H.
  2:{ intros w0. unfold spice_item.
      destruct (spice E !! "temperatures"); [done | by eexists]. }
  rewrite <- Ho2, <- Ho3, <- Htech, H5. simpl. rewrite H6. simpl. exact H.
Qed.

Lemma runs_to {A} (m : M A) (w : world) (a : A) :
  (m w).1 = Ok a → m w = (Ok a, Demo.after m w).
Proof. unfold Demo.after. destruct (m w) as [r w']. simpl. by intros ->. Qed.

(** What the technology module offers for an option. *)
Definition tech_value (E : environ) (k : string) : option value :=
  if bool_decide (k = "process_corners") then spice_corners E else spice E !! k.

Lemma lookup_attr_eq (E : environ) (o o' : store) k :
  o' !! k = o !! k → lookup_attr E o' k = lookup_attr E o k.
Proof. unfold lookup_attr. by intros ->. Qed.

(** X16. [import_tech] takes process corners, supply voltages and
    temperatures from the technology module only where the option still
    reads as the empty string: a value set before is kept. *)
Theorem import_tech_defaults (E : environ) (w w' : world) (tn k : string)
    (v : value) :
  lookup_attr E (opts w) "tech_name" = Some (VStr tn) →
  plain_modules E ["setup_openram_" +:+ tn; "tech"] →
  import_tech E w = (Ok tt, w') →
  k ∈ ["process_corners"; "supply_voltages"; "temperatures"] →
  lookup_attr E (opts w) k = Some v →
  if eq_str v ""
  then opts w' !! k = tech_value E k ∧ is_Some (tech_value E k)
  else lookup_attr E (opts w') k = Some v.
Proof.
  intros Htn Hplain H Hk Hv.
  apply (import_tech_options E w w' tn Htn Hplain) in H.
  unfold tech_options in H. rewrite Htn in H.
  destruct (env_OPENRAM_TECH E) as [root|]; [|done].
  destruct (fill_default E "process_corners" _ _) as [o2|] eqn:H2; [|done].
  simpl in H.
  destruct (fill_default E "supply_voltages" _ o2) as [o3|] eqn:H3; [|done].
  simpl in H.
  repeat (apply elem_of_cons in Hk as [->|Hk]); [| | |by apply elem_of_nil in Hk].
  - eapply fill_default_same in H2; [|by rewrite lookup_attr_insert_ne].
    pose proof (fill_default_other _ _ _ _ _ "process_corners" H3 ltac:(done)) as K3.
    pose proof (fill_default_other _ _ _ _ _ "process_corners" H ltac:(done)) as K4.
    destruct (eq_str v "").
    + destruct H2 as [H2 ?]. split; [|done]. by rewrite K4, K3.
    + subst o2. rewrite (lookup_attr_eq E o3), (lookup_attr_eq E _ o3) by done.
      by rewrite lookup_attr_insert_ne.
  - pose proof (fill_default_other _ _ _ _ _ "supply_voltages" H2 ltac:(done)) as K2.
    eapply fill_default_same in H3.
    2:{ rewrite (lookup_attr_eq E _ _ _ K2). by rewrite lookup_attr_insert_ne. }
    pose proof (fill_default_other _ _ _ _ _ "supply_voltages" H ltac:(done)) as K4.
    destruct (eq_str v "").
    + destruct H3 as [H3 ?]. split; [|done]. by rewrite K4.
    + subst o3. rewrite (lookup_attr_eq E _ _ _ K4), (lookup_attr_eq E _ _ _ K2).
      by rewrite lookup_attr_insert_ne.
  - pose proof (fill_default_other _ _ _ _ _ "temperatures" H2 ltac:(done)) as K2.
    pose proof (fill_default_other _ _ _ _ _ "temperatures" H3 ltac:(done)) as K3.
    eapply fill_default_same in H.
    2:{ rewrite (lookup_attr_eq E _ _ _ K3), (lookup_attr_eq E _ _ _ K2).
        by rewrite lookup_attr_insert_ne. }
    destruct (eq_str v "").
    + done.
    + rewrite H, (lookup_attr_eq E _ _ _ K3), (lookup_attr_eq E _ _ _ K2).
      by rewrite lookup_attr_insert_ne.
Qed.

Lemma import_tech_defaults_witness :
  opts (Demo.after (import_tech Demo.env) DemoMore.corners_set)
    !! "supply_voltages" = Some (VRef 2) ∧
  lookup_attr Demo.env
    (opts (Demo.after (import_tech Demo.env) DemoMore.corners_set))
    "process_corners" = Some (VStr "TT").
Proof.
  split.
  - apply (import_tech_defaults Demo.env DemoMore.corners_set _ "freepdk45"
             "supply_voltages" (VStr "")).
    + reflexivity.
    + intros name sp m o Hname Hm.
      repeat (apply elem_of_cons in Hname as [->|Hname]);
        [| |by apply elem_of_nil in Hname];
        vm_compute in Hm; injection Hm as <-; reflexivity.
    + apply runs_to. by_compute.
    + by_compute.
    + reflexivity.
  - apply (import_tech_defaults Demo.env DemoMore.corners_set _ "freepdk45"
             "process_corners" (VStr "TT")).
    + reflexivity.
    + intros name sp m o Hname Hm.
      repeat (apply elem_of_cons in Hname as [->|Hname]);
        [| |by apply elem_of_nil in Hname];
        vm_compute in Hm; injection Hm as <-; reflexivity.
    + apply runs_to. by_compute.
    + by_compute.
    + reflexivity.
Defined.

(** X17. When [import_tech] returns, [OPTS.openram_tech] is the absolute
    form of [$OPENRAM_TECH] followed by the technology name, with a
    separator at its end. *)
Theorem import_tech_path (E : environ) (w w' : world) (tn root : string) :
  lookup_attr E (opts w) "tech_name" = Some (VStr tn) →
  plain_modules E ["setup_openram_" +:+ tn; "tech"] →
  env_OPENRAM_TECH E = Some root →
  import_tech E w = (Ok tt, w') →
  opts w' !! "openram_tech"
    = Some (VStr (with_separator (FS.abspath (cwd E) root +:+ "/" +:+ tn))).
Proof.
  intros Htn Hplain Hroot H.
  apply (import_tech_options E w w' tn Htn Hplain) in H.
  unfold tech_options in H. rewrite Htn, Hroot in H.
  destruct (fill_default E "process_corners" _ _) as [o2|] eqn:H2; [|done].
  simpl in H.
  destruct (fill_default E "supply_voltages" _ o2) as [o3|] eqn:H3; [|done].
  simpl in H.
  rewrite (fill_default_other _ _ _ _ _ "openram_tech" H ltac:(done)).
  rewrite (fill_default_other _ _ _ _ _ "openram_tech" H3 ltac:(done)).
  rewrite (fill_default_other _ _ _ _ _ "openram_tech" H2 ltac:(done)).
  apply lookup_insert_eq.
Qed.

Lemma import_tech_path_witness :
  opts (Demo.after (import_tech Demo.env) DemoMore.corners_set) !! "openram_tech"
    = Some (VStr "/opt/openram/technology/freepdk45/").
Proof.
  apply (import_tech_path Demo.env DemoMore.corners_set _ "freepdk45"
           "/opt/openram/technology").
  - reflexivity.
  - intros name sp m o Hname Hm.
    repeat (apply elem_of_cons in Hname as [->|Hname]);
      [| |by apply elem_of_nil in Hname];
      vm_compute in Hm; injection Hm as <-; reflexivity.
  - reflexivity.
  - apply runs_to. by_compute.
Defined.

(** X18. When the set-up module of the technology is not found,
    [import_tech] reports the missing file and ends the process: with
    status 1, unless the report itself ends it. *)
Theorem import_tech_missing_setup (E : environ) (w : world) (tn root : string) :
  lookup_attr E (opts w) "tech_name" = Some (VStr tn) →
  env_OPENRAM_TECH E = Some root →
  FS.isdir (cwd E) (fs w) (FS.abspath (cwd E) root) = true →
  FS.isdir (cwd E) (fs w) (root +:+ "/setup_scripts") = true →
  sys_modules w !! ("setup_openram_" +:+ tn) = None →
  find_module E ("setup_openram_" +:+ tn)
    (sys_path w ++ [FS.abspath (cwd E) (root +:+ "/setup_scripts")]) = None →
  ∃ w', import_tech E w = (Raise (Exit (default 1 (error0 E))), w') ∧
        last (trace w')
          = Some (EvError ("Nonexistent technology_setup_file: setup_openram_"
                           +:+ tn +:+ ".py") 0) ∧
        fs w' = fs w ∧ checkpoint w' = checkpoint w.
Proof.
  intros Htn Hroot Hdir Hscripts Hmod Hfind. unfold import_tech.
  rewrite Hroot. simpl.
  erewrite bind_ok by by apply getattr_run.
  erewrite bind_ok by reflexivity.
  erewrite bind_ok by reflexivity.
  erewrite bind_ok by (unfold os_path_isdir, bind, get, ret; simpl; by rewrite Hdir).
  erewrite bind_ok by reflexivity.
  erewrite bind_ok by by apply getattr_run.
  erewrite bind_ok by reflexivity.
  erewrite bind_ok by reflexivity.
  erewrite bind_ok by (apply getattr_run, lookup_attr_insert).
  erewrite bind_ok by reflexivity.
  set (p := FS.abspath (cwd E) root +:+ "/" +:+ tn).
  assert (∃ w1, when (negb (Str.endswith "/" p))
                  (setattr "openram_tech" (VStr (p +:+ "/")))
                  (set_opts <["openram_tech" := VStr p]> w) = (Ok tt, w1) ∧
                lookup_attr E (opts w1) "tech_name" = Some (VStr tn) ∧
                fs w1 = fs w ∧ checkpoint w1 = checkpoint w ∧
                sys_modules w1 = sys_modules w ∧ sys_path w1 = sys_path w)
    as (w1 & Hw1 & Htn1 & Hfs & Hcp & Hmods & Hsp).
  { destruct (Str.endswith "/" p); simpl; eexists; (split; [reflexivity|]); simpl;
      by rewrite !lookup_attr_insert_ne. }
  erewrite bind_ok by exact Hw1.
  erewrite bind_ok by by apply getattr_run.
  simpl py_str. unfold catch, bind at 1.
  unfold os_path_isdir, py_import, debug_check, debug_error, bind, get, modify,
    ret, raise. simpl.
  rewrite Hfs, Hscripts. simpl. rewrite Hmods, Hmod, Hsp, Hfind. simpl.
  destruct (error0 E); simpl; eexists; (split; [reflexivity|]); simpl;
    by rewrite last_snoc.
Qed.

Lemma import_tech_missing_setup_witness :
  ∃ w', import_tech Demo.env DemoMore.unknown_tech = (Raise (Exit 1), w') ∧
        last (trace w')
          = Some (EvError "Nonexistent technology_setup_file: setup_openram_nosuch.py" 0) ∧
        fs w' = Demo.root ∧ checkpoint w' = None.
Proof.
  apply (import_tech_missing_setup Demo.env DemoMore.unknown_tech "nosuch"
           "/opt/openram/technology").
  - reflexivity.
  - reflexivity.
  - by_compute.
  - by_compute.
  - reflexivity.
  - reflexivity.
Defined.

(** ** [check_versions] *)

(** X19. [init_openram] does nothing but report the version of Python and
    end the process with status -1 when that version is not 3.5 or a later
    3.x: a later major version is turned down as well. *)
Theorem init_openram_rejects_version (E : environ) (config_file : string)
    (is_unit_test : bool) (w : world) :
  ¬ ((python_version E).1 = 3 ∧ (5 ≤ (python_version E).2)%Z) →
  init_openram E config_file is_unit_test w
    = (Raise (Exit (-1)),
       log (EvError "Python 3.5 or greater is required." (-1)) w).
Proof.
  intros Hv. unfold init_openram, check_versions.
  destruct (python_version E) as [major minor]. simpl in Hv.
  assert (Z.eqb major 3 && Z.leb 5 minor = false) as ->.
  { apply andb_false_iff.
    destruct (Z.eqb_spec major 3), (Z.leb_spec 5 minor); auto.
    exfalso. apply Hv. split; [done | lia]. }
  reflexivity.
Qed.

Lemma init_openram_rejects_version_witness :
  init_openram DemoMore.python4 "config_a" false Demo.start
    = (Raise (Exit (-1)),
       log (EvError "Python 3.5 or greater is required." (-1)) Demo.start).
Proof.
  apply (init_openram_rejects_version DemoMore.python4 "config_a" false Demo.start).
  simpl. lia.
Defined.

(** ** [is_exe] and [find_exe] *)

Lemma join_absolute a b : Str.isabs b = true → Str.join a b = b.
Proof. unfold Str.isabs, Str.join. by intros ->. Qed.

(** X20. For an absolute name [find_exe] does not look into the
    directories of [$PATH]: it returns the name itself when that is
    executable, and [None] otherwise. *)
Theorem find_exe_absolute_name (E : environ) (w : world) (check_exe p : string) :
  Str.isabs check_exe = true →
  env_PATH E = Some p →
  find_exe E check_exe w
    = (Ok (if executable E w check_exe then Some check_exe else None), w).
Proof.
  intros Habs Hp. unfold find_exe. rewrite Hp.
  pose proof (split_not_nil ":"%char p) as Hne.
  induction (Str.split ":"%char p) as [|d dirs IH]; [done|].
  cbn [find_exe_in]. rewrite (join_absolute _ _ Habs).
  erewrite bind_ok by apply is_exe_run.
  destruct (executable E w check_exe) eqn:Hx; [done|].
  destruct dirs as [|d' dirs]; [done|]. by apply IH.
Qed.

Lemma find_exe_absolute_name_witness :
  find_exe Demo.env "/usr/bin/ngspice" Demo.start
    = (Ok (if executable Demo.env Demo.start "/usr/bin/ngspice"
           then Some "/usr/bin/ngspice" else None), Demo.start) ∧
  executable Demo.env Demo.start "/usr/bin/ngspice" = true.
Proof.
  split; [|by_compute].
  apply (find_exe_absolute_name Demo.env Demo.start "/usr/bin/ngspice"
           "/usr/local/bin:/usr/bin"); reflexivity.
Defined.

Lemma find_exe_in_inv (E : environ) dirs name w r w' :
  find_exe_in E dirs name w = (r, w') →
  w' = w ∧
  ∃ x, r = Ok x ∧
    match x with
    | Some exe =>
        ∃ before d after,
          dirs = before ++ d :: after ∧ exe = Str.join d name ∧
          executable E w exe = true ∧
          ∀ d', d' ∈ before → executable E w (Str.join d' name) = false
    | None => ∀ d, d ∈ dirs → executable E w (Str.join d name) = false
    end.
Proof.
  revert r w'. induction dirs as [|d dirs IH]; intros r w'; cbn [find_exe_in].
  - intros [= <- <-]. split; [done|]. exists None. split; [done|].
    intros d Hd. by apply elem_of_nil in Hd.
  - erewrite bind_ok by apply is_exe_run.
    destruct (executable E w (Str.join d name)) eqn:Hx.
    + intros [= <- <-]. split; [done|]. eexists. split; [done|].
      exists [], d, dirs. repeat split; [done|].
      intros d' Hd'. by apply elem_of_nil in Hd'.
    + intros H. apply IH in H as (-> & x & -> & H). split; [done|].
      exists x. split; [done|]. destruct x as [exe|].
      * destruct H as (before & d0 & after & -> & -> & Hexe & Hbefore).
        exists (d :: before), d0, after. repeat split; [done|].
        intros d' [->|Hd']%elem_of_cons; [done | by apply Hbefore].
      * intros d' [->|Hd']%elem_of_cons; [done | by apply H].
Qed.

(** X21. [find_exe] changes nothing.  A path it returns is the name joined
    to the first entry of [$PATH] under which it is executable; [None] means
    that there is no such entry; and it raises only for want of [$PATH]. *)
Theorem find_exe_returns_first (E : environ) (w w' : world) (check_exe : string)
    (r : result (option string)) :
  find_exe E check_exe w = (r, w') →
  w' = w ∧
  match r with
  | Ok (Some exe) =>
      ∃ p before d after,
        env_PATH E = Some p ∧ Str.split ":"%char p = before ++ d :: after ∧
        exe = Str.join d check_exe ∧ executable E w exe = true ∧
        ∀ d', d' ∈ before → executable E w (Str.join d' check_exe) = false
  | Ok None =>
      ∃ p, env_PATH E = Some p ∧
           ∀ d, d ∈ Str.split ":"%char p →
                executable E w (Str.join d check_exe) = false
  | Raise e => e = PyError "KeyError" ∧ env_PATH E = None
  end.
Proof.
  unfold find_exe. destruct (env_PATH E) as [p|]; [|by intros [= <- <-]].
  intros H. apply find_exe_in_inv in H as (-> & x & -> & H). split; [done|].
  destruct x as [exe|].
  - destruct H as (before & d & after & ? & ? & ? & ?). by exists p, before, d, after.
  - by exists p.
Qed.

Lemma find_exe_returns_first_witness :
  ∃ p before d after,
    env_PATH Demo.env = Some p ∧ Str.split ":"%char p = before ++ d :: after ∧
    "/usr/bin/hspice" = Str.join d "hspice" ∧
    executable Demo.env Demo.start "/usr/bin/hspice" = true ∧
    ∀ d', d' ∈ before → executable Demo.env Demo.start (Str.join d' "hspice") = false.
Proof.
  apply (find_exe_returns_first Demo.env Demo.start Demo.start "hspice"
           (Ok (Some "/usr/bin/hspice"))).
  vm_compute. reflexivity.
Defined.

(** X22. [is_exe] does not tell a file from a directory: a directory that
    its owner may search counts as executable. *)
Theorem is_exe_directory (E : environ) (w : world) (fpath : string) (p : path)
    (m : Z) (es : gmap string node) :
  FS.stat (cwd E) (fs w) fpath = Some (p, Dir m es) →
  Z.testbit m 6 = true →
  is_exe E fpath w = (Ok true, w).
Proof.
  intros Hstat Hbit. rewrite is_exe_run. unfold executable, FS.exists_, FS.access_x.
  rewrite Hstat, Hbit. by rewrite bool_decide_eq_true_2.
Qed.

Lemma is_exe_directory_witness :
  is_exe Demo.env "/usr/bin" Demo.start = (Ok true, Demo.start).
Proof.
  apply (is_exe_directory Demo.env Demo.start "/usr/bin" ["usr"; "bin"] 493
           (list_to_map [ ("ngspice", File 493); ("spice", Link "ngspice");
                          ("hspice", File 493) ])).
  - vm_compute. reflexivity.
  - reflexivity.
Defined.

(** ** [report_status] *)

(** The lines [report_status] prints for a store. *)
Definition status_lines (E : environ) (word_size num_words num_banks tech_name
    netlist_only check_lvsdrc : value) : list event :=
  [ EvPrint ("Technology: " +:+ py_str E tech_name);
    EvPrint ("Word size: " +:+ py_str E word_size +:+ Str.newline
             +:+ "Words: " +:+ py_str E num_words +:+ Str.newline
             +:+ "Banks: " +:+ py_str E num_banks) ]
  ++ (if truthy E netlist_only
      then [EvPrint "Netlist only mode (no physical design is being done)."]
      else [])
  ++ (if truthy E check_lvsdrc then []
      else [EvPrint "DRC/LVS/PEX checking is disabled."]).

(** X23. With integers for word size, words and banks and a technology
    name, [report_status] reports no error and changes nothing: it prints
    the technology, the sizes, and a line each for netlist-only mode and for
    checks that are off. *)
Theorem report_status_clean (E : environ) (w : world)
    (word_size num_words num_banks tech_name netlist_only check_lvsdrc : value) :
  lookup_attr E (opts w) "word_size" = Some word_size →
  lookup_attr E (opts w) "num_words" = Some num_words →
  lookup_attr E (opts w) "num_banks" = Some num_banks →
  lookup_attr E (opts w) "tech_name" = Some tech_name →
  lookup_attr E (opts w) "netlist_only" = Some netlist_only →
  lookup_attr E (opts w) "check_lvsdrc" = Some check_lvsdrc →
  is_int word_size = true → is_int num_words = true → is_int num_banks = true →
  truthy E tech_name = true →
  report_status E w
    = (Ok tt,
       World (opts w) (checkpoint w) (fs w) (sys_path w) (sys_modules w)
             (trace w ++ status_lines E word_size num_words num_banks tech_name
                                      netlist_only check_lvsdrc)).
Proof.
  intros Hws Hnw Hnb Htn Hno Hcl Iws Inw Inb Ttn. unfold report_status.
  erewrite bind_ok by by apply getattr_run. rewrite Iws.
  erewrite bind_ok by reflexivity.
  erewrite bind_ok by by apply getattr_run. rewrite Inw.
  erewrite bind_ok by reflexivity.
  erewrite bind_ok by by apply getattr_run. rewrite Inb.
  erewrite bind_ok by reflexivity.
  erewrite bind_ok by by apply getattr_run. rewrite Ttn.
  erewrite bind_ok by reflexivity.
  erewrite bind_ok by by apply getattr_run.
  erewrite bind_ok by reflexivity.
  erewrite bind_ok by by apply getattr_run.
  erewrite bind_ok by by apply getattr_run.
  erewrite bind_ok by by apply getattr_run.
  erewrite bind_ok by reflexivity.
  erewrite bind_ok by by apply getattr_run.
  unfold status_lines.
  destruct (truthy E netlist_only) eqn:Tno; simpl.
  - erewrite bind_ok by reflexivity.
    erewrite bind_ok by by apply getattr_run.
    destruct (truthy E check_lvsdrc); simpl; unfold modify, log; simpl;
      repeat (rewrite <- app_assoc; simpl); reflexivity.
  - erewrite bind_ok by reflexivity.
    erewrite bind_ok by by apply getattr_run.
    destruct (truthy E check_lvsdrc); simpl; unfold modify, log; simpl;
      repeat (rewrite <- app_assoc; simpl); reflexivity.
Qed.

Lemma report_status_clean_witness :
  report_status Demo.env Demo.booted
    = (Ok tt,
       World (opts Demo.booted) (checkpoint Demo.booted) (fs Demo.booted)
             (sys_path Demo.booted) (sys_modules Demo.booted)
             (trace Demo.booted
                ++ status_lines Demo.env (VInt 32) (VInt 128) (VInt 1)
                     (VStr "freepdk45") (VBool false) (VBool true))).
Proof.
  apply (report_status_clean Demo.env Demo.booted (VInt 32) (VInt 128) (VInt 1)
           (VStr "freepdk45") (VBool false) (VBool true));
    first [reflexivity | by_compute].
Defined.

Lemma when_error_ok (E : environ) (b : bool) msg s w w' :
  error0 E = Some s →
  when b (debug_error E msg 0) w = (Ok tt, w') → b = false ∧ w' = w.
Proof.
  intros Hs. destruct b; simpl; [|by intros [= <-]].
  unfold debug_error, bind, modify, raise. simpl. by rewrite Hs.
Qed.

(** X24. Where [debug.error] ends the process, [report_status] returns
    only for a store with integers as word size, number of words and number
    of banks and with a technology name; the options are as before. *)
Theorem report_status_validates (E : environ) (w w' : world) (s : Z) :
  error0 E = Some s →
  report_status E w = (Ok tt, w') →
  opts w' = opts w ∧
  ∃ word_size num_words num_banks tech_name,
    lookup_attr E (opts w) "word_size" = Some (VInt word_size) ∧
    lookup_attr E (opts w) "num_words" = Some (VInt num_words) ∧
    lookup_attr E (opts w) "num_banks" = Some (VInt num_banks) ∧
    lookup_attr E (opts w) "tech_name" = Some tech_name ∧
    truthy E tech_name = true.
Proof.
  intros Hs H. unfold report_status in H.
  apply bind_ok_inv in H as (ws & w1 & Hws & H). apply getattr_ok in Hws as [-> Hws].
  apply bind_ok_inv in H as ([] & w1 & H1 & H).
  apply (when_error_ok E _ _ s) in H1 as [Iws ->]; [|done].
  apply bind_ok_inv in H as (nw & w1 & Hnw & H). apply getattr_ok in Hnw as [-> Hnw].
  apply bind_ok_inv in H as ([] & w1 & H1 & H).
  assert (is_int nw = true ∧ w1 = w) as [Inw ->].
  { destruct (is_int nw); simpl in H1; [by injection H1|].
    apply bind_ok_inv in H1 as (v & w2 & _ & H1).
    unfold debug_error, bind, modify, raise in H1. simpl in H1.
    by rewrite Hs in H1. }
  clear H1.
  apply bind_ok_inv in H as (nb & w1 & Hnb & H). apply getattr_ok in Hnb as [-> Hnb].
  apply bind_ok_inv in H as ([] & w1 & H1 & H).
  apply (when_error_ok E _ _ s) in H1 as [Inb ->]; [|done].
  apply bind_ok_inv in H as (tn & w1 & Htn & H). apply getattr_ok in Htn as [-> Htn].
  apply bind_ok_inv in H as ([] & w1 & H1 & H).
  apply (when_error_ok E _ _ s) in H1 as [Ttn ->]; [|done].
  split.
  - assert (keeps_opts w w) as T by reflexivity. revert H T.
    generalize w at 1 3 as w0. intros w0 H T.
    lazymatch type of H with
    | ?m _ = _ => assert (stable keeps_opts m) as S
    end.
    { autounfold with py. stable_with frame_opts. }
    apply S in H. unfold keeps_opts in *. congruence.
  - destruct ws; try done. destruct nw; try done. destruct nb; try done.
    apply negb_false_iff in Ttn. eauto 10.
Qed.

Lemma report_status_validates_witness :
  opts (Demo.after (report_status Demo.strict_env) Demo.booted) = opts Demo.booted ∧
  ∃ word_size num_words num_banks tech_name,
    lookup_attr Demo.strict_env (opts Demo.booted) "word_size"
      = Some (VInt word_size) ∧
    lookup_attr Demo.strict_env (opts Demo.booted) "num_words"
      = Some (VInt num_words) ∧
    lookup_attr Demo.strict_env (opts Demo.booted) "num_banks"
      = Some (VInt num_banks) ∧
    lookup_attr Demo.strict_env (opts Demo.booted) "tech_name" = Some tech_name ∧
    truthy Demo.strict_env tech_name = true.
Proof.
  apply (report_status_validates Demo.strict_env Demo.booted _ 1).
  - reflexivity.
  - apply runs_to. by_compute.
Defined.

(** X25. When the number of words is not an integer, [report_status] asks
    for [OPTS.sram_size] to report it: without that attribute the call
    raises [AttributeError], after the word size has passed its check and
    before anything is reported or printed. *)
Theorem report_status_sram_size (E : environ) (w : world)
    (word_size num_words : value) :
  lookup_attr E (opts w) "word_size" = Some word_size →
  is_int word_size = true →
  lookup_attr E (opts w) "num_words" = Some num_words →
  is_int num_words = false →
  lookup_attr E (opts w) "sram_size" = None →
  report_status E w = (Raise (PyError "AttributeError"), w).
Proof.
  intros Hws Iws Hnw Inw Hsize. unfold report_status.
  erewrite bind_ok by by apply getattr_run. rewrite Iws.
  erewrite bind_ok by reflexivity.
  erewrite bind_ok by by apply getattr_run. rewrite Inw. simpl.
  unfold bind at 1. unfold bind at 1. unfold getattr at 1, bind, get. simpl.
  by rewrite Hsize.
Qed.

Lemma report_status_sram_size_witness :
  report_status Demo.env
      (set_opts (insert "num_words" (VStr "128")) Demo.booted)
    = (Raise (PyError "AttributeError"),
       set_opts (insert "num_words" (VStr "128")) Demo.booted).
Proof.
  apply (report_status_sram_size Demo.env _ (VInt 32) (VStr "128"));
    first [reflexivity | by_compute].
Defined.

(** ** [init_openram] *)

(** X26. A test run of [init_openram] that finds a checkpoint and returns
    ends with the checkpoint as options, and has asked for the import of the
    configuration module during the call all the same. *)
Theorem init_openram_test_run (E : environ) (config_file : string)
    (w w' : world) (c : store) :
  checkpoint w = Some c →
  init_openram E config_file true w = (Ok tt, w') →
  opts w' = c ∧ checkpoint w' = Some c ∧
  ∃ pre post,
    trace w' = trace w ++ pre
                 ++ EvImportCall (Str.basename (config_path E config_file)) :: post.
Proof.
  intros Hck H.
  apply init_openram_run in H
    as [(e & [=] & _)|(w0 & w1 & w2 & Hsetup & Hcfg & T0 & w3 & T3 & C & H)].
  apply restore_or_capture_run in H as [T4 H]. rewrite C, Hck in H.
  destruct H as [? [_ ?]]; [done|]. split; [done|]. split; [done|].
  apply setup_paths_trace in Hsetup.
  apply read_config_merged in Hcfg as (config & w5 & _ & _ & Himp & Hfin).
  assert (extends_trace w5 w2) as T5.
  { assert (stable extends_trace (finish_config E true)) as Hst
      by (unfold finish_config; autounfold with py; stable_with frame_trace).
    apply Hst in Hfin. exact Hfin. }
  assert (extends_trace w w1) as [pre Hpre] by by etrans.
  assert (trace w1 ++ [EvImportCall (Str.basename (config_path E config_file))]
            `prefix_of` trace w') as [post ->].
  { etrans; [exact Himp|]. etrans; [exact T5|]. by etrans. }
  exists pre, post. rewrite Hpre. by rewrite <- !app_assoc.
Qed.

Lemma init_openram_test_run_witness :
  opts (Demo.after (init_openram Demo.env "config_b" true) Demo.booted)
    = opts Demo.booted ∧
  checkpoint (Demo.after (init_openram Demo.env "config_b" true) Demo.booted)
    = Some (opts Demo.booted) ∧
  ∃ pre post,
    trace (Demo.after (init_openram Demo.env "config_b" true) Demo.booted)
      = trace Demo.booted ++ pre
          ++ EvImportCall (Str.basename (config_path Demo.env "config_b")) :: post.
Proof.
  apply (init_openram_test_run Demo.env "config_b" Demo.booted).
  - by_compute.
  - apply runs_to. by_compute.
Defined.

(** ** Modules that are loaded already *)

Definition is_load (e : event) : bool :=
  match e with EvLoad _ => true | _ => false end.

(** No module is loaded: [sys.modules] stays and no body is run. *)
Definition loads_nothing (w w' : world) : Prop :=
  sys_modules w' = sys_modules w ∧
  ∃ post, trace w' = trace w ++ post ∧ Forall (λ e, is_load e = false) post.

#[global] Instance loads_nothing_preorder : PreOrder loads_nothing.
Proof.
  split.
  - intros w. split; [done|]. exists []. by rewrite app_nil_r.
  - intros w1 w2 w3 [M1 (p1 & T1 & F1)] [M2 (p2 & T2 & F2)].
    split; [congruence|]. exists (p1 ++ p2).
    split; [by rewrite T2, T1, app_assoc | by apply Forall_app].
Qed.

Ltac frame_loads :=
  split; [done|];
  first [ exists []; split; [simpl; by rewrite app_nil_r | constructor]
        | eexists [_]; split; [reflexivity | by repeat constructor] ].

Lemma py_import_cached (E : environ) name d w :
  sys_modules w !! name = Some d →
  py_import E name w = (Ok d, log (EvImportCall name) w).
Proof. intros H. unfold py_import, bind, modify, get, ret. simpl. by rewrite H. Qed.

(** X27. A configuration module that is loaded already is not run again:
    [read_config] takes it from [sys.modules], so that a second call for the
    same file merges the names of the first load whatever the file holds by
    then. *)
Theorem read_config_cached_module (E : environ) (config_file : string)
    (is_unit_test : bool) (w w' : world) (r : result unit) (d : items) :
  sys_modules w !! Str.basename (config_path E config_file) = Some d →
  read_config E config_file is_unit_test w = (r, w') →
  sys_modules w' = sys_modules w ∧
  ∃ post,
    trace w' = trace w
                 ++ EvImportCall (Str.basename (config_path E config_file)) :: post ∧
    (∀ name, EvLoad name ∉ post) ∧
    ∀ k, k ≠ "tech_name" → is_Some (opts w !! k) ∨ k ∉ d.*1 →
         k ∉ ["output_path"; "is_unit_test"; "check_lvsdrc"; "output_name"] →
         opts w' !! k = opts w !! k.
Proof.
  intros Hd H. unfold read_config in H.
  unfold bind at 1, modify at 1 in H.
  unfold bind at 1, catch in H.
  rewrite (py_import_cached E _ d) in H by done.
  rewrite (bind_ok _ _ _ _ _ (merge_config_run d _)) in H.
  match type of H with
  | ?m ?w0 = _ =>
      assert (stable loads_nothing m) as S1;
      [|assert (∀ k, k ∉ ["output_path"; "is_unit_test"; "check_lvsdrc";
                          "output_name"] → stable (keeps_attr k) m) as S2]
  end.
  { autounfold with py. stable_with frame_loads. }
  { intros k Hk.
    assert (k ≠ "output_path" ∧ k ≠ "is_unit_test" ∧ k ≠ "check_lvsdrc"
            ∧ k ≠ "output_name") as (? & ? & ? & ?).
    { rewrite !not_elem_of_cons in Hk. tauto. }
    autounfold with py. stable_with ltac:(frame_attr). }
  pose proof (S1 _ _ _ H) as [Hm (post & Ht & Hpost)].
  split; [exact Hm|]. exists post. simpl in Ht.
  split; [by rewrite Ht, <- app_assoc|]. split.
  - intros name Hin. rewrite Forall_forall in Hpost. by apply Hpost in Hin.
  - intros k Hk Hin Hout. rewrite (S2 k Hout _ _ _ H). simpl.
    destruct Hin as [Hin|Hin];
      [by apply merge_fold_set_key | by apply merge_fold_absent_key].
Qed.

Lemma read_config_cached_module_witness :
  sys_modules (Demo.after (read_config Demo.env "config_a" true) Demo.booted)
    = sys_modules Demo.booted ∧
  ∃ post,
    trace (Demo.after (read_config Demo.env "config_a" true) Demo.booted)
      = trace Demo.booted
          ++ EvImportCall (Str.basename (config_path Demo.env "config_a")) :: post ∧
    (∀ name, EvLoad name ∉ post) ∧
    ∀ k, k ≠ "tech_name" →
         is_Some (opts Demo.booted !! k) ∨ k ∉ Demo.config_a.*1 →
         k ∉ ["output_path"; "is_unit_test"; "check_lvsdrc"; "output_name"] →
         opts (Demo.after (read_config Demo.env "config_a" true) Demo.booted) !! k
           = opts Demo.booted !! k.
Proof.
  apply (read_config_cached_module Demo.env "config_a" true Demo.booted _ (Ok tt)
           Demo.config_a).
  - by_compute.
  - apply runs_to. by_compute.
Defined.

(** ** The mode of the temporary directory *)

(** X28. A temporary directory that is not there is made by [setup_paths]
    with mode 0750 less the bits of the umask; nothing else in the file
    system changes. *)
Theorem setup_paths_makes_temp (E : environ) (w w' : world) (t : string)
    (purge : value) (root' : node) :
  setup_paths E w = (Ok tt, w') →
  lookup_attr E (opts w) "openram_temp" = Some (VStr t) →
  lookup_attr E (opts w) "purge_temp" = Some purge →
  FS.exists_ (cwd E) (fs w) (with_separator t) = false →
  FS.mkdirs (umask E) 488 (FS.path_of (cwd E) (with_separator t)) (fs w)
    = inr root' →
  fs w' = root' ∧
  FS.lookup_path (FS.path_of (cwd E) (with_separator t)) (fs w')
    = Some (Dir (Z.land 488 (Z.lnot (umask E))) ∅).
Proof.
  intros H Ht Hpurge Hmissing Hmk.
  apply setup_paths_ok in H as (h & t' & w1 & _ & Ht' & Hfs & Hopts & _ & H).
  assert (t' = t) as -> by congruence.
  assert (lookup_attr E (opts w1) "openram_temp" = Some (VStr (with_separator t)))
    as Htemp.
  { rewrite Hopts. unfold with_separator.
    destruct (Str.endswith "/" t); [done | apply lookup_attr_insert]. }
  assert (lookup_attr E (opts w1) "purge_temp" = Some purge) as Hpurge1.
  { rewrite Hopts. destruct (Str.endswith "/" t); [done|].
    by rewrite lookup_attr_insert_ne. }
  rewrite <- Hfs in Hmissing, Hmk.
  assert (cleanup_paths E w1 = (Ok tt, w1)) as Hclean.
  { unfold cleanup_paths.
    erewrite bind_ok by by apply getattr_run.
    destruct (truthy E purge); simpl.
    - erewrite bind_ok by by apply getattr_run.
      unfold str_arg, os_path_exists, bind, get, ret. simpl. by rewrite Hmissing.
    - by erewrite bind_ok by by apply getattr_run. }
  erewrite bind_ok in H by exact Hclean.
  erewrite bind_ok in H by by apply getattr_run.
  erewrite bind_ok in H by reflexivity.
  unfold makedirs_or_chmod, os_makedirs, catch, bind, modify, get in H.
  simpl in H.
  rewrite bool_decide_eq_false_2 in H by apply with_separator_not_empty.
  rewrite Hmk in H. injection H as <-. simpl. split; [done|].
  by eapply lookup_mkdirs.
Qed.

Lemma setup_paths_makes_temp_witness :
  FS.lookup_path (FS.path_of (cwd Demo.env) (with_separator "/tmp/fresh"))
    (fs (Demo.after (setup_paths Demo.env) DemoMore.fresh_temp))
  = Some (Dir (Z.land 488 (Z.lnot (umask Demo.env))) ∅).
Proof.
  apply (setup_paths_makes_temp Demo.env DemoMore.fresh_temp _ "/tmp/fresh"
           (VBool true)
           (fs (Demo.after (setup_paths Demo.env) DemoMore.fresh_temp))).
  - vm_compute. reflexivity.
  - reflexivity.
  - reflexivity.
  - by_compute.
  - vm_compute. reflexivity.
Defined.

(** ** The banner *)

(** The world after the events [es]. *)
Definition logs (es : list event) (w : world) : world :=
  World (opts w) (checkpoint w) (fs w) (sys_path w) (sys_modules w) (trace w ++ es).

Lemma log_logs e es w : log e (logs es w) = logs (es ++ [e]) w.
Proof. unfold log, logs. cbn. by rewrite app_assoc. Qed.

Lemma str_length_app (s t : string) :
  String.length (s +:+ t) = (String.length s + String.length t)%nat.
Proof.
  induction s as [|c s IH]; [done|].
  change (String c s +:+ t) with (String c (s +:+ t)). simpl. by rewrite IH.
Qed.

Lemma length_spaces n : String.length (spaces n) = n.
Proof. unfold spaces. induction n as [|n IH]; simpl; [done | by rewrite IH]. Qed.

Lemma length_center s width :
  String.length (center s width) = (String.length s `max` width)%nat.
Proof.
  unfold center. destruct (Nat.leb_spec width (String.length s)) as [Hle|Hlt].
  - lia.
  - rewrite !str_length_app, !length_spaces.
    assert ((width - String.length s) / 2
            + (if Nat.odd (width - String.length s) && Nat.odd width then 1 else 0)
            ≤ width - String.length s)%nat.
    { set (m := (width - String.length s)%nat). assert (1 ≤ m)%nat by lia.
      pose proof (Nat.div_mod_eq m 2). pose proof (Nat.mod_upper_bound m 2).
      destruct (Nat.odd m && Nat.odd width) eqn:Hodd; [|lia].
      apply andb_true_iff in Hodd as [Hodd _].
      destruct (decide (m = 1%nat)) as [->|]; [simpl; lia|]. lia. }
    lia.
Qed.

Lemma length_banner_line s :
  String.length (banner_line s) = (20 + (String.length s `max` 60))%nat.
Proof.
  unfold banner_line. rewrite !str_length_app, length_center. simpl. lia.
Qed.

(** X29. [print_banner] prints nothing in a unit test.  Otherwise it
    prints the thirteen lines of the banner, and all of them are 80 columns
    wide as long as the name of the temporary directory has at most 50
    characters; a longer name makes its line longer than the rest. *)
Theorem print_banner_lines (E : environ) (w : world) (u t : value) :
  lookup_attr E (opts w) "is_unit_test" = Some u →
  lookup_attr E (opts w) "openram_temp" = Some t →
  ∃ w', print_banner E w = (Ok tt, w') ∧
        opts w' = opts w ∧ fs w' = fs w ∧
        trace w' = trace w
          ++ (if truthy E u then [] else EvPrint <$> banner (py_str E t)) ∧
        Forall (λ l, String.length l
                     = if bool_decide (l = banner_line ("Temp dir: " +:+ py_str E t))
                       then (30 + (String.length (py_str E t) `max` 50))%nat
                       else 80%nat)
               (banner (py_str E t)).
Proof.
  intros Hu Ht. unfold print_banner.
  erewrite bind_ok by by apply getattr_run.
  exists (logs (if truthy E u then [] else EvPrint <$> banner (py_str E t)) w).
  split; [|split; [|split; [|split]]].
  - destruct (truthy E u); [unfold logs; rewrite app_nil_r; by destruct w|].
    do 11 (erewrite bind_ok by reflexivity).
    erewrite bind_ok by (apply getattr_run; simpl; exact Ht).
    erewrite bind_ok by reflexivity.
    unfold print, modify.
    change (log (EvPrint banner_rule) w) with (logs [EvPrint banner_rule] w).
    repeat (rewrite log_logs; cbn [app]). reflexivity.
  - done.
  - done.
  - done.
  - assert (String.length (banner_line ("Temp dir: " +:+ py_str E t))
            = (30 + (String.length (py_str E t) `max` 50))%nat) as Htemp.
    { rewrite length_banner_line, str_length_app. simpl. lia. }
    unfold banner. repeat apply Forall_cons_2; [..|apply Forall_nil_2];
      (case_bool_decide as Heq;
         [first [exact Htemp | rewrite Heq; exact Htemp]
         |first [by destruct Heq | by vm_compute]]).
Qed.

Lemma print_banner_lines_witness :
  ∃ w', print_banner Demo.env Demo.booted = (Ok tt, w') ∧
        opts w' = opts Demo.booted ∧ fs w' = fs Demo.booted ∧
        trace w' = trace Demo.booted
          ++ (if truthy Demo.env (VBool false) then []
              else EvPrint <$> banner (py_str Demo.env (VStr "/tmp/openram_temp/"))) ∧
        Forall (λ l, String.length l
                     = if bool_decide
                            (l = banner_line
                                   ("Temp dir: "
                                    +:+ py_str Demo.env (VStr "/tmp/openram_temp/")))
                       then (30 + (String.length
                                     (py_str Demo.env (VStr "/tmp/openram_temp/"))
                                   `max` 50))%nat
                       else 80%nat)
               (banner (py_str Demo.env (VStr "/tmp/openram_temp/"))).
Proof.
  apply (print_banner_lines Demo.env Demo.booted (VBool false)
           (VStr "/tmp/openram_temp/")); by_compute.
Defined.
